(** * The push-to-talk session coordinator (ptt-backend/src/services/websocket.js)

    A shallow embedding of [WebSocketService]: the registry of connections,
    the speaker slot, the request queue, the ban set, the session flag and
    the shutdown timer, together with the part of the Node runtime and of the
    [ws] library the service talks to (socket ready states, the server's
    client set, pending timeouts, process exit).

    Every method of the class is a computation in a small state / output /
    exception monad; the [this.] fields are the record [Service]. *)

From Stdlib Require Import ZArith Lia.
From stdpp Require Import base option list gmap strings.

Local Open Scope Z_scope.

(** ** Data model *)

(** A WebSocket object is identified by its allocation number; a timeout by
    the handle [setTimeout] returned. *)
Abbreviation WS := nat (only parsing).
Abbreviation Timer := nat (only parsing).

(** The identity record built by [verifyClientToken]. *)
Record User := mkUser {
  uid : string;
  name : string;
  email : string;
  picture : option string
}.

Inductive ReadyState := OPEN | CLOSING | CLOSED.

(** The two properties of a socket object the service reads: the library's
    [readyState] and the [user] the service itself attaches at admission
    ([undefined] until then). *)
Record Socket := mkSocket {
  readyState : ReadyState;
  user : option User
}.

(** The message types whose [case] reads a field of [payload]: [payload.uid]
    (kick, remove-request, unkick, grant), [payload.active],
    [payload.targetUid] (answer, ice-candidate), [payload.candidate] and
    [payload.rtt]. *)
Inductive PayloadCase :=
| KickUserCase
| RemoveRequestCase
| ToggleSessionCase
| UnkickUserCase
| GrantFloorCase
| AnswerCase
| IceCandidateCase
| LatencyUpdateCase.

(** Parsed inbound envelopes [{type, payload}]. Negotiation payloads are
    opaque; webrtc-offer and webrtc-stats pass theirs on whole, whatever it
    is. [Unparseable] is a message on which [JSON.parse] throws,
    [UnknownType] one whose type no [case] matches. [NoPayload type] is an
    envelope of a type that reads a payload field but whose [payload] is
    missing or [null], and [JsonNull] is the message [null], which parses but
    cannot be destructured. *)
Inductive InMsg :=
| RegisterAsHost
| SpeakingStarted
| RequestToSpeak
| CancelRequest
| FinishedSpeaking
| ReleaseFloor
| AdminKickUser (targetUid : string)
| AdminRemoveRequest (targetUid : string)
| AdminToggleSession (active : bool)
| AdminReleaseFloor
| AdminUnkickUser (targetUid : string)
| AdminGrantFloor (targetUid : string)
| WebrtcOffer (payload : string)
| WebrtcAnswer (sdp : string) (targetUid : option string)
| WebrtcIceCandidate (candidate : string) (targetUid : option string)
| Ping
| LatencyUpdate (rtt : Z)
| WebrtcStats (payload : string)
| Unparseable
| UnknownType
| NoPayload (type : PayloadCase)
| JsonNull.

(** Outbound envelopes. *)
Inductive OutMsg :=
| SystemSessionStatus (active : bool)
| SystemWelcome (u : User) (serverIP : string)
| SystemSpeakerUpdate (speaker : option User)
| SystemParticipantList (participants : list User)
| SystemRequestQueue (queue : list User)
| SystemBannedList (bannedList : list User)
| SystemSpeakGranted
| SystemRequestAcknowledged
| SystemRequestCancelled
| SystemRequestRemoved
| SystemStudentRequest (u : string) (n : string) (e : string)
| SystemError (message : string)
| OutWebrtcOffer (payload : string) (from : string)
| OutWebrtcAnswer (sdp : string)
| OutWebrtcIceCandidate (candidate : string) (from : option string)
| Pong.

Inductive StatsEvent :=
| SPEAK_PULSE | REQUEST_TO_SPEAK | FLOOR_RELEASED | SPEAK_GRANTED | SPEAK_FINISHED.

(** Calls into [statsService]; nothing is returned to the coordinator. *)
Inductive StatsCall :=
| AddUser (u : User)
| StartOrResumeSession (hostUid : string)
| EndSession
| LogEvent (e : StatsEvent) (u : string)
| AddLatencySample (u : string) (rtt : Z)
| AddWebRTCSample (u : string) (payload : string).

(** What a handler does to the outside world, in program order. *)
Inductive Effect :=
| Send (ws : WS) (data : OutMsg)     (* ws.send(JSON.stringify(data)) *)
| Close (ws : WS)                    (* ws.close() *)
| Stats (c : StatsCall)              (* statsService.<c> *)
| Exit.                              (* process.exit(0) *)

(** The fields of [WebSocketService]. [clients] and [bannedUids] are JS
    [Map]s, which iterate in insertion order: association lists. *)
Record Service := mkService {
  serverIP : string;
  clients : list (WS * string);
  speaker : option WS;
  speakQueue : list WS;
  requestQueue : list WS;
  hostWs : option WS;
  isSessionActive : bool;
  bannedUids : list (string * User);
  lastSpeakTimeMap : gmap string Z;
  shutdownTimer : option Timer
}.

(** The runtime around the service: the socket objects, [wss.clients], the
    timeouts Node still has to run (handle and due time), the next handle,
    and whether [process.exit] was called. *)
Record Runtime := mkRuntime {
  sockets : gmap nat Socket;
  wssClients : list WS;
  timers : list (Timer * Z);
  nextTimer : Timer;
  exited : bool
}.

Record State := mkState { svc : Service; rt : Runtime }.

Definition set_clients v (s : Service) : Service :=
  mkService (serverIP s) v (speaker s) (speakQueue s) (requestQueue s) (hostWs s)
    (isSessionActive s) (bannedUids s) (lastSpeakTimeMap s) (shutdownTimer s).
Definition set_speaker v (s : Service) : Service :=
  mkService (serverIP s) (clients s) v (speakQueue s) (requestQueue s) (hostWs s)
    (isSessionActive s) (bannedUids s) (lastSpeakTimeMap s) (shutdownTimer s).
Definition set_speakQueue v (s : Service) : Service :=
  mkService (serverIP s) (clients s) (speaker s) v (requestQueue s) (hostWs s)
    (isSessionActive s) (bannedUids s) (lastSpeakTimeMap s) (shutdownTimer s).
Definition set_requestQueue v (s : Service) : Service :=
  mkService (serverIP s) (clients s) (speaker s) (speakQueue s) v (hostWs s)
    (isSessionActive s) (bannedUids s) (lastSpeakTimeMap s) (shutdownTimer s).
Definition set_hostWs v (s : Service) : Service :=
  mkService (serverIP s) (clients s) (speaker s) (speakQueue s) (requestQueue s) v
    (isSessionActive s) (bannedUids s) (lastSpeakTimeMap s) (shutdownTimer s).
Definition set_isSessionActive v (s : Service) : Service :=
  mkService (serverIP s) (clients s) (speaker s) (speakQueue s) (requestQueue s) (hostWs s)
    v (bannedUids s) (lastSpeakTimeMap s) (shutdownTimer s).
Definition set_bannedUids v (s : Service) : Service :=
  mkService (serverIP s) (clients s) (speaker s) (speakQueue s) (requestQueue s) (hostWs s)
    (isSessionActive s) v (lastSpeakTimeMap s) (shutdownTimer s).
Definition set_lastSpeakTimeMap v (s : Service) : Service :=
  mkService (serverIP s) (clients s) (speaker s) (speakQueue s) (requestQueue s) (hostWs s)
    (isSessionActive s) (bannedUids s) v (shutdownTimer s).
Definition set_shutdownTimer v (s : Service) : Service :=
  mkService (serverIP s) (clients s) (speaker s) (speakQueue s) (requestQueue s) (hostWs s)
    (isSessionActive s) (bannedUids s) (lastSpeakTimeMap s) v.

Definition set_sockets v (r : Runtime) : Runtime :=
  mkRuntime v (wssClients r) (timers r) (nextTimer r) (exited r).
Definition set_wssClients v (r : Runtime) : Runtime :=
  mkRuntime (sockets r) v (timers r) (nextTimer r) (exited r).
Definition set_timers v (r : Runtime) : Runtime :=
  mkRuntime (sockets r) (wssClients r) v (nextTimer r) (exited r).
Definition set_nextTimer v (r : Runtime) : Runtime :=
  mkRuntime (sockets r) (wssClients r) (timers r) v (exited r).
Definition set_exited v (r : Runtime) : Runtime :=
  mkRuntime (sockets r) (wssClients r) (timers r) (nextTimer r) v.

(** ** The handler monad

    A handler reads and writes the state, appends effects, and may throw (a
    [TypeError] on a property of [undefined] or [null], as in [ws.user.uid]
    or [payload.uid]): [None]. *)
Definition M (A : Type) : Type := State → option (A * State * list Effect).

Global Instance M_ret : MRet M := λ A a st, Some (a, st, []).
Global Instance M_bind : MBind M := λ A B f m st,
  match m st with
  | None => None
  | Some (a, st1, e1) =>
      match f a st1 with
      | None => None
      | Some (b, st2, e2) => Some (b, st2, e1 ++ e2)
      end
  end.

Definition get : M State := λ st, Some (st, st, []).
Definition this : M Service := λ st, Some (svc st, st, []).
Definition update (f : Service → Service) : M unit :=
  λ st, Some (tt, mkState (f (svc st)) (rt st), []).
Definition updateRt (f : Runtime → Runtime) : M unit :=
  λ st, Some (tt, mkState (svc st) (f (rt st)), []).
Definition emit (e : Effect) : M unit := λ st, Some (tt, st, [e]).
Definition throw {A} : M A := λ _, None.
Definition skip : M unit := mret tt.

Fixpoint forEach {A} (l : list A) (body : A → M unit) : M unit :=
  match l with
  | [] => skip
  | x :: l' => body x ;; forEach l' body
  end.

(** ** Runtime primitives *)

Definition userIn (r : Runtime) (ws : WS) : option User :=
  match sockets r !! ws with Some s => user s | None => None end.

Definition openIn (r : Runtime) (ws : WS) : bool :=
  match sockets r !! ws with
  | Some s => match readyState s with OPEN => true | _ => false end
  | None => false
  end.

(** [ws.user] and [ws.readyState === ws.OPEN] *)
Definition userOf (st : State) (ws : WS) : option User := userIn (rt st) ws.
Definition isOpen (st : State) (ws : WS) : bool := openIn (rt st) ws.

(** [ws.user.<field>], which throws on [undefined]. *)
Definition theUser (ws : WS) : M User :=
  st ← get; match userOf st ws with Some u => mret u | None => throw end.

(** [ws.user = user] *)
Definition attachUser (ws : WS) (u : User) (r : Runtime) : Runtime :=
  set_sockets (alter (λ s, mkSocket (readyState s) (Some u)) ws (sockets r)) r.
Definition setUser (ws : WS) (u : User) : M unit := updateRt (attachUser ws u).

(** [ws.close()]: an open socket starts the closing handshake; its [close]
    event comes later, as an event of its own. *)
Definition closeSocket (ws : WS) (r : Runtime) : Runtime :=
  set_sockets
    (alter (λ s, mkSocket (match readyState s with OPEN => CLOSING | q => q end) (user s))
           ws (sockets r)) r.
Definition wsClose (ws : WS) : M unit :=
  updateRt (closeSocket ws) ;; emit (Close ws).

(** [setTimeout(cb, delay)] for the one callback the service schedules:
    a new handle, due [delay] milliseconds from now. *)
Definition armTimeout (due : Z) (r : Runtime) : Runtime :=
  set_nextTimer (S (nextTimer r)) (set_timers (timers r ++ [(nextTimer r, due)]) r).
Definition setTimeout (now delay : Z) : M Timer :=
  st ← get;
  updateRt (armTimeout (now + delay)) ;;
  mret (nextTimer (rt st)).

Definition cancelTimeout (t : Timer) (r : Runtime) : Runtime :=
  set_timers (filter (λ p, p.1 ≠ t) (timers r)) r.
Definition clearTimeout (t : Timer) : M unit := updateRt (cancelTimeout t).

(** [process.exit(0)] *)
Definition processExit : M unit :=
  updateRt (set_exited true) ;; emit Exit.

(** The library's side of a new connection: the socket object is created
    open and added to [wss.clients] before [connection] is emitted. *)
Definition acceptSocket (ws : WS) (r : Runtime) : Runtime :=
  set_wssClients (wssClients r ++ [ws])
    (set_sockets (<[ws := mkSocket OPEN None]> (sockets r)) r).

(** The library's side of [close]: the socket is [CLOSED] and out of
    [wss.clients] when the listeners run. *)
Definition finishSocket (ws : WS) (r : Runtime) : Runtime :=
  set_wssClients (filter (λ c, c ≠ ws) (wssClients r))
    (set_sockets (alter (λ s, mkSocket CLOSED (user s)) ws (sockets r)) r).

(** ** JS [Map] operations on association lists *)

Definition mapHas {V} (k : string) (m : list (string * V)) : bool :=
  bool_decide (k ∈ m.*1).

Fixpoint mapSet {K V} `{EqDecision K} (k : K) (v : V) (m : list (K * V)) : list (K * V) :=
  match m with
  | [] => [(k, v)]
  | (k', v') :: m' => if decide (k' = k) then (k, v) :: m' else (k', v') :: mapSet k v m'
  end.

Definition mapDelete {K V} `{EqDecision K} (k : K) (m : list (K * V)) : list (K * V) :=
  filter (λ p, p.1 ≠ k) m.

(** [String.prototype.endsWith] *)
Definition endsWith (s suffix : string) : bool :=
  let n := String.length s in
  let k := String.length suffix in
  bool_decide (k ≤ n)%nat && String.eqb (String.substring (n - k) k s) suffix.

(** Truthiness of a string value. *)
Definition truthy (s : string) : bool :=
  match s with EmptyString => false | _ => true end.

Definition isLecturerEmail (e : string) : bool :=
  endsWith e "@um.edu.my"%string || endsWith e "@gmail.com"%string.

(** ** Methods of [WebSocketService] *)

Definition send (ws : WS) (data : OutMsg) : M unit :=
  st ← get; if isOpen st ws then emit (Send ws data) else skip.

Definition broadcast (data : OutMsg) : M unit :=
  st ← get;
  forEach (wssClients (rt st)) (λ client,
    if isOpen st client then send client data else skip).

Definition broadcastSpeakerUpdate : M unit :=
  st ← get;
  let speakerInfo := speaker (svc st) ≫= userOf st in
  broadcast (SystemSpeakerUpdate speakerInfo).

Definition broadcastParticipantList : M unit :=
  st ← get;
  match hostWs (svc st) with
  | None => skip
  | Some h =>
      let participants :=
        omap (λ '(ws, _), if decide (ws = h) then None else userOf st ws)
             (clients (svc st)) in
      send h (SystemParticipantList participants)
  end.

(** [requestQueue.map(ws => ({uid: ws.user.uid, ...}))] throws when a queued
    socket has no user. *)
Definition broadcastRequestQueue : M unit :=
  st ← get;
  match hostWs (svc st) with
  | None => skip
  | Some h =>
      match mapM (userOf st) (requestQueue (svc st)) with
      | Some queue => send h (SystemRequestQueue queue)
      | None => throw
      end
  end.

Definition broadcastBannedList : M unit :=
  s ← this;
  match hostWs s with
  | None => skip
  | Some h => send h (SystemBannedList (bannedUids s).*2)
  end.

Definition findClientByUid (st : State) (u : string) : option WS :=
  fst <$> find (λ '(client, clientUid), bool_decide (clientUid = u) && isOpen st client)
               (clients (svc st)).

(** The loop of step 3 of [handleConnection]: is some registered client a
    lecturer? *)
Definition anyLecturerClient (st : State) : bool :=
  existsb (λ '(client, _),
             match userOf st client with
             | Some clientUser => isLecturerEmail (email clientUser)
             | None => false
             end)
          (clients (svc st)).

Definition handleConnection (ws : WS) (u : User) : M unit :=
  s ← this;
  if mapHas (uid u) (bannedUids s) then
    send ws (SystemError "You have been kicked from this session.") ;;
    wsClose ws
  else
    st ← get;
    match findClientByUid st (uid u) with
    | Some existingClient =>
        wsClose existingClient ;;
        update (λ s, set_clients (mapDelete existingClient (clients s)) s)
    | None => skip
    end ;;
    let isLecturer := isLecturerEmail (email u) in
    st ← get;
    if isLecturer && anyLecturerClient st then
      send ws (SystemError
                 "A lecturer is already in the session. Only one lecturer is allowed.") ;;
      wsClose ws
    else
      setUser ws u ;;
      update (λ s, set_clients (mapSet ws (uid u) (clients s)) s) ;;
      s ← this;
      send ws (SystemSessionStatus (isSessionActive s)) ;;
      send ws (SystemWelcome u (serverIP s)) ;;
      st ← get;
      let currentSpeaker := speaker s ≫= userOf st in
      send ws (SystemSpeakerUpdate currentSpeaker) ;;
      broadcastParticipantList ;;
      (if decide (hostWs s = Some ws) then broadcastRequestQueue else skip) ;;
      if isLecturer then skip else emit (Stats (AddUser u)).

Definition grantMic (ws : WS) : M unit :=
  update (set_speaker (Some ws)) ;;
  s ← this;
  (if bool_decide (ws ∈ requestQueue s) then
     update (λ s, set_requestQueue (filter (λ c, c ≠ ws) (requestQueue s)) s) ;;
     broadcastRequestQueue
   else skip) ;;
  send ws SystemSpeakGranted ;;
  u ← theUser ws;
  emit (Stats (LogEvent SPEAK_GRANTED (uid u))) ;;
  broadcastSpeakerUpdate.

Definition handleRequestToSpeak (ws : WS) : M unit :=
  s ← this;
  match hostWs s with
  | None => send ws (SystemError "Lecturer disconnected.")
  | Some _ =>
      match speaker s with
      | None => grantMic ws
      | Some sp =>
          if decide (sp = ws) then
            send ws SystemSpeakGranted ;;
            u ← theUser ws;
            emit (Stats (LogEvent SPEAK_PULSE (uid u)))
          else
            (if bool_decide (ws ∈ requestQueue s) then skip
             else
               update (λ s, set_requestQueue (requestQueue s ++ [ws]) s) ;;
               broadcastRequestQueue ;;
               send ws SystemRequestAcknowledged) ;;
            s ← this;
            match hostWs s with
            | Some h =>
                u ← theUser ws;
                send h (SystemStudentRequest (uid u) (name u) (email u))
            | None => skip
            end
      end
  end.

Definition handleCancelRequest (ws : WS) : M unit :=
  s ← this;
  if bool_decide (ws ∈ requestQueue s) then
    update (λ s, set_requestQueue (filter (λ c, c ≠ ws) (requestQueue s)) s) ;;
    broadcastRequestQueue ;;
    send ws SystemRequestCancelled
  else skip.

Definition handleAdminRemoveRequest (targetUid : string) : M unit :=
  st ← get;
  match findClientByUid st targetUid with
  | Some client =>
      update (λ s, set_requestQueue (filter (λ c, c ≠ client) (requestQueue s)) s) ;;
      broadcastRequestQueue ;;
      send client SystemRequestRemoved
  | None =>
      match mapM (userOf st) (requestQueue (svc st)) with
      | Some _ =>
          update (λ s, set_requestQueue
                         (filter (λ c, uid <$> userOf st c ≠ Some targetUid) (requestQueue s)) s)
      | None => throw
      end ;;
      broadcastRequestQueue
  end.

Definition handleReleaseFloor (now : Z) (ws : WS) : M unit :=
  s ← this;
  if decide (speaker s = Some ws) then
    u ← theUser ws;
    update (λ s, set_lastSpeakTimeMap (<[uid u := now]> (lastSpeakTimeMap s)) s) ;;
    emit (Stats (LogEvent FLOOR_RELEASED (uid u))) ;;
    update (set_speaker None) ;;
    broadcastSpeakerUpdate
  else skip.

Definition handleFinishedSpeaking (ws : WS) : M unit :=
  s ← this;
  if decide (speaker s = Some ws) then
    u ← theUser ws;
    emit (Stats (LogEvent SPEAK_FINISHED (uid u)))
  else skip.

Definition handleAdminKick (targetUid : string) : M unit :=
  st ← get;
  let targetClient := findClientByUid st targetUid in
  match targetClient ≫= userOf st with
  | Some tu =>
      update (λ s, set_bannedUids
                     (mapSet targetUid (mkUser (uid tu) (name tu) (email tu) (picture tu))
                             (bannedUids s)) s)
  | None => skip
  end ;;
  broadcastBannedList ;;
  match targetClient with
  | Some tc =>
      send tc (SystemError "You have been kicked by the lecturer.") ;;
      s ← this;
      (if decide (speaker s = Some tc) then
         update (set_speaker None) ;;
         broadcastSpeakerUpdate
       else skip) ;;
      wsClose tc
  | None => skip
  end.

Definition handleDisconnect (now : Z) (ws : WS) : M unit :=
  st ← get;
  match userOf st ws with
  | None => skip
  | Some u =>
      s ← this;
      (if decide (hostWs s = Some ws) then
         update (set_hostWs None) ;;
         update (set_isSessionActive false) ;;
         broadcast (SystemSessionStatus false) ;;
         emit (Stats EndSession) ;;
         match shutdownTimer s with
         | Some t => clearTimeout t
         | None => skip
         end ;;
         t ← setTimeout now 10000;
         update (set_shutdownTimer (Some t))
       else skip) ;;
      update (λ s, set_clients (mapDelete ws (clients s)) s) ;;
      s ← this;
      (if decide (speaker s = Some ws) then
         update (λ s, set_lastSpeakTimeMap (<[uid u := now]> (lastSpeakTimeMap s)) s) ;;
         update (set_speaker None) ;;
         broadcastSpeakerUpdate
       else skip) ;;
      (if bool_decide (ws ∈ requestQueue s) then
         update (λ s, set_requestQueue (filter (λ c, c ≠ ws) (requestQueue s)) s) ;;
         broadcastRequestQueue
       else skip) ;;
      update (λ s, set_speakQueue (filter (λ c, c ≠ ws) (speakQueue s)) s) ;;
      broadcastParticipantList
  end.

(** [if (ws.user && ws.user.uid)] *)
Definition userWithUid (st : State) (ws : WS) : option User :=
  match userOf st ws with
  | Some u => if truthy (uid u) then Some u else None
  | None => None
  end.

(** [payload.targetUid] as a condition: present and non-empty. *)
Definition truthyTarget (t : option string) : option string :=
  match t with
  | Some u => if truthy u then Some u else None
  | None => None
  end.

Definition handleMessage (now : Z) (ws : WS) (message : InMsg) : M unit :=
  match message with
  | Unparseable => skip
  | RegisterAsHost =>
      s ← this;
      match shutdownTimer s with
      | Some t => clearTimeout t ;; update (set_shutdownTimer None)
      | None => skip
      end ;;
      update (set_hostWs (Some ws)) ;;
      update (set_isSessionActive true) ;;
      st ← get;
      match userWithUid st ws with
      | Some u =>
          emit (Stats (StartOrResumeSession (uid u))) ;;
          forEach (clients (svc st)) (λ '(client, _),
            if decide (client = ws) then skip
            else match userOf st client with
                 | Some cu =>
                     if isLecturerEmail (email cu) then skip
                     else emit (Stats (AddUser cu))
                 | None => skip
                 end)
      | None => skip
      end ;;
      broadcast (SystemSessionStatus true) ;;
      broadcastParticipantList ;;
      broadcastRequestQueue
  | SpeakingStarted =>
      s ← this;
      if decide (speaker s = Some ws) then
        u ← theUser ws;
        emit (Stats (LogEvent SPEAK_PULSE (uid u)))
      else skip
  | RequestToSpeak =>
      s ← this;
      if isSessionActive s then
        u ← theUser ws;
        emit (Stats (LogEvent REQUEST_TO_SPEAK (uid u))) ;;
        handleRequestToSpeak ws
      else skip
  | CancelRequest => handleCancelRequest ws
  | FinishedSpeaking => handleFinishedSpeaking ws
  | ReleaseFloor => handleReleaseFloor now ws
  | AdminKickUser targetUid =>
      s ← this;
      if decide (hostWs s = Some ws) then handleAdminKick targetUid else skip
  | AdminRemoveRequest targetUid =>
      s ← this;
      if decide (hostWs s = Some ws) then handleAdminRemoveRequest targetUid else skip
  | AdminToggleSession active =>
      s ← this;
      if decide (hostWs s = Some ws) then
        update (set_isSessionActive active) ;;
        s ← this;
        broadcast (SystemSessionStatus (isSessionActive s))
      else skip
  | AdminReleaseFloor =>
      s ← this;
      if decide (hostWs s = Some ws) then
        match speaker s with
        | Some sp =>
            u ← theUser sp;
            update (λ s, set_lastSpeakTimeMap (<[uid u := now]> (lastSpeakTimeMap s)) s)
        | None => skip
        end ;;
        update (set_speaker None) ;;
        broadcastSpeakerUpdate
      else skip
  | AdminUnkickUser targetUid =>
      s ← this;
      if decide (hostWs s = Some ws) then
        if mapHas targetUid (bannedUids s) then
          update (λ s, set_bannedUids (mapDelete targetUid (bannedUids s)) s) ;;
          broadcastBannedList
        else skip
      else skip
  | AdminGrantFloor targetUid =>
      s ← this;
      if decide (hostWs s = Some ws) then
        st ← get;
        match findClientByUid st targetUid with
        | Some targetClient =>
            update (set_speaker (Some targetClient)) ;;
            send targetClient SystemSpeakGranted ;;
            broadcastSpeakerUpdate
        | None => skip
        end
      else skip
  | WebrtcOffer payload =>
      s ← this;
      match hostWs s with
      | Some h =>
          u ← theUser ws;
          send h (OutWebrtcOffer payload (uid u))
      | None =>
          (* console.warn reads ws.user.email *)
          _ ← theUser ws; skip
      end
  | WebrtcAnswer sdp targetUid =>
      s ← this;
      if decide (hostWs s = Some ws) then
        match truthyTarget targetUid with
        | Some t =>
            st ← get;
            match findClientByUid st t with
            | Some targetClient => send targetClient (OutWebrtcAnswer sdp)
            | None => skip
            end
        | None => skip
        end
      else skip
  | WebrtcIceCandidate candidate targetUid =>
      s ← this;
      match (if decide (hostWs s = Some ws) then truthyTarget targetUid else None) with
      | Some t =>
          st ← get;
          match findClientByUid st t with
          | Some targetClient => send targetClient (OutWebrtcIceCandidate candidate None)
          | None => skip
          end
      | None =>
          match hostWs s with
          | Some h =>
              u ← theUser ws;
              send h (OutWebrtcIceCandidate candidate (Some (uid u)))
          | None => skip
          end
      end
  | Ping => send ws Pong
  | LatencyUpdate rtt =>
      st ← get;
      match userWithUid st ws with
      | Some u => emit (Stats (AddLatencySample (uid u) rtt))
      | None => skip
      end
  | WebrtcStats payload =>
      st ← get;
      match userWithUid st ws with
      | Some u => emit (Stats (AddWebRTCSample (uid u) payload))
      | None => skip
      end
  | UnknownType => skip
  | NoPayload type =>
      (* [payload] is [undefined] or [null]: reading a field of it is a
         TypeError *)
      s ← this;
      match type with
      | KickUserCase | RemoveRequestCase | ToggleSessionCase | UnkickUserCase
      | GrantFloorCase | AnswerCase =>
          if decide (hostWs s = Some ws) then throw else skip
      | IceCandidateCase =>
          if decide (hostWs s = Some ws) then throw   (* payload.targetUid *)
          else match hostWs s with
               | Some _ => throw                       (* payload.candidate *)
               | None => skip
               end
      | LatencyUpdateCase =>
          st ← get;
          match userWithUid st ws with
          | Some _ => throw                            (* payload.rtt *)
          | None => skip
          end
      end
  | JsonNull => throw   (* [const { type, payload } = parsed] on [null] *)
  end.

(** ** The event loop

    Node runs one callback at a time. The events that reach the service:
    the server's [connection] (a new, open, authenticated socket), a socket's
    [message] and [close], and the firing of a timeout. *)
Inductive Event :=
| Connection (ws : WS) (u : User)
| Message (ws : WS) (m : InMsg)
| Closed (ws : WS)
| Timeout (t : Timer).

(** A socket has the [message] and [close] listeners of [handleConnection]
    exactly when its [user] was set (lines 125-131 run together). *)
Definition enabled (now : Z) (ev : Event) (st : State) : bool :=
  negb (exited (rt st)) &&
  match ev with
  | Connection ws _ =>
      match sockets (rt st) !! ws with Some _ => false | None => true end
  | Message ws _ =>
      match sockets (rt st) !! ws with
      | Some (mkSocket CLOSED _) | Some (mkSocket _ None) | None => false
      | Some _ => true
      end
  | Closed ws =>
      match sockets (rt st) !! ws with
      | Some (mkSocket CLOSED _) | None => false
      | Some _ => true
      end
  | Timeout t =>
      existsb (λ p, bool_decide (p.1 = t) && bool_decide (p.2 ≤ now)) (timers (rt st))
  end.

Definition fire (now : Z) (ev : Event) : M unit :=
  match ev with
  | Connection ws u => updateRt (acceptSocket ws) ;; handleConnection ws u
  | Message ws m => handleMessage now ws m
  | Closed ws => updateRt (finishSocket ws) ;; handleDisconnect now ws
  | Timeout t => clearTimeout t ;; processExit
  end.

Definition step (now : Z) (ev : Event) : M unit :=
  λ st, if enabled now ev st then fire now ev st else None.

(** The malformed messages on which [handleMessage] throws where they
    arrive: [null] always; a message without payload when its [case] comes
    to read a payload field, which the host-only cases do for the host, the
    ice-candidate case for everybody while there is a host, and the
    latency-update case for every sender with a uid. *)
Definition throwsOn (st : State) (ws : WS) (m : InMsg) : bool :=
  match m with
  | JsonNull => true
  | NoPayload IceCandidateCase =>
      match hostWs (svc st) with Some _ => true | None => false end
  | NoPayload LatencyUpdateCase =>
      match userWithUid st ws with Some _ => true | None => false end
  | NoPayload _ => bool_decide (hostWs (svc st) = Some ws)
  | _ => false
  end.

Definition faulty (st : State) (ev : Event) : bool :=
  match ev with
  | Message ws m => throwsOn st ws m
  | _ => false
  end.

(** A run of timestamped events; [None] when an event cannot occur where it
    stands or a handler throws. The effects of all events are concatenated. *)
Fixpoint run (es : list (Z * Event)) : M unit :=
  match es with
  | [] => skip
  | (now, ev) :: es' => step now ev ;; run es'
  end.

(** The state the constructor builds, in a fresh process. *)
Definition initial (ip : string) : State :=
  mkState (mkService ip [] None [] [] None false [] ∅ None)
          (mkRuntime ∅ [] [] 0%nat false).

Inductive reachable : State → Prop :=
| reachable_initial ip : reachable (initial ip)
| reachable_step st now ev st' eff :
    reachable st → step now ev st = Some (tt, st', eff) → reachable st'.

(** The state and the effects of a run that goes through. *)
Definition after (es : list (Z * Event)) (st : State) : State :=
  match run es st with Some (_, st', _) => st' | None => st end.

Definition effectsOf (es : list (Z * Event)) (st : State) : list Effect :=
  match run es st with Some (_, _, eff) => eff | None => [] end.

(** ** Scenarios

    A lecturer and two students; sockets are numbered in order of arrival. *)
Definition lecturer : User := mkUser "host" "Lecturer" "lec@um.edu.my" None.
Definition alice : User := mkUser "a" "Alice" "alice@siswa.um.edu.my" None.
Definition bob : User := mkUser "b" "Bob" "bob@siswa.um.edu.my" None.

(** The lecturer registers as host, Alice is granted the floor, Bob queues. *)
Definition classroomTrace : list (Z * Event) :=
  [ (0, Connection 0 lecturer); (1, Message 0 RegisterAsHost);
    (2, Connection 1 alice); (3, Message 1 RequestToSpeak);
    (4, Connection 2 bob); (5, Message 2 RequestToSpeak) ].

Definition classroom : State := after classroomTrace (initial "10.0.0.1").

(** ... and the lecturer pauses the session. *)
Definition paused : State :=
  after [(6, Message 0 (AdminToggleSession false))] classroom.

(** ... or kicks Bob, who is queued. *)
Definition bobKicked : State :=
  after [(6, Message 0 (AdminKickUser "b"))] classroom.

(** ... or grants Bob the floor over Alice. *)
Definition bobGranted : State :=
  after [(6, Message 0 (AdminGrantFloor "b"))] classroom.

(** ... or the lecturer's socket closes. *)
Definition hostGone : State := after [(6, Closed 0)] classroom.

(** ** Invariants of the reachable states *)

(** Every socket the service holds went through admission: it has the
    user it was admitted with, and the registry records that user's uid. *)
Definition usersOk (st : State) : Prop :=
  (∀ ws u, (ws, u) ∈ clients (svc st) → ∃ usr, userOf st ws = Some usr ∧ uid usr = u) ∧
  (∀ c, speaker (svc st) = Some c → is_Some (userOf st c)) ∧
  (∀ c, c ∈ requestQueue (svc st) → is_Some (userOf st c)) ∧
  (∀ h, hostWs (svc st) = Some h → is_Some (userOf st h)).

(** An active session has a host. *)
Definition activeHasHost (st : State) : Prop :=
  isSessionActive (svc st) = true → is_Some (hostWs (svc st)).

(** At most one open socket per uid in the registry, and none for a banned
    uid. *)
Definition registryOk (st : State) : Prop :=
  (∀ ws1 ws2 u, (ws1, u) ∈ clients (svc st) → (ws2, u) ∈ clients (svc st) →
                isOpen st ws1 = true → isOpen st ws2 = true → ws1 = ws2) ∧
  (∀ ws u, (ws, u) ∈ clients (svc st) → mapHas u (bannedUids (svc st)) = true →
           isOpen st ws = false).

(** The only timeout Node may still run is the one [shutdownTimer] holds,
    and handles are never reused. *)
Definition timersOk (st : State) : Prop :=
  (∀ t d, (t, d) ∈ timers (rt st) → shutdownTimer (svc st) = Some t) ∧
  (∀ t d, (t, d) ∈ timers (rt st) → (t < nextTimer (rt st))%nat) ∧
  (∀ t, shutdownTimer (svc st) = Some t → (t < nextTimer (rt st))%nat).

Definition Inv (st : State) : Prop :=
  usersOk st ∧ activeHasHost st ∧ registryOk st ∧ timersOk st.

(** The three ways the floor is vacated with a cooldown stamp: the speaker
    releases, the host forces the release, the speaker's socket closes. *)
Inductive vacates (st : State) (sp : WS) : Event → Prop :=
| vacates_release : vacates st sp (Message sp ReleaseFloor)
| vacates_admin h : hostWs (svc st) = Some h → vacates st sp (Message h AdminReleaseFloor)
| vacates_disconnect : vacates st sp (Closed sp).

(** A host registration among the events of a run. *)
Definition isRegistration (e : Z * Event) : bool :=
  match e.2 with Message _ RegisterAsHost => true | _ => false end.

(** What [broadcast] writes: one send per open socket of [wss.clients]. *)
Definition broadcastEffects (st : State) (data : OutMsg) : list Effect :=
  (λ c, Send c data) <$> filter (λ c, isOpen st c = true) (wssClients (rt st)).

(** What [send] writes. *)
Definition sendEffects (st : State) (ws : WS) (data : OutMsg) : list Effect :=
  if isOpen st ws then [Send ws data] else [].

(** ** Admission, as state and effects

    The state [handleConnection] leaves when it admits, and what it writes
    on the way. *)

(** Step 2: the open socket already registered under the uid, if any, is
    closed and taken out of the registry. *)
Definition dropDuplicate (u : string) (st : State) : State :=
  match findClientByUid st u with
  | Some existingClient =>
      mkState (set_clients (mapDelete existingClient (clients (svc st))) (svc st))
              (closeSocket existingClient (rt st))
  | None => st
  end.

Definition admission (ws : WS) (u : User) (st : State) : State :=
  let st1 := dropDuplicate (uid u) st in
  mkState (set_clients (mapSet ws (uid u) (clients (svc st1))) (svc st1))
          (attachUser ws u (rt st1)).

Definition participantEffects (st : State) : list Effect :=
  match hostWs (svc st) with
  | None => []
  | Some h =>
      sendEffects st h
        (SystemParticipantList
           (omap (λ '(ws, _), if decide (ws = h) then None else userOf st ws)
                 (clients (svc st))))
  end.

Definition admissionEffects (ws : WS) (u : User) (st : State) : list Effect :=
  let st2 := admission ws u st in
  match findClientByUid st (uid u) with Some ex => [Close ex] | None => [] end ++
  sendEffects st2 ws (SystemSessionStatus (isSessionActive (svc st))) ++
  sendEffects st2 ws (SystemWelcome u (serverIP (svc st))) ++
  sendEffects st2 ws (SystemSpeakerUpdate (speaker (svc st) ≫= userOf st2)) ++
  participantEffects st2 ++
  (if isLecturerEmail (email u) then [] else [Stats (AddUser u)]).

(** Alice, who holds the floor, connects again on a new socket. *)
Definition aliceRejoined : State := after [(6, Connection 3 alice)] classroom.

(** The messages [handleConnection] never writes: a request-queue snapshot. *)
Definition admissionKind (e : Effect) : Prop :=
  match e with
  | Send _ (SystemRequestQueue _) => False
  | _ => True
  end.

(** ** The grace period

    What holds between the close of the host's socket, which armed timeout
    [t] due at [due], and the moment the timeout is due: as long as no host
    registered, [t] is the one pending timeout; once a host registered, [t]
    is gone for good and whatever is pending is due later. *)
Definition graceInv (t : Timer) (due : Z) (registered : bool) (st : State) : Prop :=
  exited (rt st) = false ∧ (t < nextTimer (rt st))%nat ∧
  if registered
  then ∀ t' d, (t', d) ∈ timers (rt st) → t' ≠ t ∧ due ≤ d
  else timers (rt st) = [(t, due)] ∧ shutdownTimer (svc st) = Some t ∧
       hostWs (svc st) = None.

(** ** More invariants of the reachable states *)

(** [ws.readyState === ws.CLOSED]: the socket's [close] event was delivered. *)
Definition closedIn (r : Runtime) (ws : WS) : bool :=
  match sockets r !! ws with
  | Some s => match readyState s with CLOSED => true | _ => false end
  | None => false
  end.
Definition isClosed (st : State) (ws : WS) : bool := closedIn (rt st) ws.

(** No socket waits twice in the request queue. *)
Definition queueOk (st : State) : Prop := NoDup (requestQueue (svc st)).

(** The registry has one entry per socket, and at most one of the registered
    sockets belongs to a lecturer. *)
Definition oneLecturer (st : State) : Prop :=
  NoDup (clients (svc st)).*1 ∧
  ∀ c1 c2 u1 u2,
    c1 ∈ (clients (svc st)).*1 → c2 ∈ (clients (svc st)).*1 →
    userOf st c1 = Some u1 → userOf st c2 = Some u2 →
    isLecturerEmail (email u1) = true → isLecturerEmail (email u2) = true →
    c1 = c2.

(** An admitted socket that is still open is in the registry. *)
Definition openRegistered (st : State) : Prop :=
  ∀ ws u, isOpen st ws = true → userOf st ws = Some u → (ws, uid u) ∈ clients (svc st).

(** Nothing the service holds refers to a socket whose [close] event was
    handled. *)
Definition closedGone (st : State) : Prop :=
  ∀ ws, isClosed st ws = true →
    ws ∉ (clients (svc st)).*1 ∧ speaker (svc st) ≠ Some ws ∧
    ws ∉ requestQueue (svc st) ∧ hostWs (svc st) ≠ Some ws.

(** Node has at most one timeout of the service to run. *)
Definition oneTimer (st : State) : Prop := (length (timers (rt st)) ≤ 1)%nat.

Definition Inv2 (st : State) : Prop :=
  queueOk st ∧ oneLecturer st ∧ openRegistered st ∧ closedGone st ∧ oneTimer st.

(** The messages whose [case] starts with [if (ws === this.hostWs)]. *)
Definition hostOnly (m : InMsg) : bool :=
  match m with
  | AdminKickUser _ | AdminRemoveRequest _ | AdminToggleSession _ | AdminReleaseFloor
  | AdminUnkickUser _ | AdminGrantFloor _ | WebrtcAnswer _ _ => true
  | NoPayload (KickUserCase | RemoveRequestCase | ToggleSessionCase | UnkickUserCase
              | GrantFloorCase | AnswerCase) => true
  | _ => false
  end.

(** What delivering an event does to the process. Nothing catches what a
    listener throws ([handleMessage] guards [JSON.parse] only, and the server
    installs no handler for uncaught exceptions), so Node ends the process
    there. *)
Inductive Outcome :=
| Handled (st' : State) (eff : list Effect)   (* the listener returned *)
| Crashed                                      (* it threw: the process dies *)
| Impossible.                                  (* the event cannot occur here *)

Definition deliver (now : Z) (ev : Event) (st : State) : Outcome :=
  if enabled now ev st then
    match fire now ev st with
    | Some (_, st', eff) => Handled st' eff
    | None => Crashed
    end
  else Impossible.

(** The process is gone after the event: it exited or it crashed. *)
Definition endsProcess (now : Z) (ev : Event) (st : State) : bool :=
  match deliver now ev st with
  | Handled st' _ => exited (rt st')
  | Crashed => true
  | Impossible => false
  end.

(** A handler all of whose effects satisfy [P], whatever the state. *)
Definition writes {A} (P : Effect → Prop) (m : M A) : Prop :=
  ∀ st a st' eff, m st = Some (a, st', eff) → Forall P eff.

(** ** Authentication (ptt-backend/src/middleware/authentication.js, index.js)

    The identity a connection arrives with. [verifyIdToken] is Firebase's;
    it rejects with a message or resolves with the decoded claims, of which
    [name], [email] and [picture] may be missing. *)
Record DecodedToken := mkDecodedToken {
  tokenUid : string;
  tokenName : option string;
  tokenEmail : option string;
  tokenPicture : option string
}.

(** What is thrown inside the [try] of [verifyClientToken]; all of it is
    rethrown as 'Token verification failed: ...'. *)
Inductive AuthCause :=
| FirebaseRejected (message : string)
| EmailUndefined          (* TypeError of [user.email.endsWith] *)
| DomainNotAuthorized.    (* 'Access denied. Domain not authorized.' *)

Inductive AuthError :=
| NoTokenProvided         (* 'No authentication token provided.' *)
| VerificationFailed (cause : AuthCause).

Definition allowedDomains : list string :=
  ["@siswa.um.edu.my"; "@siswa-old.um.edu.my"; "@um.edu.my"]%string.

(** [v || d] on an optional string. *)
Definition orDefault (v : option string) (d : string) : string :=
  match truthyTarget v with Some s => s | None => d end.

Definition verifyClientToken (verifyIdToken : string → string + DecodedToken)
    (token : option string) : AuthError + User :=
  match truthyTarget token with
  | None => inl NoTokenProvided
  | Some tok =>
      match verifyIdToken tok with
      | inl message => inl (VerificationFailed (FirebaseRejected message))
      | inr decodedToken =>
          match tokenEmail decodedToken with
          | None => inl (VerificationFailed EmailUndefined)
          | Some e =>
              let user := mkUser (tokenUid decodedToken)
                                 (orDefault (tokenName decodedToken) "Unnamed User")
                                 e
                                 (truthyTarget (tokenPicture decodedToken)) in
              let isAllowed := existsb (λ domain, endsWith (email user) domain) allowedDomains in
              if negb (truthy (email user)) || negb isAllowed
              then inl (VerificationFailed DomainNotAuthorized)
              else inr user
          end
      end
  end.

(** [verifyClient] of the WebSocket server: the upgrade is refused with 401
    without a token (no message of [verifyClientToken] then) and with 403 when
    verification throws; otherwise the user is attached to the request, and
    the [connection] event passes it to [handleConnection]. *)
Inductive Upgrade :=
| Accepted (u : User)
| Refused (code : Z) (error : option AuthError).

Definition verifyClient (verifyIdToken : string → string + DecodedToken)
    (token : option string) : Upgrade :=
  match truthyTarget token with
  | None => Refused 401 None
  | Some _ =>
      match verifyClientToken verifyIdToken token with
      | inr u => Accepted u
      | inl error => Refused 403 (Some error)
      end
  end.

(** A Firebase stub for examples: the token is the e-mail address. *)
Definition tokenIsEmail (tok : string) : string + DecodedToken :=
  inr (mkDecodedToken tok None (Some tok) None).

(** What [broadcastRequestQueue] and [broadcastBannedList] write. *)
Definition requestQueueEffects (st : State) : list Effect :=
  match hostWs (svc st) with
  | None => []
  | Some h =>
      match mapM (userOf st) (requestQueue (svc st)) with
      | Some queue => sendEffects st h (SystemRequestQueue queue)
      | None => []
      end
  end.

Definition bannedListEffects (st : State) : list Effect :=
  match hostWs (svc st) with
  | None => []
  | Some h => sendEffects st h (SystemBannedList (bannedUids (svc st)).*2)
  end.

(** ** The stats service (ptt-backend/src/services/statsService.js)

    The singleton the coordinator calls. Times are milliseconds since the
    epoch: [Date.now()]; an ISO string made by [toISOString] stands for the
    same number, which [new Date(...).getTime()] gives back. [generateId]
    draws from [Math.random]: the drawn id is an argument. [db] is the parsed
    sessions file, taken to be one this service wrote; [file] is what the
    file holds, writes taken to succeed. A call reads the clock once.
    [logEvent] is modelled as the coordinator calls it, without the optional
    [data]; a WebRTC sample keeps the payload it spreads as it came.
    [calculateMetrics], which computes in floating point, is not modelled. *)
Module StatsService.

Record UserInfo := mkUserInfo {
  name : string;
  email : string;
  joinedAt : Z
}.

Record EventRec := mkEventRec {
  type : string;
  uid : string;
  timestamp : Z
}.

Record Session := mkSession {
  sessionId : string;
  lecturerId : string;
  startTime : Z;
  endTime : option Z;
  users : gmap string UserInfo;
  events : list EventRec;
  latencySamples : list (string * Z * Z);          (* uid, rtt, timestamp *)
  webrtcSamples : list (string * string * Z);      (* uid, ...stats, timestamp *)
  createdAt : Z
}.

Record StatsService := mkStatsService {
  currentSessionId : option string;
  db : list Session;                               (* this.db.sessions *)
  saveTimer : bool;                                (* a save is scheduled *)
  file : list Session
}.

Definition set_endTime v (s : Session) : Session :=
  mkSession (sessionId s) (lecturerId s) (startTime s) v (users s) (events s)
            (latencySamples s) (webrtcSamples s) (createdAt s).
Definition set_users v (s : Session) : Session :=
  mkSession (sessionId s) (lecturerId s) (startTime s) (endTime s) v (events s)
            (latencySamples s) (webrtcSamples s) (createdAt s).
Definition set_events v (s : Session) : Session :=
  mkSession (sessionId s) (lecturerId s) (startTime s) (endTime s) (users s) v
            (latencySamples s) (webrtcSamples s) (createdAt s).
Definition set_latencySamples v (s : Session) : Session :=
  mkSession (sessionId s) (lecturerId s) (startTime s) (endTime s) (users s) (events s)
            v (webrtcSamples s) (createdAt s).
Definition set_webrtcSamples v (s : Session) : Session :=
  mkSession (sessionId s) (lecturerId s) (startTime s) (endTime s) (users s) (events s)
            (latencySamples s) v (createdAt s).

(** [sessions.find(s => s.sessionId === id)] gives the first match, which
    the caller then mutates in place. *)
Fixpoint updateFound (id : string) (f : Session → Session) (l : list Session)
    : list Session :=
  match l with
  | [] => []
  | s :: l' => if String.eqb (sessionId s) id then f s :: l' else s :: updateFound id f l'
  end.

Definition found (id : string) (l : list Session) : option Session :=
  find (λ s, String.eqb (sessionId s) id) l.

(** The constructor: [db] is what the file holds. *)
Definition load (sessions : list Session) : StatsService :=
  mkStatsService None sessions false sessions.

Definition _performSave (t : StatsService) : StatsService :=
  mkStatsService (currentSessionId t) (db t) (saveTimer t) (db t).

Definition _scheduleSave (t : StatsService) : StatsService :=
  mkStatsService (currentSessionId t) (db t) true (file t).

(** The callback of [_scheduleSave], five seconds later. *)
Definition saveTimeout (t : StatsService) : StatsService :=
  mkStatsService (currentSessionId t) (db t) false (db t).

Definition startOrResumeSession (now : Z) (generatedId : string) (lecturer : string)
    (t : StatsService) : StatsService * string :=
  let fresh :=
    let newSession := mkSession generatedId lecturer now None ∅ [] [] [] now in
    let t1 := mkStatsService (currentSessionId t) [newSession] (saveTimer t) (file t) in
    let t2 := _performSave t1 in
    (mkStatsService (Some generatedId) (db t2) (saveTimer t2) (file t2), generatedId) in
  match last (db t) with
  | Some existingRec =>
      if String.eqb (lecturerId existingRec) lecturer then
        let isRecent :=
          match endTime existingRec with
          | Some closed => bool_decide (now - closed < 10 * 1000)
          | None => true
          end in
        if isRecent then
          let sessions := removelast (db t) ++ [set_endTime None existingRec] in
          let t1 := mkStatsService (Some (sessionId existingRec)) sessions
                                   (saveTimer t) (file t) in
          (_performSave t1, sessionId existingRec)
        else fresh
      else fresh
  | None => fresh
  end.

Definition endSession (now : Z) (t : StatsService) : StatsService :=
  match truthyTarget (currentSessionId t) with
  | None => t
  | Some id =>
      let t1 :=
        match found id (db t) with
        | Some _ =>
            _performSave
              (mkStatsService (currentSessionId t)
                 (updateFound id (set_endTime (Some now)) (db t)) (saveTimer t) (file t))
        | None => t
        end in
      mkStatsService None (db t1) (saveTimer t1) (file t1)
  end.

Definition addUser (now : Z) (user : User) (t : StatsService) : StatsService :=
  let '(mkUser userUid userName userEmail _) := user in
  match truthyTarget (currentSessionId t) with
  | None => t
  | Some id =>
      match found id (db t) with
      | Some _ =>
          _scheduleSave
            (mkStatsService (currentSessionId t)
               (updateFound id
                  (λ session,
                     set_events (events session ++ [mkEventRec "JOIN" userUid now])
                       (set_users (<[userUid := mkUserInfo userName userEmail now]>
                                     (users session)) session))
                  (db t))
               (saveTimer t) (file t))
      | None => t
      end
  end.

Definition logEvent (now : Z) (ty : string) (u : string) (t : StatsService) : StatsService :=
  match truthyTarget (currentSessionId t) with
  | None => t
  | Some id =>
      match found id (db t) with
      | Some _ =>
          _scheduleSave
            (mkStatsService (currentSessionId t)
               (updateFound id
                  (λ session, set_events (events session ++ [mkEventRec ty u now]) session)
                  (db t))
               (saveTimer t) (file t))
      | None => t
      end
  end.

Definition addLatencySample (now : Z) (u : string) (rtt : Z) (t : StatsService)
    : StatsService :=
  match truthyTarget (currentSessionId t) with
  | None => t
  | Some id =>
      match found id (db t) with
      | Some _ =>
          _scheduleSave
            (mkStatsService (currentSessionId t)
               (updateFound id
                  (λ session,
                     set_latencySamples (latencySamples session ++ [(u, rtt, now)]) session)
                  (db t))
               (saveTimer t) (file t))
      | None => t
      end
  end.

Definition addWebRTCSample (now : Z) (u : string) (stats : string) (t : StatsService)
    : StatsService :=
  match truthyTarget (currentSessionId t) with
  | None => t
  | Some id =>
      match found id (db t) with
      | Some _ =>
          _scheduleSave
            (mkStatsService (currentSessionId t)
               (updateFound id
                  (λ session,
                     set_webrtcSamples (webrtcSamples session ++ [(u, stats, now)]) session)
                  (db t))
               (saveTimer t) (file t))
      | None => t
      end
  end.

(** The calls that reach the service, and the firing of its save timer. *)
Inductive Call :=
| CallStartOrResume (generatedId lecturer : string)
| CallEndSession
| CallAddUser (user : User)
| CallLogEvent (ty u : string)
| CallAddLatencySample (u : string) (rtt : Z)
| CallAddWebRTCSample (u stats : string)
| SaveTimerFires.

Definition call (now : Z) (c : Call) (t : StatsService) : StatsService :=
  match c with
  | CallStartOrResume generatedId lecturer =>
      (startOrResumeSession now generatedId lecturer t).1
  | CallEndSession => endSession now t
  | CallAddUser user => addUser now user t
  | CallLogEvent ty u => logEvent now ty u t
  | CallAddLatencySample u rtt => addLatencySample now u rtt t
  | CallAddWebRTCSample u stats => addWebRTCSample now u stats t
  | SaveTimerFires => if saveTimer t then saveTimeout t else t
  end.

Definition calls (cs : list (Z * Call)) (t : StatsService) : StatsService :=
  foldl (λ t c, call c.1 c.2 t) t cs.

End StatsService.
(** ** Inversion of handler runs *)

Lemma bind_inv {A B} (m : M A) (f : A → M B) st b st2 eff :
  (m ≫= f) st = Some (b, st2, eff) →
  ∃ a st1 e1 e2, m st = Some (a, st1, e1) ∧ f a st1 = Some (b, st2, e2) ∧ eff = e1 ++ e2.
Proof.
  cbv [mbind M_bind]. destruct (m st) as [[[a st1] e1]|]; [|done].
  destruct (f a st1) as [[[b' st2'] e2]|] eqn:Hf; [|done].
  intros [= <- <- <-]. by exists a, st1, e1, e2.
Qed.

Lemma bind_run {A B} (m : M A) (f : A → M B) st a st1 e1 :
  m st = Some (a, st1, e1) →
  (m ≫= f) st =
    match f a st1 with Some (b, st2, e2) => Some (b, st2, e1 ++ e2) | None => None end.
Proof. intros H. cbv [mbind M_bind]. by rewrite H. Qed.

Lemma forEach_state {A} (body : A → M unit) (l : list A) :
  (∀ x st r st' eff, body x st = Some (r, st', eff) → st' = st) →
  ∀ st r st' eff, forEach l body st = Some (r, st', eff) → st' = st.
Proof.
  intros Hb. induction l as [|x l IH]; intros st r st' eff H; cbn in H.
  - by injection H as <- <-.
  - apply bind_inv in H as (a & st1 & e1 & e2 & H1 & H2 & ->).
    apply Hb in H1 as ->. eauto.
Qed.

Lemma send_run ws d st : send ws d st = Some (tt, st, sendEffects st ws d).
Proof.
  unfold send, sendEffects. cbv [mbind M_bind get emit skip mret M_ret].
  by destruct (isOpen st ws).
Qed.

Lemma forEach_broadcast d st0 l st :
  forEach l (λ client, if isOpen st0 client then send client d else skip) st =
  Some (tt, st, (λ c, Send c d) <$> filter (λ c, isOpen st0 c = true) (filter (λ c, isOpen st c = true) l)).
Proof.
  induction l as [|c l IH]; [done|]. cbn [forEach].
  destruct (isOpen st0 c) eqn:H0.
  - erewrite bind_run by apply send_run. rewrite IH. unfold sendEffects.
    destruct (isOpen st c) eqn:H1.
    + rewrite (filter_cons_True _ c) by done. rewrite filter_cons_True by done. done.
    + rewrite (filter_cons_False _ c) by (by rewrite H1). done.
  - erewrite bind_run by reflexivity. rewrite IH. cbn [app].
    destruct (isOpen st c) eqn:H1.
    + rewrite (filter_cons_True _ c) by done. rewrite filter_cons_False by (by rewrite H0). done.
    + rewrite (filter_cons_False _ c) by (by rewrite H1). done.
Qed.

Lemma broadcast_run d st : broadcast d st = Some (tt, st, broadcastEffects st d).
Proof.
  unfold broadcast, broadcastEffects. erewrite bind_run by reflexivity.
  rewrite forEach_broadcast. cbn [app]. do 3 f_equal.
  induction (wssClients (rt st)) as [|c l IH]; [done|].
  destruct (isOpen st c) eqn:H.
  - rewrite !filter_cons_True by done. by rewrite IH.
  - rewrite !filter_cons_False by (by rewrite H). done.
Qed.

Lemma send_state ws d st r st' eff : send ws d st = Some (r, st', eff) → st' = st.
Proof. rewrite send_run. by intros [= <- <-]. Qed.

Lemma broadcast_state d st r st' eff : broadcast d st = Some (r, st', eff) → st' = st.
Proof. rewrite broadcast_run. by intros [= <- <-]. Qed.

Lemma broadcastSpeakerUpdate_run st :
  broadcastSpeakerUpdate st =
  Some (tt, st, broadcastEffects st (SystemSpeakerUpdate (speaker (svc st) ≫= userOf st))).
Proof.
  unfold broadcastSpeakerUpdate. erewrite bind_run by reflexivity.
  rewrite broadcast_run. done.
Qed.

Lemma broadcastSpeakerUpdate_state st r st' eff :
  broadcastSpeakerUpdate st = Some (r, st', eff) → st' = st.
Proof. rewrite broadcastSpeakerUpdate_run. by intros [= <- <-]. Qed.

Lemma broadcastParticipantList_state st r st' eff :
  broadcastParticipantList st = Some (r, st', eff) → st' = st.
Proof.
  unfold broadcastParticipantList. intros H.
  apply bind_inv in H as (a & st1 & e1 & e2 & H1 & H2 & ->).
  injection H1 as <- <- <-. destruct (hostWs _); [by apply send_state in H2|by injection H2].
Qed.

Lemma broadcastRequestQueue_state st r st' eff :
  broadcastRequestQueue st = Some (r, st', eff) → st' = st.
Proof.
  unfold broadcastRequestQueue. intros H.
  apply bind_inv in H as (a & st1 & e1 & e2 & H1 & H2 & ->).
  injection H1 as <- <- <-. destruct (hostWs _); [|by injection H2].
  destruct (mapM _ _); [by apply send_state in H2|done].
Qed.

Lemma broadcastBannedList_state st r st' eff :
  broadcastBannedList st = Some (r, st', eff) → st' = st.
Proof.
  unfold broadcastBannedList. intros H.
  apply bind_inv in H as (a & st1 & e1 & e2 & H1 & H2 & ->).
  injection H1 as <- <- <-. destruct (hostWs _); [by apply send_state in H2|by injection H2].
Qed.

Lemma theUser_inv ws st u st' eff :
  theUser ws st = Some (u, st', eff) → st' = st ∧ userOf st ws = Some u.
Proof.
  unfold theUser. cbv [mbind M_bind get mret M_ret throw].
  destruct (userOf st ws); [by intros [= <- <- <-]|done].
Qed.

Lemma theUser_run ws st u : userOf st ws = Some u → theUser ws st = Some (u, st, []).
Proof. intros H. unfold theUser. cbv [mbind M_bind get mret M_ret throw]. by rewrite H. Qed.

Ltac minv_prim H :=
  cbv [get this update updateRt emit skip mret M_ret setUser clearTimeout] in H;
  simplify_eq; cbn [svc rt] in *.

Ltac minv0 :=
  match goal with
  | H : mbind _ _ _ = Some _ |- _ =>
      let a := fresh "a" in let st := fresh "st" in
      let e1 := fresh "e" in let e2 := fresh "e" in
      apply bind_inv in H as (a & st & e1 & e2 & ? & ? & ->)
  | H : send _ _ _ = Some _ |- _ => apply send_state in H; subst
  | H : broadcast _ _ = Some _ |- _ => apply broadcast_state in H; subst
  | H : broadcastSpeakerUpdate _ = Some _ |- _ => apply broadcastSpeakerUpdate_state in H; subst
  | H : broadcastParticipantList _ = Some _ |- _ =>
      apply broadcastParticipantList_state in H; subst
  | H : broadcastRequestQueue _ = Some _ |- _ => apply broadcastRequestQueue_state in H; subst
  | H : broadcastBannedList _ = Some _ |- _ => apply broadcastBannedList_state in H; subst
  | H : theUser _ _ = Some _ |- _ => apply theUser_inv in H as [-> ?]
  | H : get _ = Some _ |- _ => minv_prim H
  | H : this _ = Some _ |- _ => minv_prim H
  | H : update _ _ = Some _ |- _ => minv_prim H
  | H : updateRt _ _ = Some _ |- _ => minv_prim H
  | H : setUser _ _ _ = Some _ |- _ => minv_prim H
  | H : clearTimeout _ _ = Some _ |- _ => minv_prim H
  | H : emit _ _ = Some _ |- _ => minv_prim H
  | H : skip _ = Some _ |- _ => minv_prim H
  | H : mret _ _ = Some _ |- _ => minv_prim H
  | H : throw _ = Some _ |- _ => discriminate H
  | H : (if ?b then _ else _) _ = Some _ |- _ => revert H; destruct b eqn:?; intros H
  | H : (match ?x with _ => _ end) _ = Some _ |- _ => revert H; destruct x eqn:?; intros H
  end.

Ltac minv1 :=
  first
    [ minv0
    | match goal with
      | H : forEach _ _ _ = Some _ |- _ =>
          apply forEach_state in H;
          [subst | clear; intros; repeat minv0; reflexivity]
      end ].

Ltac minv := repeat minv1.

Ltac unfold_handlers H :=
  unfold handleCancelRequest, handleFinishedSpeaking, handleReleaseFloor, handleAdminKick,
    handleAdminRemoveRequest, handleRequestToSpeak, grantMic, wsClose, setTimeout,
    processExit in H.

(** ** The runtime transformers, seen through [userIn] and [openIn] *)

Lemma userIn_closeSocket ws r ws' : userIn (closeSocket ws r) ws' = userIn r ws'.
Proof.
  unfold userIn, closeSocket. cbn. destruct (decide (ws = ws')) as [->|Hne].
  - rewrite lookup_alter_eq. by destruct (sockets r !! ws').
  - by rewrite lookup_alter_ne.
Qed.

Lemma openIn_closeSocket ws r ws' :
  openIn (closeSocket ws r) ws' = if decide (ws = ws') then false else openIn r ws'.
Proof.
  unfold openIn, closeSocket. cbn. destruct (decide (ws = ws')) as [->|Hne].
  - rewrite lookup_alter_eq. by destruct (sockets r !! ws') as [[[] ?]|].
  - by rewrite lookup_alter_ne.
Qed.

Lemma userIn_attachUser ws u r ws' :
  userIn (attachUser ws u r) ws' =
  if decide (ws = ws') then (if sockets r !! ws is Some _ then Some u else None) else userIn r ws'.
Proof.
  unfold userIn, attachUser. cbn. destruct (decide (ws = ws')) as [->|Hne].
  - rewrite lookup_alter_eq. by destruct (sockets r !! ws').
  - by rewrite lookup_alter_ne.
Qed.

Lemma openIn_attachUser ws u r ws' : openIn (attachUser ws u r) ws' = openIn r ws'.
Proof.
  unfold openIn, attachUser. cbn. destruct (decide (ws = ws')) as [->|Hne].
  - rewrite lookup_alter_eq. by destruct (sockets r !! ws').
  - by rewrite lookup_alter_ne.
Qed.

Lemma userIn_acceptSocket ws r ws' :
  userIn (acceptSocket ws r) ws' = if decide (ws = ws') then None else userIn r ws'.
Proof.
  unfold userIn, acceptSocket. cbn. destruct (decide (ws = ws')) as [->|Hne].
  - by rewrite lookup_insert_eq.
  - by rewrite lookup_insert_ne.
Qed.

Lemma openIn_acceptSocket ws r ws' :
  openIn (acceptSocket ws r) ws' = if decide (ws = ws') then true else openIn r ws'.
Proof.
  unfold openIn, acceptSocket. cbn. destruct (decide (ws = ws')) as [->|Hne].
  - by rewrite lookup_insert_eq.
  - by rewrite lookup_insert_ne.
Qed.

Lemma userIn_finishSocket ws r ws' : userIn (finishSocket ws r) ws' = userIn r ws'.
Proof.
  unfold userIn, finishSocket. cbn. destruct (decide (ws = ws')) as [->|Hne].
  - rewrite lookup_alter_eq. by destruct (sockets r !! ws').
  - by rewrite lookup_alter_ne.
Qed.

Lemma openIn_finishSocket ws r ws' :
  openIn (finishSocket ws r) ws' = if decide (ws = ws') then false else openIn r ws'.
Proof.
  unfold openIn, finishSocket. cbn. destruct (decide (ws = ws')) as [->|Hne].
  - rewrite lookup_alter_eq. by destruct (sockets r !! ws').
  - by rewrite lookup_alter_ne.
Qed.

Lemma userIn_armTimeout d r ws : userIn (armTimeout d r) ws = userIn r ws.
Proof. reflexivity. Qed.
Lemma openIn_armTimeout d r ws : openIn (armTimeout d r) ws = openIn r ws.
Proof. reflexivity. Qed.
Lemma userIn_cancelTimeout t r ws : userIn (cancelTimeout t r) ws = userIn r ws.
Proof. reflexivity. Qed.
Lemma openIn_cancelTimeout t r ws : openIn (cancelTimeout t r) ws = openIn r ws.
Proof. reflexivity. Qed.
Lemma userIn_set_exited b r ws : userIn (set_exited b r) ws = userIn r ws.
Proof. reflexivity. Qed.
Lemma openIn_set_exited b r ws : openIn (set_exited b r) ws = openIn r ws.
Proof. reflexivity. Qed.

Lemma openIn_user_None r ws : sockets r !! ws = None → openIn r ws = false ∧ userIn r ws = None.
Proof. unfold openIn, userIn. by intros ->. Qed.

Lemma userIn_Some_socket r ws u : userIn r ws = Some u → is_Some (sockets r !! ws).
Proof. unfold userIn. destruct (sockets r !! ws); [eauto|done]. Qed.


Hint Rewrite userIn_closeSocket openIn_closeSocket userIn_attachUser openIn_attachUser
  userIn_acceptSocket openIn_acceptSocket userIn_finishSocket openIn_finishSocket
  userIn_armTimeout openIn_armTimeout userIn_cancelTimeout openIn_cancelTimeout
  userIn_set_exited openIn_set_exited : rt_simpl.

(** Normal form for states: projections pushed through the setters. *)
Ltac st_simpl :=
  unfold userOf, isOpen in *;
  cbn [svc rt serverIP clients speaker speakQueue requestQueue hostWs isSessionActive
       bannedUids lastSpeakTimeMap shutdownTimer
       set_clients set_speaker set_speakQueue set_requestQueue set_hostWs
       set_isSessionActive set_bannedUids set_lastSpeakTimeMap set_shutdownTimer
       timers nextTimer exited wssClients
       set_timers set_nextTimer set_exited armTimeout cancelTimeout] in *;
  repeat (autorewrite with rt_simpl in *).

(** ** Association lists as [Map]s *)

Lemma elem_of_mapDelete {K V} `{EqDecision K} (k : K) (m : list (K * V)) p :
  p ∈ mapDelete k m ↔ p ∈ m ∧ p.1 ≠ k.
Proof. unfold mapDelete. rewrite list_elem_of_filter. tauto. Qed.

Lemma elem_of_mapSet {K V} `{EqDecision K} (k : K) (v : V) (m : list (K * V)) p :
  p ∈ mapSet k v m → p = (k, v) ∨ p ∈ m.
Proof.
  induction m as [|[k' v'] m IH]; cbn.
  - rewrite list_elem_of_singleton. auto.
  - destruct (decide (k' = k)) as [->|Hne]; rewrite !elem_of_cons; naive_solver.
Qed.

Lemma mapSet_fresh {K V} `{EqDecision K} (k : K) (v : V) (m : list (K * V)) :
  k ∉ m.*1 → mapSet k v m = m ++ [(k, v)].
Proof.
  induction m as [|[k' v'] m IH]; cbn; [done|].
  rewrite not_elem_of_cons. intros [Hne Hm]. destruct (decide (k' = k)); [done|].
  by rewrite IH.
Qed.

Lemma mapHas_mapSet {V} k k' (v : V) m :
  mapHas k' (mapSet k v m) = true ↔ k' = k ∨ mapHas k' m = true.
Proof.
  unfold mapHas. rewrite !bool_decide_eq_true.
  induction m as [|[k0 v0] m IH]; cbn.
  - rewrite list_elem_of_singleton, elem_of_nil. tauto.
  - destruct (decide (k0 = k)) as [->|Hne]; cbn; rewrite !elem_of_cons; [tauto|].
    rewrite IH. tauto.
Qed.

Lemma mapHas_mapDelete {V} k k' (m : list (string * V)) :
  mapHas k' (mapDelete k m) = true ↔ k' ≠ k ∧ mapHas k' m = true.
Proof.
  unfold mapHas, mapDelete. rewrite !bool_decide_eq_true, !list_elem_of_fmap.
  split.
  - intros ([a b] & -> & Hin). apply list_elem_of_filter in Hin as [Hne Hin].
    split; [done|]. by exists (a, b).
  - intros (Hne & [a b] & -> & Hin). exists (a, b). split; [done|].
    by apply list_elem_of_filter.
Qed.

Lemma findClientByUid_Some st u c :
  findClientByUid st u = Some c → (c, u) ∈ clients (svc st) ∧ isOpen st c = true.
Proof.
  unfold findClientByUid. destruct (find _ _) as [[c' u']|] eqn:Hf; [|done].
  intros [= <-]. apply find_some in Hf as [Hin Hp].
  apply andb_true_iff in Hp as [Hu Ho]. apply bool_decide_eq_true in Hu as ->.
  split; [by apply list_elem_of_In|done].
Qed.

Lemma findClientByUid_None st u c :
  findClientByUid st u = None → (c, u) ∈ clients (svc st) → isOpen st c = false.
Proof.
  unfold findClientByUid. destruct (find _ _) as [[c' u']|] eqn:Hf; [done|].
  intros _ Hin. apply list_elem_of_In in Hin.
  pose proof (find_none _ _ Hf _ Hin) as Hp. cbn in Hp.
  rewrite bool_decide_true in Hp by done. done.
Qed.

Lemma enabled_message now ws m st :
  enabled now (Message ws m) st = true →
  exited (rt st) = false ∧ ∃ u, userOf st ws = Some u.
Proof.
  unfold enabled, userOf, userIn. intros H. apply andb_true_iff in H as [H1 H2].
  split; [by apply negb_true_iff|].
  destruct (sockets (rt st) !! ws) as [[q [u|]]|]; try done; [eauto|by destruct q].
Qed.

Ltac inv_open HI :=
  unfold Inv, usersOk, activeHasHost, registryOk, timersOk in *; st_simpl;
  destruct HI as ((HU1 & HU2 & HU3 & HU4) & HA & (HR1 & HR2) & HT1 & HT2 & HT3).

Ltac inv_crush :=
  repeat match goal with
  | H : _ ∈ filter _ _ |- _ => apply list_elem_of_filter in H as [? ?]
  | H : _ ∈ _ ++ _ |- _ => apply elem_of_app in H as [?|?]
  | H : _ ∈ [_] |- _ => apply list_elem_of_singleton in H; subst
  | H : _ ∈ mapDelete _ _ |- _ => apply elem_of_mapDelete in H as [? ?]
  | H : mapHas _ (mapSet _ _ _) = true |- _ => apply mapHas_mapSet in H as [?|?]
  | H : mapHas _ (mapDelete _ _) = true |- _ => apply mapHas_mapDelete in H as [? ?]
  | H : findClientByUid _ _ = Some _ |- _ =>
      apply findClientByUid_Some in H as [? ?]; st_simpl
  | H : context [decide _] |- _ => case_decide
  | |- context [decide _] => case_decide
  end; simplify_eq; cbn [fst snd] in *; eauto.

Ltac timer_facts :=
  repeat match goal with
  | HT1 : ∀ t d, (t, d) ∈ timers _ → shutdownTimer _ = Some t,
    HT2 : ∀ t d, (t, d) ∈ timers _ → (t < nextTimer _)%nat,
    Ht : (_, _) ∈ timers _ |- _ =>
      pose proof (HT1 _ _ Ht); pose proof (HT2 _ _ Ht); clear Ht
  | HT3 : ∀ t, shutdownTimer _ = Some t → (t < nextTimer _)%nat,
    Ht : shutdownTimer _ = Some _ |- _ =>
      pose proof (HT3 _ Ht); clear HT3
  end; simplify_eq; try congruence; try lia.

Lemma handleMessage_Inv now ws m st st' eff :
  Inv st → is_Some (userOf st ws) →
  handleMessage now ws m st = Some (tt, st', eff) → Inv st'.
Proof.
  intros HI Hws H.
  destruct m; cbn [handleMessage] in H; unfold_handlers H; minv.
  all: try done.
  all: inv_open HI.
  all: repeat split; intros; st_simpl; simplify_eq.
  all: try (by eauto).
  all: try (by inv_crush).
  - inv_crush. match goal with Ht : (_, _) ∈ timers _ |- _ => apply HT1 in Ht; congruence end.
  - inv_crush. match goal with Ht : (_, _) ∈ timers _ |- _ => apply HT1 in Ht; congruence end.
  - inv_crush. match goal with |- openIn ?r ?w = false => destruct (openIn r w) eqn:?; [exfalso|done] end.
    match goal with Hne : _ ≠ _ |- _ => apply Hne end. eapply HR1; eauto.
  - inv_crush. match goal with |- openIn ?r ?w = false => destruct (openIn r w) eqn:?; [exfalso|done] end.
    match goal with Hne : _ ≠ _ |- _ => apply Hne end. eapply HR1; eauto.
  - inv_crush. match goal with Hc : (_, _) ∈ clients _ |- _ => apply HU1 in Hc as (usr & -> & _) end.
    eauto.
Qed.

Lemma handleDisconnect_Inv now ws st st' eff :
  Inv st → handleDisconnect now ws st = Some (tt, st', eff) → Inv st'.
Proof.
  intros HI H. unfold handleDisconnect in H. unfold_handlers H. minv.
  all: try done.
  all: inv_open HI.
  all: repeat split; intros; st_simpl; simplify_eq.
  all: try (by eauto).
  all: try (by inv_crush).
  all: try (by inv_crush; timer_facts).
  all: match goal with |- ?G => idtac "goal" G end.
Qed.

Lemma handleConnection_shape ws u st st' eff :
  handleConnection ws u st = Some (tt, st', eff) →
  (mapHas (uid u) (bannedUids (svc st)) = true ∧
   st' = mkState (svc st) (closeSocket ws (rt st))) ∨
  (mapHas (uid u) (bannedUids (svc st)) = false ∧
   st' = mkState (svc (dropDuplicate (uid u) st))
                 (closeSocket ws (rt (dropDuplicate (uid u) st)))) ∨
  (mapHas (uid u) (bannedUids (svc st)) = false ∧ st' = admission ws u st).
Proof.
  intros H. unfold handleConnection in H. unfold_handlers H. minv.
  all: try done.
  all: unfold admission, dropDuplicate.
  all: repeat match goal with Hf : findClientByUid _ _ = _ |- _ => rewrite Hf; clear Hf end.
  all: st_simpl; auto.
Qed.

Lemma openIn_if r ws (u : User) :
  openIn r ws = true → (if sockets r !! ws is Some _ then Some u else None) = Some u.
Proof. unfold openIn. by destruct (sockets r !! ws). Qed.

Lemma Inv_closeSocket c st : Inv st → Inv (mkState (svc st) (closeSocket c (rt st))).
Proof.
  intros HI. inv_open HI. repeat split; intros; st_simpl; eauto.
  - case_decide; [done|].
    repeat match goal with Ho : context [decide _] |- _ => case_decide end; try done.
    eauto.
  - case_decide; eauto.
Qed.

Lemma Inv_dropDuplicate u st :
  Inv st →
  Inv (dropDuplicate u st) ∧
  (∀ c, (c, u) ∈ clients (svc (dropDuplicate u st)) → isOpen (dropDuplicate u st) c = false).
Proof.
  intros HI. unfold dropDuplicate.
  destruct (findClientByUid st u) as [ex|] eqn:Hf.
  - apply findClientByUid_Some in Hf as [Hin Hopen].
    inv_open HI. repeat split; intros; st_simpl; inv_crush.
    destruct (openIn (rt st) c) eqn:Hc; [|done]. exfalso. eauto.
  - split; [done|]. intros c Hc. by eapply findClientByUid_None.
Qed.

Lemma dropDuplicate_frame u st :
  (∀ p, p ∈ clients (svc (dropDuplicate u st)) → p ∈ clients (svc st)) ∧
  (∀ ws, userOf (dropDuplicate u st) ws = userOf st ws) ∧
  (∀ ws, isOpen (dropDuplicate u st) ws = true → isOpen st ws = true) ∧
  bannedUids (svc (dropDuplicate u st)) = bannedUids (svc st) ∧
  speaker (svc (dropDuplicate u st)) = speaker (svc st) ∧
  requestQueue (svc (dropDuplicate u st)) = requestQueue (svc st) ∧
  hostWs (svc (dropDuplicate u st)) = hostWs (svc st).
Proof.
  unfold dropDuplicate. destruct (findClientByUid st u) as [ex|]; [|done].
  repeat split; intros; st_simpl; inv_crush.
Qed.

Lemma Inv_admit ws u st :
  Inv st → userOf st ws = None → isOpen st ws = true →
  mapHas (uid u) (bannedUids (svc st)) = false →
  Inv (admission ws u st).
Proof.
  intros HI Hnone Hopen Hban.
  destruct (Inv_dropDuplicate (uid u) st HI) as [HI1 Hdup].
  destruct (dropDuplicate_frame (uid u) st) as (Hcl & Hus & Hop & Hb & Hsp & Hq & Hh).
  assert (Hopen1 : isOpen (dropDuplicate (uid u) st) ws = true).
  { unfold dropDuplicate. destruct (findClientByUid st (uid u)) as [ex|] eqn:Hf; [|done].
    apply findClientByUid_Some in Hf as [Hin _]. st_simpl.
    case_decide; [|done]. subst. destruct HI as ((HU1 & _) & _).
    apply HU1 in Hin as (? & ? & _). st_simpl. congruence. }
  assert (Hfresh : ws ∉ (clients (svc (dropDuplicate (uid u) st))).*1).
  { intros Hin. apply list_elem_of_fmap in Hin as ([w u'] & -> & Hin). cbn in *.
    destruct HI1 as ((HU1 & _) & _). apply HU1 in Hin as (? & Hu' & _).
    rewrite Hus in Hu'. congruence. }
  unfold admission. cbv zeta. rewrite mapSet_fresh by done.
  set (st1 := dropDuplicate (uid u) st) in *.
  inv_open HI1. clear HI.
  repeat split; intros; st_simpl; inv_crush.
  all: try (rewrite openIn_if by done; eauto).
  all: try congruence.
  - exfalso. apply Hfresh. apply list_elem_of_fmap. by eexists (_, _).
  - match goal with Hc : (_, _) ∈ clients _ |- _ => apply Hdup in Hc end. st_simpl. congruence.
  - match goal with Hc : (_, _) ∈ clients _ |- _ => apply Hdup in Hc end. st_simpl. congruence.
Qed.

Lemma Inv_acceptSocket ws st :
  Inv st → sockets (rt st) !! ws = None → Inv (mkState (svc st) (acceptSocket ws (rt st))).
Proof.
  intros HI Hnew. apply openIn_user_None in Hnew as [Ho Hu].
  inv_open HI. repeat split; intros; st_simpl; eauto.
  all: repeat case_decide; subst; eauto.
  all: try match goal with
           | Hc : (_, _) ∈ clients _ |- _ => apply HU1 in Hc as (? & ? & ?); congruence
           | Hc : speaker _ = Some _ |- _ => apply HU2 in Hc as [? ?]; congruence
           | Hc : _ ∈ requestQueue _ |- _ => apply HU3 in Hc as [? ?]; congruence
           | Hc : hostWs _ = Some _ |- _ => apply HU4 in Hc as [? ?]; congruence
           end.
Qed.

Lemma Inv_finishSocket c st : Inv st → Inv (mkState (svc st) (finishSocket c (rt st))).
Proof.
  intros HI. inv_open HI. repeat split; intros; st_simpl; eauto.
  - case_decide; [done|].
    repeat match goal with Ho : context [decide _] |- _ => case_decide end; try done.
    eauto.
  - case_decide; eauto.
Qed.

Lemma enabled_connection now ws u st :
  enabled now (Connection ws u) st = true →
  exited (rt st) = false ∧ sockets (rt st) !! ws = None.
Proof.
  unfold enabled. intros H. apply andb_true_iff in H as [H1 H2].
  split; [by apply negb_true_iff|]. by destruct (sockets (rt st) !! ws).
Qed.

Lemma enabled_timeout now t st :
  enabled now (Timeout t) st = true →
  exited (rt st) = false ∧ ∃ d, (t, d) ∈ timers (rt st) ∧ d ≤ now.
Proof.
  unfold enabled. intros H. apply andb_true_iff in H as [H1 H2].
  split; [by apply negb_true_iff|].
  apply existsb_exists in H2 as ([t' d] & Hin & Hp). cbn in Hp.
  apply andb_true_iff in Hp as [Ht Hd].
  apply bool_decide_eq_true in Ht as ->. apply bool_decide_eq_true in Hd.
  exists d. split; [by apply list_elem_of_In|done].
Qed.

Lemma step_inv now ev st st' eff :
  step now ev st = Some (tt, st', eff) →
  enabled now ev st = true ∧ fire now ev st = Some (tt, st', eff).
Proof. unfold step. by destruct (enabled now ev st). Qed.

Lemma step_Inv now ev st st' eff :
  Inv st → step now ev st = Some (tt, st', eff) → Inv st'.
Proof.
  intros HI H. apply step_inv in H as [Hen H].
  destruct ev as [ws u|ws m|ws|t]; cbn [fire] in H.
  - apply enabled_connection in Hen as [_ Hnew].
    apply bind_inv in H as (a & st1 & e1 & e2 & H1 & H2 & ->). minv_prim H1.
    pose proof (Inv_acceptSocket ws st HI Hnew) as HI1.
    set (st1 := mkState (svc st) (acceptSocket ws (rt st))) in *.
    apply handleConnection_shape in H2 as [[_ ->]|[[_ ->]|[Hban ->]]].
    + by apply Inv_closeSocket.
    + apply (Inv_closeSocket ws (dropDuplicate (uid u) st1)).
      by apply Inv_dropDuplicate.
    + apply Inv_admit; [done| | |done]; unfold st1; st_simpl; by rewrite decide_True.
  - apply enabled_message in Hen as [_ [u Hu]].
    eapply handleMessage_Inv; [done| |done]. by rewrite Hu.
  - apply bind_inv in H as (a & st1 & e1 & e2 & H1 & H2 & ->). minv_prim H1.
    eapply handleDisconnect_Inv; [|done]. by apply Inv_finishSocket.
  - unfold processExit in H. minv. inv_open HI.
    repeat split; intros; st_simpl; inv_crush.
Qed.

Lemma initial_Inv ip : Inv (initial ip).
Proof.
  unfold Inv, usersOk, activeHasHost, registryOk, timersOk, initial. cbn.
  repeat split; intros; try done;
    repeat match goal with H : _ ∈ [] |- _ => by apply elem_of_nil in H end.
Qed.

Lemma reachable_Inv st : reachable st → Inv st.
Proof.
  induction 1 as [ip|st now ev st' eff _ IH Hstep]; [apply initial_Inv|].
  by eapply step_Inv.
Qed.

Lemma run_inv_cons now ev es st st' eff :
  run ((now, ev) :: es) st = Some (tt, st', eff) →
  ∃ st1 e1 e2, step now ev st = Some (tt, st1, e1) ∧ run es st1 = Some (tt, st', e2) ∧
               eff = e1 ++ e2.
Proof.
  cbn [run]. intros H. apply bind_inv in H as ([] & st1 & e1 & e2 & H1 & H2 & ->). eauto 6.
Qed.

Lemma run_reachable es : ∀ st st' eff,
  reachable st → run es st = Some (tt, st', eff) → reachable st'.
Proof.
  induction es as [|[now ev] es IH]; intros st st' eff Hr H.
  - cbv [run skip mret M_ret] in H. by simplify_eq.
  - apply run_inv_cons in H as (st1 & e1 & e2 & H1 & H2 & _).
    eapply IH; [|done]. by eapply reachable_step.
Qed.


(** ** Where handlers throw, and where they do not *)

Lemma ok_bind {A B} (m : M A) (f : A → M B) st :
  is_Some (m st) →
  (∀ a st1 e1, m st = Some (a, st1, e1) → is_Some (f a st1)) →
  is_Some ((m ≫= f) st).
Proof.
  intros [[[a st1] e1] Hm] Hf. destruct (Hf _ _ _ Hm) as [[[b st2] e2] Hb].
  cbv [mbind M_bind]. rewrite Hm, Hb. eauto.
Qed.

Lemma ok_forEach {A} (body : A → M unit) (l : list A) :
  (∀ x st, is_Some (body x st)) → ∀ st, is_Some (forEach l body st).
Proof.
  intros Hb. induction l as [|x l IH]; intros st; cbn [forEach]; [by eexists|].
  apply ok_bind; [apply Hb|]. intros. apply IH.
Qed.

Lemma ok_theUser ws st : is_Some (userOf st ws) → is_Some (theUser ws st).
Proof. intros [u Hu]. rewrite (theUser_run _ _ _ Hu). eauto. Qed.

Lemma ok_broadcastParticipantList st : is_Some (broadcastParticipantList st).
Proof.
  unfold broadcastParticipantList. apply ok_bind; [by eexists|].
  intros a st1 e1 H. minv_prim H. destruct (hostWs _); [rewrite send_run|]; by eexists.
Qed.

Lemma ok_broadcastRequestQueue st :
  (∀ c, c ∈ requestQueue (svc st) → is_Some (userOf st c)) →
  is_Some (broadcastRequestQueue st).
Proof.
  intros Hq. unfold broadcastRequestQueue. apply ok_bind; [by eexists|].
  intros a st1 e1 H. minv_prim H. destruct (hostWs _); [|by eexists].
  destruct (mapM (userOf st1) (requestQueue (svc st1))) eqn:Hm; [rewrite send_run; by eexists|].
  exfalso. assert (is_Some (mapM (userOf st1) (requestQueue (svc st1)))) as [? ?]; [|congruence].
  apply mapM_is_Some. apply Forall_forall. intros c Hc. by apply Hq.
Qed.

Lemma ok_broadcastBannedList st : is_Some (broadcastBannedList st).
Proof.
  unfold broadcastBannedList. apply ok_bind; [by eexists|].
  intros a st1 e1 H. minv_prim H. destruct (hostWs _); [rewrite send_run|]; by eexists.
Qed.

Lemma mapM_users st :
  Inv st → is_Some (mapM (userOf st) (requestQueue (svc st))).
Proof.
  intros ((_ & _ & HU3 & _) & _). apply mapM_is_Some, Forall_forall. intros c Hc. by apply HU3.
Qed.

Ltac ok_step :=
  match goal with
  | |- is_Some (mbind _ _ _) =>
      apply ok_bind; [|let H := fresh "Hm" in intros ? ? ? H; minv]
  | |- is_Some (send _ _ _) => rewrite send_run; by eexists
  | |- is_Some (broadcast _ _) => rewrite broadcast_run; by eexists
  | |- is_Some (broadcastSpeakerUpdate _) => rewrite broadcastSpeakerUpdate_run; by eexists
  | |- is_Some (broadcastParticipantList _) => apply ok_broadcastParticipantList
  | |- is_Some (broadcastBannedList _) => apply ok_broadcastBannedList
  | |- is_Some (broadcastRequestQueue _) => apply ok_broadcastRequestQueue
  | |- is_Some (theUser _ _) => apply ok_theUser
  | |- is_Some (forEach _ _ _) => apply ok_forEach; clear; intros [] ?
  | |- is_Some (get _) => by eexists
  | |- is_Some (this _) => by eexists
  | |- is_Some (update _ _) => by eexists
  | |- is_Some (updateRt _ _) => by eexists
  | |- is_Some (setUser _ _ _) => by eexists
  | |- is_Some (clearTimeout _ _) => by eexists
  | |- is_Some (emit _ _) => by eexists
  | |- is_Some (skip _) => by eexists
  | |- is_Some (mret _ _) => by eexists
  | |- is_Some ((if ?b then _ else _) _) => destruct b eqn:?
  | |- is_Some ((match ?x with _ => _ end) _) => destruct x eqn:?
  end.

(** The malformed messages: the handler throws where [throwsOn] holds, and
    elsewhere a message without payload is ignored. *)
Lemma handleMessage_throws now ws m st :
  throwsOn st ws m = true → handleMessage now ws m st = None.
Proof.
  intros H. destruct m as [| | | | | | | | | | | | | | | | | | | |type|];
    try discriminate H; [|reflexivity].
  cbn [handleMessage]. erewrite bind_run by reflexivity. cbv beta iota.
  destruct type; cbn [throwsOn] in H.
  1-6: apply bool_decide_eq_true in H; by rewrite decide_True.
  - destruct (hostWs (svc st)) as [h|] eqn:Hh; [|discriminate H].
    by destruct (decide (Some h = Some ws)).
  - erewrite bind_run by reflexivity. cbv beta iota.
    by destruct (userWithUid st ws).
Qed.

Lemma handleMessage_NoPayload now ws type st :
  throwsOn st ws (NoPayload type) = false →
  handleMessage now ws (NoPayload type) st = Some (tt, st, []).
Proof.
  intros H. cbn [handleMessage]. erewrite bind_run by reflexivity. cbv beta iota.
  destruct type; cbn [throwsOn] in H.
  1-6: apply bool_decide_eq_false in H; by rewrite decide_False.
  - destruct (hostWs (svc st)) as [h|] eqn:Hh; [discriminate H|].
    by rewrite decide_False.
  - erewrite bind_run by reflexivity. cbv beta iota.
    by destruct (userWithUid st ws).
Qed.

Lemma ok_handleMessage now ws m st :
  Inv st → is_Some (userOf st ws) → throwsOn st ws m = false →
  is_Some (handleMessage now ws m st).
Proof.
  intros HI Hws Hth.
  destruct m; try (rewrite handleMessage_NoPayload by done; by eexists);
    try discriminate Hth; clear Hth; cbn [handleMessage];
    unfold handleCancelRequest, handleFinishedSpeaking, handleReleaseFloor, handleAdminKick,
      handleAdminRemoveRequest, handleRequestToSpeak, grantMic, wsClose, setTimeout,
      processExit.
  all: repeat ok_step.
  all: try done.
  all: try match goal with
           | Hq : mapM _ _ = None |- _ =>
               exfalso; destruct (mapM_users _ HI) as [? ?]; congruence
           end.
  all: inv_open HI; intros; st_simpl.
  all: by inv_crush.
Qed.

Lemma ok_handleDisconnect now ws st :
  Inv st → is_Some (handleDisconnect now ws st).
Proof.
  intros HI. unfold handleDisconnect, setTimeout.
  repeat ok_step.
  all: try done.
  all: inv_open HI; intros; st_simpl.
  all: by inv_crush.
Qed.

Lemma ok_handleConnection ws u st :
  Inv st → userOf st ws = None → isOpen st ws = true →
  is_Some (handleConnection ws u st).
Proof.
  intros HI Hnone Hopen. unfold handleConnection, wsClose.
  repeat ok_step.
  all: try done.
  all: inv_open HI; intros; st_simpl.
  all: try (by inv_crush).
  all: match goal with Hh : hostWs _ = Some _ |- _ => destruct (HU4 _ Hh) as [? ?]; congruence end.
Qed.

Lemma step_progress now ev st :
  Inv st → enabled now ev st = true → faulty st ev = false → is_Some (step now ev st).
Proof.
  intros HI Hen Hok. unfold step. rewrite Hen.
  destruct ev as [ws u|ws m|ws|t]; cbn [fire].
  - apply enabled_connection in Hen as [_ Hnew].
    apply ok_bind; [by eexists|]. intros a st1 e1 H. minv_prim H.
    apply ok_handleConnection; [by apply Inv_acceptSocket|..]; st_simpl; by rewrite decide_True.
  - apply enabled_message in Hen as [_ [u Hu]].
    apply ok_handleMessage; [done|by rewrite Hu|done].
  - apply ok_bind; [by eexists|]. intros a st1 e1 H. minv_prim H.
    apply ok_handleDisconnect. by apply Inv_finishSocket.
  - unfold processExit. repeat ok_step.
Qed.

(** A step that is enabled in a reachable state goes through, unless the
    message is one of the malformed ones that throw. *)
Lemma step_total now ev st :
  reachable st → enabled now ev st = true → faulty st ev = false →
  ∃ st' eff, step now ev st = Some (tt, st', eff).
Proof.
  intros Hr Hen Hok.
  destruct (step_progress now ev st (reachable_Inv _ Hr) Hen Hok) as [[[[] st'] eff] H].
  eauto.
Qed.

Lemma step_throws now ev st :
  enabled now ev st = true → faulty st ev = true → step now ev st = None.
Proof.
  intros Hen Hf. unfold step. rewrite Hen.
  destruct ev as [ws u|ws m|ws|t]; try discriminate Hf.
  by apply handleMessage_throws.
Qed.



(** ** Scenario states are reachable *)

Lemma after_run es st st' eff : run es st = Some (tt, st', eff) → after es st = st'.
Proof. unfold after. by intros ->. Qed.

Lemma after_reachable es st :
  reachable st → is_Some (run es st) → reachable (after es st).
Proof.
  intros Hr [[[[] st'] eff] H]. rewrite (after_run _ _ _ _ H). by eapply run_reachable.
Qed.

Lemma classroom_reachable : reachable classroom.
Proof. apply after_reachable; [constructor|]. vm_compute. eauto. Qed.

Lemma paused_reachable : reachable paused.
Proof. apply after_reachable; [apply classroom_reachable|]. vm_compute. eauto. Qed.

Lemma bobKicked_reachable : reachable bobKicked.
Proof. apply after_reachable; [apply classroom_reachable|]. vm_compute. eauto. Qed.

Lemma bobGranted_reachable : reachable bobGranted.
Proof. apply after_reachable; [apply classroom_reachable|]. vm_compute. eauto. Qed.

Lemma hostGone_reachable : reachable hostGone.
Proof. apply after_reachable; [apply classroom_reachable|]. vm_compute. eauto. Qed.

(** ** The floor controller *)

(** C10. Processing finished-speaking from a connection leaves the whole
    state as it was; the only effect is the SPEAK_FINISHED notification to
    the stats service, and only when the sender holds the speaker slot. *)
Theorem finished_speaking_changes_nothing now st c :
  enabled now (Message c FinishedSpeaking) st = true →
  ∃ u, userOf st c = Some u ∧
       step now (Message c FinishedSpeaking) st =
         Some (tt, st,
               if decide (speaker (svc st) = Some c)
               then [Stats (LogEvent SPEAK_FINISHED (uid u))] else []).
Proof.
  intros Hen. destruct (enabled_message _ _ _ _ Hen) as [_ [u Hu]].
  exists u. split; [done|].
  unfold step. rewrite Hen. cbn [fire handleMessage]. unfold handleFinishedSpeaking.
  cbv [mbind M_bind this]. destruct (decide _); [|done].
  by rewrite (theUser_run _ _ _ Hu).
Qed.

Lemma finished_speaking_changes_nothing_witness :
  enabled 6 (Message 1 FinishedSpeaking) classroom = true ∧
  ∃ u, userOf classroom 1 = Some u ∧
       step 6 (Message 1 FinishedSpeaking) classroom =
         Some (tt, classroom,
               if decide (speaker (svc classroom) = Some 1%nat)
               then [Stats (LogEvent SPEAK_FINISHED (uid u))] else []).
Proof.
  split; [vm_compute; reflexivity|].
  apply (finished_speaking_changes_nothing 6 classroom 1). vm_compute; reflexivity.
Defined.

(** C2, amended. While the session is inactive a request-to-speak is dropped
    without a trace: no reply of any kind, no stats notification, and the
    state is unchanged. *)
Theorem request_while_inactive_is_dropped now st c :
  enabled now (Message c RequestToSpeak) st = true →
  isSessionActive (svc st) = false →
  step now (Message c RequestToSpeak) st = Some (tt, st, []).
Proof.
  intros Hen Hoff. unfold step. rewrite Hen. cbn [fire handleMessage].
  cbv [mbind M_bind this]. by rewrite Hoff.
Qed.

Lemma request_while_inactive_is_dropped_witness :
  enabled 7 (Message 2 RequestToSpeak) paused = true ∧
  isSessionActive (svc paused) = false ∧
  step 7 (Message 2 RequestToSpeak) paused = Some (tt, paused, []).
Proof.
  split; [vm_compute; reflexivity|]. split; [vm_compute; reflexivity|].
  apply (request_while_inactive_is_dropped 7 paused 2); vm_compute; reflexivity.
Defined.

(** C2 as stated fails: Bob asks for the floor while the session is paused
    and is sent nothing, so no error reply either. *)
Lemma request_while_inactive_no_error_reply :
  reachable paused ∧
  isSessionActive (svc paused) = false ∧
  enabled 7 (Message 2 RequestToSpeak) paused = true ∧
  ¬ ∃ st' eff msg,
      step 7 (Message 2 RequestToSpeak) paused = Some (tt, st', eff) ∧
      Send 2 (SystemError msg) ∈ eff.
Proof.
  split; [apply paused_reachable|]. split; [vm_compute; reflexivity|].
  split; [vm_compute; reflexivity|].
  intros (st' & eff & msg & Hstep & Hin).
  assert (Hrun : step 7 (Message 2 RequestToSpeak) paused = Some (tt, paused, []))
    by (vm_compute; reflexivity).
  rewrite Hrun in Hstep.
  apply (f_equal (λ r, match r with Some (_, _, e) => e | None => [] end)) in Hstep.
  cbv beta iota in Hstep. subst eff. by apply elem_of_nil in Hin.
Qed.

(** C9, amended. When the connection that holds the speaker slot asks for
    the floor again while the session is active, the request is logged, the
    grant is written again to its socket if that is open, a speak-pulse is
    logged, and the state is unchanged. While the session is inactive the
    message is dropped: nothing is written or logged. *)
Theorem speaker_request_reacks_when_active now st c :
  reachable st →
  enabled now (Message c RequestToSpeak) st = true →
  speaker (svc st) = Some c →
  ∃ u, userOf st c = Some u ∧
       step now (Message c RequestToSpeak) st =
         Some (tt, st,
               if isSessionActive (svc st)
               then Stats (LogEvent REQUEST_TO_SPEAK (uid u)) ::
                    sendEffects st c SystemSpeakGranted ++
                    [Stats (LogEvent SPEAK_PULSE (uid u))]
               else []).
Proof.
  intros Hr Hen Hsp. pose proof (reachable_Inv _ Hr) as HI. destruct (enabled_message _ _ _ _ Hen) as [_ [u Hu]].
  exists u. split; [done|].
  unfold step. rewrite Hen. cbn [fire handleMessage].
  cbv [mbind M_bind this]. destruct (isSessionActive (svc st)) eqn:Hact; [|done].
  destruct HI as (_ & HA & _). destruct (HA Hact) as [h Hh].
  rewrite (theUser_run _ _ _ Hu). cbv [emit]. unfold handleRequestToSpeak.
  cbv [mbind M_bind this]. rewrite Hh, Hsp. rewrite decide_True by done.
  rewrite send_run, (theUser_run _ _ _ Hu). cbv [emit]. cbn [app]. done.
Qed.

Lemma speaker_request_reacks_when_active_witness :
  reachable classroom ∧
  enabled 6 (Message 1 RequestToSpeak) classroom = true ∧
  speaker (svc classroom) = Some 1%nat ∧
  ∃ u, userOf classroom 1 = Some u ∧
       step 6 (Message 1 RequestToSpeak) classroom =
         Some (tt, classroom,
               if isSessionActive (svc classroom)
               then Stats (LogEvent REQUEST_TO_SPEAK (uid u)) ::
                    sendEffects classroom 1 SystemSpeakGranted ++
                    [Stats (LogEvent SPEAK_PULSE (uid u))]
               else []).
Proof.
  split; [apply after_reachable; [constructor|vm_compute; eauto]|].
  split; [vm_compute; reflexivity|]. split; [vm_compute; reflexivity|].
  apply (speaker_request_reacks_when_active 6 classroom 1).
  - apply after_reachable; [constructor|vm_compute; eauto].
  - vm_compute; reflexivity.
  - vm_compute; reflexivity.
Defined.

(** C9 as stated fails: Alice holds the floor, the lecturer pauses the
    session, and Alice's next request-to-speak is answered by nothing: no
    grant and no speak-pulse. *)
Lemma paused_speaker_request_gets_no_ack :
  reachable paused ∧
  speaker (svc paused) = Some 1%nat ∧
  enabled 7 (Message 1 RequestToSpeak) paused = true ∧
  step 7 (Message 1 RequestToSpeak) paused = Some (tt, paused, []) ∧
  ¬ ∃ st' eff,
      step 7 (Message 1 RequestToSpeak) paused = Some (tt, st', eff) ∧
      Send 1 SystemSpeakGranted ∈ eff.
Proof.
  assert (Hrun : step 7 (Message 1 RequestToSpeak) paused = Some (tt, paused, []))
    by (vm_compute; reflexivity).
  split; [apply paused_reachable|]. split; [vm_compute; reflexivity|].
  split; [vm_compute; reflexivity|]. split; [done|].
  intros (st' & eff & Hstep & Hin). rewrite Hrun in Hstep.
  apply (f_equal (λ r, match r with Some (_, _, e) => e | None => [] end)) in Hstep.
  cbv beta iota in Hstep. subst eff. by apply elem_of_nil in Hin.
Qed.

(** ** The signalling relay *)

(** C6, amended. An ICE candidate (a webrtc-ice-candidate message with its
    payload) from a sender that is not the host is forwarded to the host,
    tagged with the sender's uid, whether or not the payload names a target
    uid ([target] is any optional uid); it is dropped only when no host is
    registered (or the host's socket is not open). Nothing is sent to the
    named target and the state is unchanged. *)
Theorem ice_candidate_from_participant_goes_to_host now st c candidate (target : option string) :
  enabled now (Message c (WebrtcIceCandidate candidate target)) st = true →
  hostWs (svc st) ≠ Some c →
  ∃ u, userOf st c = Some u ∧
       step now (Message c (WebrtcIceCandidate candidate target)) st =
         Some (tt, st,
               match hostWs (svc st) with
               | Some h => sendEffects st h (OutWebrtcIceCandidate candidate (Some (uid u)))
               | None => []
               end).
Proof.
  intros Hen Hnh. destruct (enabled_message _ _ _ _ Hen) as [_ [u Hu]].
  exists u. split; [done|].
  unfold step. rewrite Hen. cbn [fire handleMessage].
  cbv [mbind M_bind this]. rewrite decide_False by done.
  destruct (hostWs (svc st)) as [h|]; [|done].
  rewrite (theUser_run _ _ _ Hu), send_run. done.
Qed.

Lemma ice_candidate_from_participant_goes_to_host_witness :
  enabled 6 (Message 2 (WebrtcIceCandidate "candidate" (Some "a"%string))) classroom = true ∧
  enabled 6 (Message 2 (WebrtcIceCandidate "candidate" None)) classroom = true ∧
  hostWs (svc classroom) ≠ Some 2%nat ∧
  (∃ u, userOf classroom 2 = Some u ∧
        step 6 (Message 2 (WebrtcIceCandidate "candidate" (Some "a"%string))) classroom =
          Some (tt, classroom,
                match hostWs (svc classroom) with
                | Some h => sendEffects classroom h
                              (OutWebrtcIceCandidate "candidate" (Some (uid u)))
                | None => []
                end)) ∧
  (∃ u, userOf classroom 2 = Some u ∧
        step 6 (Message 2 (WebrtcIceCandidate "candidate" None)) classroom =
          Some (tt, classroom,
                match hostWs (svc classroom) with
                | Some h => sendEffects classroom h
                              (OutWebrtcIceCandidate "candidate" (Some (uid u)))
                | None => []
                end)).
Proof.
  split; [vm_compute; reflexivity|]. split; [vm_compute; reflexivity|].
  split; [vm_compute; discriminate|]. split.
  - apply (ice_candidate_from_participant_goes_to_host 6 classroom 2 "candidate"
             (Some "a"%string)).
    + vm_compute; reflexivity.
    + vm_compute; discriminate.
  - apply (ice_candidate_from_participant_goes_to_host 6 classroom 2 "candidate" None).
    + vm_compute; reflexivity.
    + vm_compute; discriminate.
Defined.

(** C6 as stated fails: Bob, a participant, sends a candidate that names
    Alice as target; it is forwarded to the host. *)
Lemma targeted_candidate_from_participant_is_forwarded :
  reachable classroom ∧
  hostWs (svc classroom) = Some 0%nat ∧
  step 6 (Message 2 (WebrtcIceCandidate "candidate" (Some "a"%string))) classroom =
    Some (tt, classroom, [Send 0 (OutWebrtcIceCandidate "candidate" (Some "b"%string))]).
Proof.
  split; [apply classroom_reachable|]. split; vm_compute; reflexivity.
Qed.

(** ** Grant paths and the request queue *)

(** [grantMic] takes the new speaker out of the queue. *)
Lemma grantMic_unqueues ws st st' eff :
  grantMic ws st = Some (tt, st', eff) →
  speaker (svc st') = Some ws ∧ ws ∉ requestQueue (svc st').
Proof.
  intros H. unfold grantMic in H. minv; st_simpl; (split; [done|]).
  - intros Hin. apply list_elem_of_filter in Hin as [Hne _]. done.
  - match goal with Hb : bool_decide _ = false |- _ => by apply bool_decide_eq_false in Hb end.
Qed.

(** The [admin-grant-floor] case sets the speaker and leaves the queue alone. *)
Lemma admin_grant_run now st h t target :
  enabled now (Message h (AdminGrantFloor t)) st = true →
  hostWs (svc st) = Some h →
  findClientByUid st t = Some target →
  ∃ eff, step now (Message h (AdminGrantFloor t)) st =
           Some (tt, mkState (set_speaker (Some target) (svc st)) (rt st), eff).
Proof.
  intros Hen Hh Hf. unfold step. rewrite Hen. cbn [fire handleMessage].
  cbv [mbind M_bind this get update]. rewrite decide_True by done. rewrite Hf.
  rewrite send_run, broadcastSpeakerUpdate_run. eauto.
Qed.

(** C1, at the failing input. Alice speaks and Bob is queued; the host
    grants Bob the floor with admin-grant-floor. Bob now holds the speaker
    slot and is still in the request queue. *)
Theorem admin_grant_leaves_speaker_queued :
  reachable classroom ∧
  speaker (svc classroom) = Some 1%nat ∧ requestQueue (svc classroom) = [2%nat] ∧
  (∃ eff, step 6 (Message 0 (AdminGrantFloor "b")) classroom = Some (tt, bobGranted, eff)) ∧
  reachable bobGranted ∧
  speaker (svc bobGranted) = Some 2%nat ∧ 2%nat ∈ requestQueue (svc bobGranted).
Proof.
  split; [apply classroom_reachable|]. split; [vm_compute; reflexivity|].
  split; [vm_compute; reflexivity|]. split; [vm_compute; eauto|].
  split; [apply bobGranted_reachable|]. split; [vm_compute; reflexivity|].
  vm_compute. apply list_elem_of_here.
Qed.

(** ** Vacating the floor *)

(** C8. In a reachable state where [sp] holds the speaker slot, each of a
    release-floor from [sp], an admin-release-floor from the host, and the
    close of [sp]'s socket goes through and leaves the speaker slot empty and
    the cooldown map holding the time of the event for [sp]'s uid. *)
Theorem vacating_clears_slot_and_stamps_cooldown now st sp ev :
  reachable st → speaker (svc st) = Some sp → vacates st sp ev →
  enabled now ev st = true →
  ∃ u st' eff,
    userOf st sp = Some u ∧
    step now ev st = Some (tt, st', eff) ∧
    speaker (svc st') = None ∧
    lastSpeakTimeMap (svc st') !! uid u = Some now.
Proof.
  intros Hr Hsp Hv Hen. pose proof (reachable_Inv _ Hr) as HI.
  assert (Hok : faulty st ev = false) by (by destruct Hv).
  destruct (step_progress now ev st HI Hen Hok) as [[[[] st'] eff] Hstep].
  assert (∃ u, userOf st sp = Some u) as [u Hu].
  { destruct HI as ((_ & HU2 & _) & _). destruct (HU2 _ Hsp) as [u Hu]. eauto. }
  exists u, st', eff. split; [done|]. split; [done|].
  apply step_inv in Hstep as [_ Hfire].
  destruct Hv as [|h Hh|]; cbn [fire handleMessage] in Hfire.
  - unfold handleReleaseFloor in Hfire. minv; st_simpl; try done.
    split; [done|]. simplify_eq. apply lookup_insert_eq.
  - minv; st_simpl; try done; simplify_eq.
    split; [done|]. apply lookup_insert_eq.
  - unfold handleDisconnect, setTimeout in Hfire. minv; st_simpl; try done; simplify_eq.
    all: split; [done|]; apply lookup_insert_eq.
Qed.

Lemma vacating_clears_slot_and_stamps_cooldown_witness :
  (reachable classroom ∧ speaker (svc classroom) = Some 1%nat) ∧
  (∃ u st' eff,
     userOf classroom 1 = Some u ∧
     step 60 (Message 1 ReleaseFloor) classroom = Some (tt, st', eff) ∧
     speaker (svc st') = None ∧ lastSpeakTimeMap (svc st') !! uid u = Some 60) ∧
  (∃ u st' eff,
     userOf classroom 1 = Some u ∧
     step 61 (Message 0 AdminReleaseFloor) classroom = Some (tt, st', eff) ∧
     speaker (svc st') = None ∧ lastSpeakTimeMap (svc st') !! uid u = Some 61) ∧
  (∃ u st' eff,
     userOf classroom 1 = Some u ∧
     step 62 (Closed 1) classroom = Some (tt, st', eff) ∧
     speaker (svc st') = None ∧ lastSpeakTimeMap (svc st') !! uid u = Some 62).
Proof.
  split; [split; [apply after_reachable; [constructor|vm_compute; eauto]
                 |vm_compute; reflexivity]|].
  split; [|split].
  - apply (vacating_clears_slot_and_stamps_cooldown 60 classroom 1 (Message 1 ReleaseFloor)).
    + apply after_reachable; [constructor|vm_compute; eauto].
    + vm_compute; reflexivity.
    + apply vacates_release.
    + vm_compute; reflexivity.
  - apply (vacating_clears_slot_and_stamps_cooldown 61 classroom 1
             (Message 0 AdminReleaseFloor)).
    + apply after_reachable; [constructor|vm_compute; eauto].
    + vm_compute; reflexivity.
    + apply vacates_admin. vm_compute; reflexivity.
    + vm_compute; reflexivity.
  - apply (vacating_clears_slot_and_stamps_cooldown 62 classroom 1 (Closed 1)).
    + apply after_reachable; [constructor|vm_compute; eauto].
    + vm_compute; reflexivity.
    + apply vacates_disconnect.
    + vm_compute; reflexivity.
Defined.

(** ** Admission, run forward *)

Lemma wsClose_run ws st :
  wsClose ws st = Some (tt, mkState (svc st) (closeSocket ws (rt st)), [Close ws]).
Proof. reflexivity. Qed.

Lemma broadcastParticipantList_run st :
  broadcastParticipantList st = Some (tt, st, participantEffects st).
Proof.
  unfold broadcastParticipantList, participantEffects.
  erewrite bind_run by reflexivity. cbv beta.
  destruct (hostWs (svc st)); [by rewrite send_run|done].
Qed.

Lemma dropDuplicate_run (u : string) st :
  match findClientByUid st u with
  | Some existingClient =>
      wsClose existingClient ;;
      update (λ s, set_clients (mapDelete existingClient (clients s)) s)
  | None => skip
  end st =
  Some (tt, dropDuplicate u st,
        match findClientByUid st u with Some ex => [Close ex] | None => [] end).
Proof. unfold dropDuplicate. by destruct (findClientByUid st u). Qed.

Lemma this_run st : this st = Some (svc st, st, []).
Proof. reflexivity. Qed.
Lemma get_run st : get st = Some (st, st, []).
Proof. reflexivity. Qed.
Lemma update_run f st : update f st = Some (tt, mkState (f (svc st)) (rt st), []).
Proof. reflexivity. Qed.
Lemma setUser_run ws u st :
  setUser ws u st = Some (tt, mkState (svc st) (attachUser ws u (rt st)), []).
Proof. reflexivity. Qed.

Ltac fwd lem := erewrite bind_run by (apply lem); cbv beta iota.

Lemma handleConnection_banned ws u st :
  mapHas (uid u) (bannedUids (svc st)) = true →
  handleConnection ws u st =
    Some (tt, mkState (svc st) (closeSocket ws (rt st)),
          sendEffects st ws (SystemError "You have been kicked from this session.") ++
          [Close ws]).
Proof.
  intros Hban. unfold handleConnection. fwd this_run. rewrite Hban.
  fwd send_run. by rewrite wsClose_run.
Qed.

Lemma handleConnection_run ws u st :
  mapHas (uid u) (bannedUids (svc st)) = false →
  hostWs (svc st) ≠ Some ws →
  handleConnection ws u st =
    if isLecturerEmail (email u) && anyLecturerClient (dropDuplicate (uid u) st)
    then Some (tt, mkState (svc (dropDuplicate (uid u) st))
                           (closeSocket ws (rt (dropDuplicate (uid u) st))),
               match findClientByUid st (uid u) with Some ex => [Close ex] | None => [] end ++
               sendEffects (dropDuplicate (uid u) st) ws
                 (SystemError
                    "A lecturer is already in the session. Only one lecturer is allowed.") ++
               [Close ws])
    else Some (tt, admission ws u st, admissionEffects ws u st).
Proof.
  intros Hban Hhost.
  assert (Hh1 : hostWs (svc (dropDuplicate (uid u) st)) = hostWs (svc st))
    by apply dropDuplicate_frame.
  assert (Hs1 : speaker (svc (dropDuplicate (uid u) st)) = speaker (svc st))
    by apply dropDuplicate_frame.
  unfold handleConnection. fwd this_run. rewrite Hban.
  fwd get_run. fwd dropDuplicate_run. fwd get_run.
  destruct (isLecturerEmail (email u) && anyLecturerClient (dropDuplicate (uid u) st)) eqn:Hl.
  - fwd send_run. rewrite wsClose_run. cbn [app]. done.
  - unfold admissionEffects. cbv zeta.
    fwd setUser_run. fwd update_run. cbn [svc rt].
    change (mkState _ (attachUser ws u (rt (dropDuplicate (uid u) st))))
      with (admission ws u st).
    assert (Hsv : svc (admission ws u st) =
                  set_clients (mapSet ws (uid u) (clients (svc (dropDuplicate (uid u) st))))
                              (svc (dropDuplicate (uid u) st))) by reflexivity.
    fwd this_run. fwd send_run. fwd send_run. fwd get_run.
    fwd send_run. fwd broadcastParticipantList_run.
    rewrite Hsv. cbn [hostWs isSessionActive serverIP speaker set_clients].
    rewrite Hh1, Hs1. rewrite decide_False by done.
    erewrite bind_run by reflexivity. cbv beta iota.
    assert (Hact : isSessionActive (svc (dropDuplicate (uid u) st)) = isSessionActive (svc st)).
    { unfold dropDuplicate. by destruct (findClientByUid st (uid u)). }
    assert (Hip : serverIP (svc (dropDuplicate (uid u) st)) = serverIP (svc st)).
    { unfold dropDuplicate. by destruct (findClientByUid st (uid u)). }
    rewrite Hact, Hip.
    destruct (isLecturerEmail (email u)); cbv [skip mret M_ret emit]; cbn [app];
      rewrite ?app_nil_r; reflexivity.
Qed.


Lemma sendEffects_Forall (P : Effect → Prop) st ws d :
  P (Send ws d) → Forall P (sendEffects st ws d).
Proof. intros HP. unfold sendEffects. destruct (isOpen st ws); by repeat constructor. Qed.

Lemma admission_effects_kind now ws u st st' eff :
  Inv st → enabled now (Connection ws u) st = true →
  step now (Connection ws u) st = Some (tt, st', eff) →
  Forall admissionKind eff.
Proof.
  intros HI Hen Hstep. apply step_inv in Hstep as [_ Hfire]. cbn [fire] in Hfire.
  apply enabled_connection in Hen as [_ Hnew].
  apply bind_inv in Hfire as (a & st1 & e1 & e2 & H1 & H2 & ->). minv_prim H1.
  pose proof (Inv_acceptSocket ws st HI Hnew) as HI1.
  set (st1 := mkState (svc st) (acceptSocket ws (rt st))) in *.
  assert (Hhost : hostWs (svc st1) ≠ Some ws).
  { intros Hh. destruct HI1 as ((_ & _ & _ & HU4) & _). destruct (HU4 _ Hh) as [x Hx].
    unfold st1 in Hx. st_simpl. by rewrite decide_True in Hx. }
  cbn [app]. destruct (mapHas (uid u) (bannedUids (svc st1))) eqn:Hban.
  - rewrite handleConnection_banned in H2 by done. injection H2 as <- <-.
    apply Forall_app. split; [by apply sendEffects_Forall|by repeat constructor].
  - rewrite handleConnection_run in H2 by done.
    destruct (isLecturerEmail (email u) && anyLecturerClient _) eqn:Hl;
      injection H2 as <- <-.
    + repeat (apply Forall_app; split); try (by apply sendEffects_Forall).
      * destruct (findClientByUid _ _); by repeat constructor.
      * by repeat constructor.
    + unfold admissionEffects, participantEffects. cbv zeta.
      repeat (apply Forall_app; split); try (by apply sendEffects_Forall).
      * destruct (findClientByUid _ _); by repeat constructor.
      * destruct (hostWs (svc (admission ws u st1))); [by apply sendEffects_Forall|constructor].
      * destruct (isLecturerEmail _); by repeat constructor.
Qed.

(** C7, on the code. In a reachable state the admission of a new socket
    goes through and writes no request-queue snapshot to anyone: the test
    [ws === this.hostWs] of [handleConnection] compares a socket that was
    just accepted with the host binding, which is an older socket or null.
    A reconnecting host gets the queue only when it registers as host. *)
Theorem admission_never_resends_request_queue now st ws u :
  reachable st → enabled now (Connection ws u) st = true →
  ∃ st' eff, step now (Connection ws u) st = Some (tt, st', eff) ∧
             ∀ c q, Send c (SystemRequestQueue q) ∉ eff.
Proof.
  intros Hr Hen. pose proof (reachable_Inv _ Hr) as HI.
  destruct (step_progress now _ st HI Hen eq_refl) as [[[[] st'] eff] Hstep].
  exists st', eff. split; [done|]. intros c q Hin.
  pose proof (admission_effects_kind _ _ _ _ _ _ HI Hen Hstep) as Hk.
  rewrite Forall_forall in Hk. apply (Hk _ Hin).
Qed.

Lemma admission_never_resends_request_queue_witness :
  reachable hostGone ∧ enabled 7 (Connection 3 lecturer) hostGone = true ∧
  requestQueue (svc hostGone) = [2%nat] ∧
  ∃ st' eff, step 7 (Connection 3 lecturer) hostGone = Some (tt, st', eff) ∧
             ∀ c q, Send c (SystemRequestQueue q) ∉ eff.
Proof.
  split; [apply after_reachable; [apply after_reachable; [constructor|vm_compute; eauto]
                                 |vm_compute; eauto]|].
  split; [vm_compute; reflexivity|]. split; [vm_compute; reflexivity|].
  apply (admission_never_resends_request_queue 7 hostGone 3 lecturer).
  - apply after_reachable; [apply after_reachable; [constructor|vm_compute; eauto]
                           |vm_compute; eauto].
  - vm_compute; reflexivity.
Defined.

(** The host's socket closes while Bob is queued; the lecturer comes back on
    a new socket. Admission writes the three snapshots and no queue; the
    queue is written when the new socket registers as host. *)
Lemma reconnecting_host_example :
  effectsOf [(7, Connection 3 lecturer)] hostGone =
    [ Send 3 (SystemSessionStatus false);
      Send 3 (SystemWelcome lecturer "10.0.0.1");
      Send 3 (SystemSpeakerUpdate (Some alice)) ] ∧
  Send 3 (SystemRequestQueue [bob]) ∈
    effectsOf [(8, Message 3 RegisterAsHost)] (after [(7, Connection 3 lecturer)] hostGone).
Proof.
  split; [vm_compute; reflexivity|]. vm_compute. repeat constructor.
Qed.

(** ** Bans *)

Lemma admission_of_banned_run now st ws u :
  enabled now (Connection ws u) st = true →
  mapHas (uid u) (bannedUids (svc st)) = true →
  step now (Connection ws u) st =
    Some (tt, mkState (svc st) (closeSocket ws (acceptSocket ws (rt st))),
          [Send ws (SystemError "You have been kicked from this session."); Close ws]).
Proof.
  intros Hen Hban. unfold step. rewrite Hen. cbn [fire].
  erewrite bind_run by reflexivity. cbv beta.
  rewrite handleConnection_banned by done. unfold sendEffects. st_simpl.
  by rewrite decide_True.
Qed.

Lemma kick_run now st h t target :
  Inv st → enabled now (Message h (AdminKickUser t)) st = true →
  hostWs (svc st) = Some h → findClientByUid st t = Some target →
  ∃ st' eff,
    step now (Message h (AdminKickUser t)) st = Some (tt, st', eff) ∧
    mapHas t (bannedUids (svc st')) = true ∧
    speaker (svc st') ≠ Some target ∧
    isOpen st' target = false ∧
    clients (svc st') = clients (svc st) ∧
    requestQueue (svc st') = requestQueue (svc st).
Proof.
  intros HI Hen Hh Hf.
  destruct (step_progress now _ st HI Hen eq_refl) as [[[[] st'] eff] Hstep].
  exists st', eff. split; [done|].
  apply step_inv in Hstep as [_ Hfire]. cbn [fire handleMessage] in Hfire.
  unfold handleAdminKick, wsClose in Hfire.
  pose proof (findClientByUid_Some _ _ _ Hf) as [Hin _].
  destruct HI as ((HU1 & _) & _). destruct (HU1 _ _ Hin) as (usr & Husr & _).
  minv; st_simpl; simplify_eq.
  all: repeat split; try done.
  all: try (by rewrite decide_True).
  all: try (apply mapHas_mapSet; by left).
  all: try (cbn in *; congruence).
Qed.

Lemma closed_run now st ws :
  Inv st → enabled now (Closed ws) st = true →
  ∃ st' eff,
    step now (Closed ws) st = Some (tt, st', eff) ∧
    ws ∉ (clients (svc st')).*1 ∧
    ws ∉ requestQueue (svc st') ∧
    speaker (svc st') ≠ Some ws ∧
    isOpen st' ws = false.
Proof.
  intros HI Hen.
  destruct (step_progress now _ st HI Hen eq_refl) as [[[[] st'] eff] Hstep].
  exists st', eff. split; [done|].
  apply step_inv in Hstep as [_ Hfire]. cbn [fire] in Hfire.
  unfold handleDisconnect, setTimeout in Hfire.
  minv; st_simpl; simplify_eq.
  all: inv_open HI.
  all: repeat split; try done.
  all: try (by rewrite decide_True).
  all: try (intros Hin; apply list_elem_of_fmap in Hin as ([? ?] & ? & Hin);
            apply elem_of_mapDelete in Hin as [_ Hne]; by cbn in *; subst).
  all: try (intros Hin; apply list_elem_of_filter in Hin as [Hne _]; done).
  all: try match goal with Hb : bool_decide _ = false |- _ =>
             by apply bool_decide_eq_false in Hb end.
  - intros Hin. apply list_elem_of_fmap in Hin as ([w u] & -> & Hin). cbn in *.
    apply HU1 in Hin as (? & ? & _). congruence.
  - intros Hin. apply HU3 in Hin as [? ?]. congruence.
  - intros Hsp. apply HU2 in Hsp as [? ?]. congruence.
Qed.


(** C3, amended. In every reachable state a uid of the ban set is bound to
    no open socket in the registry. Admission of a banned uid writes the
    notice, closes the new socket and changes no field of the service.
    admin-kick-user on a connected uid bans it, takes its socket out of the
    speaker slot and closes the socket, leaving registry and request queue as
    they were; the close event of a socket then takes it out of the
    registry, the request queue and the speaker slot. *)
Theorem banned_uid_has_no_open_connection st :
  reachable st →
  (∀ ws u, (ws, u) ∈ clients (svc st) → mapHas u (bannedUids (svc st)) = true →
           isOpen st ws = false) ∧
  (∀ now ws u,
     enabled now (Connection ws u) st = true →
     mapHas (uid u) (bannedUids (svc st)) = true →
     ∃ st', step now (Connection ws u) st =
              Some (tt, st', [Send ws (SystemError "You have been kicked from this session.");
                              Close ws]) ∧
            svc st' = svc st ∧ isOpen st' ws = false) ∧
  (∀ now h t target,
     enabled now (Message h (AdminKickUser t)) st = true →
     hostWs (svc st) = Some h → findClientByUid st t = Some target →
     ∃ st' eff,
       step now (Message h (AdminKickUser t)) st = Some (tt, st', eff) ∧
       mapHas t (bannedUids (svc st')) = true ∧
       speaker (svc st') ≠ Some target ∧
       isOpen st' target = false ∧
       clients (svc st') = clients (svc st) ∧
       requestQueue (svc st') = requestQueue (svc st)) ∧
  (∀ now ws,
     enabled now (Closed ws) st = true →
     ∃ st' eff,
       step now (Closed ws) st = Some (tt, st', eff) ∧
       ws ∉ (clients (svc st')).*1 ∧
       ws ∉ requestQueue (svc st') ∧
       speaker (svc st') ≠ Some ws ∧
       isOpen st' ws = false).
Proof.
  intros Hr. pose proof (reachable_Inv _ Hr) as HI. repeat split.
  - destruct HI as (_ & _ & (_ & HR2) & _). exact HR2.
  - intros now ws u Hen Hban. eexists. split; [by apply admission_of_banned_run|].
    split; [done|]. st_simpl. by rewrite decide_True.
  - intros now h t target. by apply kick_run.
  - intros now ws. by apply closed_run.
Qed.

Lemma banned_uid_has_no_open_connection_witness :
  reachable bobKicked ∧
  (2%nat, "b"%string) ∈ clients (svc bobKicked) ∧
  mapHas "b" (bannedUids (svc bobKicked)) = true ∧
  isOpen bobKicked 2 = false.
Proof.
  assert (Hr : reachable bobKicked).
  { apply after_reachable; [apply after_reachable; [constructor|vm_compute; eauto]
                           |vm_compute; eauto]. }
  split; [exact Hr|].
  split; [vm_compute; repeat constructor|]. split; [vm_compute; reflexivity|].
  apply (proj1 (banned_uid_has_no_open_connection bobKicked Hr) 2%nat "b"%string).
  - vm_compute; repeat constructor.
  - vm_compute; reflexivity.
Defined.

(** C3 as stated fails: the lecturer kicks Bob, who is queued. Right after
    the kick Bob's uid is banned while his socket is still in the request
    queue and in the registry. *)
Lemma banned_uid_still_queued_and_registered :
  reachable bobKicked ∧
  mapHas "b" (bannedUids (svc bobKicked)) = true ∧
  userOf bobKicked 2 = Some bob ∧
  2%nat ∈ requestQueue (svc bobKicked) ∧
  (2%nat, "b"%string) ∈ clients (svc bobKicked).
Proof.
  split; [apply bobKicked_reachable|]. split; [vm_compute; reflexivity|].
  split; [vm_compute; reflexivity|]. split; vm_compute; repeat constructor.
Qed.

(** ** Reconnection under the same uid *)

Lemma find_ext_in {A} (f g : A → bool) (l : list A) :
  (∀ x, x ∈ l → f x = g x) → find f l = find g l.
Proof.
  induction l as [|x l IH]; intros H; [done|]. cbn.
  rewrite (H x) by apply list_elem_of_here. destruct (g x); [done|].
  apply IH. intros y Hy. apply H. by apply list_elem_of_further.
Qed.

Lemma findClientByUid_accept ws st u :
  Inv st → sockets (rt st) !! ws = None →
  findClientByUid (mkState (svc st) (acceptSocket ws (rt st))) u = findClientByUid st u.
Proof.
  intros ((HU1 & _) & _) Hnew. unfold findClientByUid. cbn [svc]. f_equal.
  apply find_ext_in. intros [c cu] Hin. f_equal. st_simpl.
  case_decide; [|done]. subst. apply HU1 in Hin as (? & Hu & _).
  apply openIn_user_None in Hnew as [_ Hn]. st_simpl. congruence.
Qed.

Lemma elem_of_mapSet_same {K V} `{EqDecision K} (k : K) (v : V) (m : list (K * V)) :
  (k, v) ∈ mapSet k v m.
Proof.
  induction m as [|[k' v'] m IH]; cbn; [apply list_elem_of_here|].
  destruct (decide (k' = k)); [apply list_elem_of_here|by apply list_elem_of_further].
Qed.

Lemma enabled_closed now ws st s :
  exited (rt st) = false → sockets (rt st) !! ws = Some s → readyState s ≠ CLOSED →
  enabled now (Closed ws) st = true.
Proof.
  intros Hx Hs Hne. unfold enabled. rewrite Hx, Hs. cbn. by destruct s as [[] ?].
Qed.

Lemma openIn_socket r ws :
  openIn r ws = true → ∃ usr, sockets r !! ws = Some (mkSocket OPEN usr).
Proof.
  unfold openIn. destruct (sockets r !! ws) as [[[] usr]|]; try done. eauto.
Qed.

(** C5, amended. When an identity whose uid already has an open socket is
    admitted on a new one, the old socket is closed and taken out of the
    registry before the new one is registered, but the speaker slot and the
    request queue are left as they were: the snapshot written to the new
    socket names whoever held the floor, the old socket included. The old
    socket leaves the speaker slot and the queue when its close event is
    processed. *)
Theorem duplicate_admission_defers_floor_cleanup now st ws u old :
  reachable st → enabled now (Connection ws u) st = true →
  findClientByUid st (uid u) = Some old →
  ∃ st' eff,
    step now (Connection ws u) st = Some (tt, st', eff) ∧
    ((ws, uid u) ∈ clients (svc st') →
     Close old ∈ eff ∧
     isOpen st' old = false ∧
     old ∉ (clients (svc st')).*1 ∧
     speaker (svc st') = speaker (svc st) ∧
     requestQueue (svc st') = requestQueue (svc st) ∧
     Send ws (SystemSpeakerUpdate (speaker (svc st) ≫= userOf st)) ∈ eff ∧
     ∀ now', ∃ st'' eff',
       step now' (Closed old) st' = Some (tt, st'', eff') ∧
       speaker (svc st'') ≠ Some old ∧ old ∉ requestQueue (svc st'')).
Proof.
  intros Hr Hen Hf. pose proof (reachable_Inv _ Hr) as HI.
  destruct (step_progress now _ st HI Hen eq_refl) as [[[[] st'] eff] Hstep].
  exists st', eff. split; [done|]. intros Hadm.
  pose proof (step_Inv _ _ _ _ _ HI Hstep) as HI'.
  destruct (enabled_connection _ _ _ _ Hen) as [Hx Hnew].
  pose proof (findClientByUid_Some _ _ _ Hf) as [Hin Hopen].
  assert (Hne : old ≠ ws).
  { intros ->. apply openIn_user_None in Hnew as [Ho _]. unfold isOpen in Hopen. congruence. }
  assert (Hnk : ∀ c cu, (c, cu) ∈ clients (svc st) → c ≠ ws).
  { intros c cu Hc ->. destruct HI as ((HU1 & _) & _). apply HU1 in Hc as (? & Hu & _).
    apply openIn_user_None in Hnew as [_ Hn]. unfold userOf in Hu. congruence. }
  apply step_inv in Hstep as [_ Hfire]. cbn [fire] in Hfire.
  apply bind_inv in Hfire as (a & st1 & e1 & e2 & H1 & H2 & ->). minv_prim H1.
  pose proof (Inv_acceptSocket ws st HI Hnew) as HI1.
  pose proof (findClientByUid_accept ws st (uid u) HI Hnew) as Hfa. rewrite Hf in Hfa.
  set (st1 := mkState (svc st) (acceptSocket ws (rt st))) in *.
  assert (Hhost : hostWs (svc st1) ≠ Some ws).
  { intros Hh. destruct HI1 as ((_ & _ & _ & HU4) & _). destruct (HU4 _ Hh) as [x Hxx].
    unfold st1 in Hxx. st_simpl. by rewrite decide_True in Hxx. }
  assert (Hdd : dropDuplicate (uid u) st1 =
                mkState (set_clients (mapDelete old (clients (svc st))) (svc st))
                        (closeSocket old (acceptSocket ws (rt st)))).
  { unfold dropDuplicate. rewrite Hfa. unfold st1. reflexivity. }
  cbn [app] in *.
  destruct (mapHas (uid u) (bannedUids (svc st1))) eqn:Hban.
  { rewrite handleConnection_banned in H2 by done. injection H2 as <- <-.
    unfold st1 in Hadm. cbn [svc] in Hadm. exfalso. exact (Hnk _ _ Hadm eq_refl). }
  rewrite handleConnection_run in H2 by done.
  destruct (isLecturerEmail (email u) && anyLecturerClient _) eqn:Hl; injection H2 as <- <-.
  { rewrite Hdd in Hadm. cbn [svc clients set_clients] in Hadm.
    apply elem_of_mapDelete in Hadm as [Hadm _]. exfalso. exact (Hnk _ _ Hadm eq_refl). }
  assert (Hst' : admission ws u st1 =
                 mkState (set_clients (mapSet ws (uid u) (mapDelete old (clients (svc st))))
                                      (svc st))
                         (attachUser ws u (closeSocket old (acceptSocket ws (rt st))))).
  { unfold admission. cbv zeta. by rewrite Hdd. }
  assert (Hsp : speaker (svc st) ≫= userOf (admission ws u st1) = speaker (svc st) ≫= userOf st).
  { destruct (speaker (svc st)) as [sp|] eqn:Hs; [|reflexivity]. cbn. rewrite Hst'. st_simpl.
    destruct (decide (ws = sp)) as [->|]; [exfalso|done].
    destruct HI as ((_ & HU2 & _) & _). destruct (HU2 _ Hs) as [? Hu].
    apply openIn_user_None in Hnew as [_ Hn]. st_simpl. congruence. }
  split; [|split; [|split; [|split; [|split; [|split]]]]].
  - unfold admissionEffects. cbv zeta. rewrite Hfa. apply elem_of_app. left.
    apply list_elem_of_here.
  - rewrite Hst'. st_simpl. by rewrite decide_True.
  - rewrite Hst'. cbn [svc clients set_clients]. intros Hmem.
    apply list_elem_of_fmap in Hmem as ([c cu] & Hc & Hmem). cbn in Hc. subst c.
    apply elem_of_mapSet in Hmem as [Heq|Hmem]; [by simplify_eq|].
    apply elem_of_mapDelete in Hmem as [_ Hk]. done.
  - by rewrite Hst'.
  - by rewrite Hst'.
  - unfold admissionEffects. cbv zeta.
    assert (Hop : isOpen (admission ws u st1) ws = true).
    { rewrite Hst'. st_simpl. rewrite decide_False by done. by rewrite decide_True. }
    apply elem_of_app. right. apply elem_of_app. right. apply elem_of_app. right.
    apply elem_of_app. left. unfold sendEffects. rewrite Hop.
    change (svc st1) with (svc st). rewrite Hsp. apply list_elem_of_here.
  - intros now'.
    assert (Hen' : enabled now' (Closed old) (admission ws u st1) = true).
    { unfold isOpen in Hopen. apply openIn_socket in Hopen as [usr Hs].
      eapply (enabled_closed _ _ _ (mkSocket CLOSING usr)).
      - rewrite Hst'. done.
      - rewrite Hst'. cbn. rewrite lookup_alter_ne by done. rewrite lookup_alter_eq.
        rewrite lookup_insert_ne by done. by rewrite Hs.
      - done. }
    destruct (closed_run now' _ old HI' Hen') as (st'' & eff' & Hs'' & _ & Hq & Hspk & _).
    eauto.
Qed.

Lemma duplicate_admission_defers_floor_cleanup_witness :
  reachable classroom ∧
  enabled 6 (Connection 3 alice) classroom = true ∧
  findClientByUid classroom (uid alice) = Some 1%nat ∧
  ∃ st' eff,
    step 6 (Connection 3 alice) classroom = Some (tt, st', eff) ∧
    ((3%nat, uid alice) ∈ clients (svc st') →
     isOpen st' 1 = false ∧ speaker (svc st') = speaker (svc classroom)).
Proof.
  assert (Hr : reachable classroom)
    by (apply after_reachable; [constructor|vm_compute; eauto]).
  assert (Hen : enabled 6 (Connection 3 alice) classroom = true)
    by (vm_compute; reflexivity).
  assert (Hf : findClientByUid classroom (uid alice) = Some 1%nat)
    by (vm_compute; reflexivity).
  split; [exact Hr|]. split; [exact Hen|]. split; [exact Hf|].
  destruct (duplicate_admission_defers_floor_cleanup 6 classroom 3 alice 1 Hr Hen Hf)
    as (st' & eff & Hstep & Hrest).
  exists st', eff. split; [exact Hstep|]. intros Hadm.
  destruct (Hrest Hadm) as (_ & Ho & _ & Hs & _). by split.
Defined.

(** C5 as stated fails: Alice holds the floor on socket 1 and connects again
    on socket 3. Socket 3 is registered while socket 1 still holds the
    speaker slot, and the snapshot written to socket 3 names Alice as the
    speaker. *)
Lemma duplicate_admission_keeps_old_speaker :
  reachable classroom ∧
  findClientByUid classroom "a" = Some 1%nat ∧
  speaker (svc classroom) = Some 1%nat ∧
  reachable aliceRejoined ∧
  (3%nat, "a"%string) ∈ clients (svc aliceRejoined) ∧
  speaker (svc aliceRejoined) = Some 1%nat ∧
  Send 3 (SystemSpeakerUpdate (Some alice)) ∈
    effectsOf [(6, Connection 3 alice)] classroom.
Proof.
  split; [apply classroom_reachable|]. split; [vm_compute; reflexivity|].
  split; [vm_compute; reflexivity|].
  split; [apply after_reachable; [apply classroom_reachable|vm_compute; eauto]|].
  split; [vm_compute; repeat constructor|]. split; [vm_compute; reflexivity|].
  vm_compute. repeat constructor.
Qed.

(** ** The shutdown timer *)

(** Only [register-as-host] touches the timer among the messages, and only
    it rebinds the host. *)
Lemma handleMessage_timers now ws m st st' eff :
  handleMessage now ws m st = Some (tt, st', eff) →
  nextTimer (rt st') = nextTimer (rt st) ∧ exited (rt st') = exited (rt st) ∧
  match m with
  | RegisterAsHost =>
      timers (rt st') =
        match shutdownTimer (svc st) with
        | Some t => filter (λ p, p.1 ≠ t) (timers (rt st))
        | None => timers (rt st)
        end ∧
      shutdownTimer (svc st') = None ∧ hostWs (svc st') = Some ws
  | _ =>
      timers (rt st') = timers (rt st) ∧
      shutdownTimer (svc st') = shutdownTimer (svc st) ∧
      hostWs (svc st') = hostWs (svc st)
  end.
Proof.
  intros H. destruct m; cbn [handleMessage] in H; unfold_handlers H; minv.
  all: st_simpl; try done.
  all: unfold closeSocket; cbn; try done.
  all: repeat match goal with Hs : shutdownTimer _ = _ |- _ => rewrite Hs end.
  all: repeat split; congruence.
Qed.

Lemma dropDuplicate_timers u st :
  timers (rt (dropDuplicate u st)) = timers (rt st) ∧
  nextTimer (rt (dropDuplicate u st)) = nextTimer (rt st) ∧
  exited (rt (dropDuplicate u st)) = exited (rt st) ∧
  shutdownTimer (svc (dropDuplicate u st)) = shutdownTimer (svc st) ∧
  hostWs (svc (dropDuplicate u st)) = hostWs (svc st).
Proof. unfold dropDuplicate. by destruct (findClientByUid st u). Qed.

Lemma handleConnection_timers ws u st st' eff :
  handleConnection ws u st = Some (tt, st', eff) →
  timers (rt st') = timers (rt st) ∧ nextTimer (rt st') = nextTimer (rt st) ∧
  exited (rt st') = exited (rt st) ∧
  shutdownTimer (svc st') = shutdownTimer (svc st) ∧
  hostWs (svc st') = hostWs (svc st).
Proof.
  intros H. destruct (dropDuplicate_timers (uid u) st) as (H1 & H2 & H3 & H4 & H5).
  apply handleConnection_shape in H as [[_ ->]|[[_ ->]|[_ ->]]]; [done| |];
    unfold admission; cbn; by rewrite ?H1, ?H2, ?H3, ?H4, ?H5.
Qed.

Lemma handleDisconnect_timers now ws st st' eff :
  handleDisconnect now ws st = Some (tt, st', eff) →
  (hostWs (svc st) = Some ws ∧
   timers (rt st') =
     match shutdownTimer (svc st) with
     | Some t => filter (λ p, p.1 ≠ t) (timers (rt st))
     | None => timers (rt st)
     end ++ [(nextTimer (rt st), now + 10000)] ∧
   nextTimer (rt st') = S (nextTimer (rt st)) ∧
   shutdownTimer (svc st') = Some (nextTimer (rt st)) ∧
   hostWs (svc st') = None ∧ isSessionActive (svc st') = false ∧
   exited (rt st') = exited (rt st)) ∨
  ((hostWs (svc st) ≠ Some ws ∨ userOf st ws = None) ∧
   timers (rt st') = timers (rt st) ∧ nextTimer (rt st') = nextTimer (rt st) ∧
   shutdownTimer (svc st') = shutdownTimer (svc st) ∧
   hostWs (svc st') = hostWs (svc st) ∧
   exited (rt st') = exited (rt st)).
Proof.
  intros H. unfold handleDisconnect, setTimeout in H. minv; st_simpl.
  all: try (right; repeat split; auto; done).
  all: left; repeat split; try done.
  all: repeat match goal with Hs : shutdownTimer _ = _ |- _ => rewrite Hs end; done.
Qed.

Lemma graceInv_step t due r now ev st st' eff :
  graceInv t due r st → due - 10000 ≤ now < due →
  step now ev st = Some (tt, st', eff) →
  graceInv t due (r || isRegistration (now, ev)) st'.
Proof.
  intros (Hx & Hlt & Hr) Hnow Hstep. apply step_inv in Hstep as [Hen Hfire].
  unfold graceInv, isRegistration. cbn [snd].
  destruct ev as [ws u|ws m|ws|t0]; cbn [fire] in Hfire.
  - apply bind_inv in Hfire as (a & st1 & e1 & e2 & H1 & H2 & ->). minv_prim H1.
    apply handleConnection_timers in H2 as (H2 & H3 & H4 & H5 & H6). cbn in *.
    rewrite orb_false_r, H2, H3, H4, H5, H6. done.
  - pose proof (handleMessage_timers _ _ _ _ _ _ Hfire) as (H3 & H4 & Hm).
    rewrite H3, H4. destruct m; try (destruct Hm as (-> & -> & ->); by rewrite orb_false_r).
    destruct Hm as (Ht & _ & _). rewrite orb_true_r. split; [done|]. split; [done|].
    intros t' d Hin. rewrite Ht in Hin. destruct r.
    + destruct (shutdownTimer (svc st)); [apply list_elem_of_filter in Hin as [_ Hin]|];
        by apply Hr.
    + destruct Hr as (Hts & Hsh & _). rewrite Hsh, Hts in Hin.
      apply list_elem_of_filter in Hin as [Hne Hin].
      apply list_elem_of_singleton in Hin. by simplify_eq.
  - apply bind_inv in Hfire as (a & st1 & e1 & e2 & H1 & H2 & ->). minv_prim H1.
    rewrite orb_false_r.
    apply handleDisconnect_timers in H2
      as [(Hh & Ht & Hn & Hs & Hh' & _ & He)|(_ & Ht & Hn & Hs & Hh & He)]; cbn in *.
    + rewrite He, Hn. split; [done|]. split; [lia|]. destruct r.
      * intros t' d Hin. rewrite Ht in Hin. apply elem_of_app in Hin as [Hin|Hin].
        -- destruct (shutdownTimer (svc st));
             [apply list_elem_of_filter in Hin as [_ Hin]|]; by apply Hr.
        -- apply list_elem_of_singleton in Hin. simplify_eq. split; lia.
      * destruct Hr as (_ & _ & Hnone). congruence.
    + by rewrite He, Hn, Ht, Hs, Hh.
  - exfalso. apply enabled_timeout in Hen as [_ (d & Hin & Hd)]. destruct r.
    + apply Hr in Hin as [_ Hle]. lia.
    + destruct Hr as (Hts & _). rewrite Hts in Hin.
      apply list_elem_of_singleton in Hin. simplify_eq. lia.
Qed.

Lemma graceInv_run t due es : ∀ r st st' eff,
  graceInv t due r st →
  Forall (λ e, due - 10000 ≤ e.1 < due) es →
  run es st = Some (tt, st', eff) →
  graceInv t due (r || existsb isRegistration es) st'.
Proof.
  induction es as [|[now ev] es IH]; intros r st st' eff Hg Hall Hrun.
  - cbv [run skip mret M_ret] in Hrun. simplify_eq. cbn. by rewrite orb_false_r.
  - apply run_inv_cons in Hrun as (st1 & e1 & e2 & H1 & H2 & _).
    apply Forall_cons in Hall as [Hnow Hall]. cbn [fst] in Hnow.
    pose proof (graceInv_step _ _ _ _ _ _ _ _ Hg Hnow H1) as Hg1.
    specialize (IH _ _ _ _ Hg1 Hall H2). cbn [existsb]. by rewrite orb_assoc.
Qed.

Lemma filter_none {A} (P : A → Prop) `{∀ x, Decision (P x)} (l : list A) :
  (∀ x, x ∈ l → ¬ P x) → filter P l = [].
Proof.
  induction l as [|x l IH]; intros Hl; [done|].
  rewrite filter_cons_False by (apply Hl, list_elem_of_here).
  apply IH. intros y Hy. apply Hl. by apply list_elem_of_further.
Qed.

(** The close of the host's socket arms exactly one timeout. *)
Lemma host_close_arms now st h st' eff :
  Inv st → hostWs (svc st) = Some h →
  step now (Closed h) st = Some (tt, st', eff) →
  graceInv (nextTimer (rt st)) (now + 10000) false st'.
Proof.
  intros HI Hh Hstep. apply step_inv in Hstep as [Hen Hfire]. cbn [fire] in Hfire.
  apply bind_inv in Hfire as (a & st1 & e1 & e2 & H1 & H2 & ->). minv_prim H1.
  assert (Hx : exited (rt st) = false).
  { unfold enabled in Hen. apply andb_true_iff in Hen as [Hx _]. by apply negb_true_iff. }
  destruct HI as ((_ & _ & _ & HU4) & _ & _ & (HT1 & _ & _)).
  destruct (HU4 _ Hh) as [usr Husr].
  apply handleDisconnect_timers in H2
    as [(_ & Ht & Hn & Hs & Hh' & _ & He)|([Hne|Hno] & _)]; cbn in *.
  - unfold graceInv. rewrite He, Hn, Hs, Hh', Ht. split; [done|]. split; [lia|].
    split; [|done].
    assert (Hnil : match shutdownTimer (svc st) with
                   | Some t => filter (λ p, p.1 ≠ t) (timers (rt st))
                   | None => timers (rt st)
                   end = []); [|by rewrite Hnil].
    destruct (shutdownTimer (svc st)) as [t0|] eqn:Ht0.
    + apply filter_none. intros [t' d] Hin. cbn. apply HT1 in Hin. intros Hne.
      congruence.
    + destruct (timers (rt st)) as [|[t' d] l]; [done|].
      specialize (HT1 t' d (list_elem_of_here _ _)). congruence.
  - congruence.
  - unfold userOf in *. st_simpl. congruence.
Qed.

(** C4. Let the host's socket close in a reachable state at time [now0]:
    this arms one timeout, due at [now0 + 10000]. Whatever events are
    processed before that time, when the time has come the timeout is
    pending, and running it exits the process, if and only if none of those
    events was a register-as-host; after a register-as-host the timeout is
    cancelled, Node has nothing to run for it, and the process is alive. *)
Theorem grace_timer_exits_iff_no_registration now0 st0 h st1 eff1 es st2 eff2 now :
  reachable st0 → hostWs (svc st0) = Some h →
  step now0 (Closed h) st0 = Some (tt, st1, eff1) →
  Forall (λ e, now0 ≤ e.1 < now0 + 10000) es →
  run es st1 = Some (tt, st2, eff2) →
  now0 + 10000 ≤ now →
  ∃ t, shutdownTimer (svc st1) = Some t ∧
       timers (rt st1) = [(t, now0 + 10000)] ∧
       exited (rt st2) = false ∧
       if existsb isRegistration es
       then enabled now (Timeout t) st2 = false
       else ∃ st3, step now (Timeout t) st2 = Some (tt, st3, [Exit]) ∧
                   exited (rt st3) = true.
Proof.
  intros Hr Hh Hclose Hall Hrun Hnow. pose proof (reachable_Inv _ Hr) as HI.
  pose proof (host_close_arms _ _ _ _ _ HI Hh Hclose) as Hg.
  set (t := nextTimer (rt st0)) in *. exists t.
  pose proof Hg as (_ & _ & Hts & Hsh & _).
  split; [done|]. split; [done|].
  assert (Hall' : Forall (λ e : Z * Event, now0 + 10000 - 10000 ≤ e.1 < now0 + 10000) es).
  { eapply Forall_impl; [exact Hall|]. cbn. intros e He. lia. }
  pose proof (graceInv_run _ _ _ _ _ _ _ Hg Hall' Hrun) as (Hx & _ & Hfin).
  cbn [orb] in Hfin. split; [done|].
  destruct (existsb isRegistration es).
  - unfold enabled. rewrite Hx. cbn [negb andb].
    destruct (existsb _ (timers (rt st2))) eqn:He; [|done]. exfalso.
    apply existsb_exists in He as ([t' d] & Hin & Hp). cbn in Hp.
    apply andb_true_iff in Hp as [Ht _]. apply bool_decide_eq_true in Ht. subst t'.
    apply list_elem_of_In in Hin. by destruct (Hfin _ _ Hin).
  - destruct Hfin as (Hts2 & _).
    assert (Hen : enabled now (Timeout t) st2 = true).
    { unfold enabled. rewrite Hx, Hts2. cbn.
      rewrite bool_decide_true by done. by rewrite bool_decide_true by done. }
    unfold step. rewrite Hen. cbn [fire]. eexists. split; [reflexivity|reflexivity].
Qed.


Lemma grace_timer_exits_iff_no_registration_witness :
  (reachable classroom ∧ hostWs (svc classroom) = Some 0%nat) ∧
  (∃ t, shutdownTimer (svc hostGone) = Some t ∧
        timers (rt hostGone) = [(t, 10006)] ∧
        enabled 10006 (Timeout t)
          (after [(7, Connection 3 lecturer); (8, Message 3 RegisterAsHost)] hostGone) =
          false) ∧
  (∃ t st3, shutdownTimer (svc hostGone) = Some t ∧
            step 10006 (Timeout t) (after [(9000, Message 1 ReleaseFloor)] hostGone) =
              Some (tt, st3, [Exit]) ∧
            exited (rt st3) = true).
Proof.
  assert (Hr : reachable classroom)
    by (apply after_reachable; [constructor|vm_compute; eauto]).
  assert (Hh : hostWs (svc classroom) = Some 0%nat) by (vm_compute; reflexivity).
  assert (Hclose : step 6 (Closed 0) classroom =
                   Some (tt, hostGone, effectsOf [(6, Closed 0)] classroom))
    by (vm_compute; reflexivity).
  split; [by split|]. split.
  - destruct (grace_timer_exits_iff_no_registration 6 classroom 0 hostGone _
                [(7, Connection 3 lecturer); (8, Message 3 RegisterAsHost)]
                (after [(7, Connection 3 lecturer); (8, Message 3 RegisterAsHost)] hostGone)
                (effectsOf [(7, Connection 3 lecturer); (8, Message 3 RegisterAsHost)]
                   hostGone)
                10006 Hr Hh Hclose) as (t & Ht & Hts & _ & Hfin).
    + repeat constructor; cbn; lia.
    + vm_compute; reflexivity.
    + lia.
    + exists t. split; [exact Ht|]. split; [exact Hts|]. exact Hfin.
  - destruct (grace_timer_exits_iff_no_registration 6 classroom 0 hostGone _
                [(9000, Message 1 ReleaseFloor)]
                (after [(9000, Message 1 ReleaseFloor)] hostGone)
                (effectsOf [(9000, Message 1 ReleaseFloor)] hostGone)
                10006 Hr Hh Hclose) as (t & Ht & _ & _ & st3 & Hstep & Hx).
    + repeat constructor; cbn; lia.
    + vm_compute; reflexivity.
    + lia.
    + exists t, st3. split; [exact Ht|]. split; [exact Hstep|exact Hx].
Defined.

(** ** What a handler run leaves behind *)

Lemma closedIn_closeSocket ws r ws' : closedIn (closeSocket ws r) ws' = closedIn r ws'.
Proof.
  unfold closedIn, closeSocket. cbn. destruct (decide (ws = ws')) as [->|Hne].
  - rewrite lookup_alter_eq. by destruct (sockets r !! ws') as [[[] ?]|].
  - by rewrite lookup_alter_ne.
Qed.

Lemma closedIn_attachUser ws u r ws' : closedIn (attachUser ws u r) ws' = closedIn r ws'.
Proof.
  unfold closedIn, attachUser. cbn. destruct (decide (ws = ws')) as [->|Hne].
  - rewrite lookup_alter_eq. by destruct (sockets r !! ws').
  - by rewrite lookup_alter_ne.
Qed.

Lemma closedIn_acceptSocket ws r ws' :
  closedIn (acceptSocket ws r) ws' = if decide (ws = ws') then false else closedIn r ws'.
Proof.
  unfold closedIn, acceptSocket. cbn. destruct (decide (ws = ws')) as [->|Hne].
  - by rewrite lookup_insert_eq.
  - by rewrite lookup_insert_ne.
Qed.

Lemma closedIn_finishSocket ws r ws' :
  closedIn (finishSocket ws r) ws' =
  if decide (ws = ws') then (if sockets r !! ws is Some _ then true else false)
  else closedIn r ws'.
Proof.
  unfold closedIn, finishSocket. cbn. destruct (decide (ws = ws')) as [->|Hne].
  - rewrite lookup_alter_eq. by destruct (sockets r !! ws').
  - by rewrite lookup_alter_ne.
Qed.

Lemma closedIn_armTimeout d r ws : closedIn (armTimeout d r) ws = closedIn r ws.
Proof. reflexivity. Qed.
Lemma closedIn_cancelTimeout t r ws : closedIn (cancelTimeout t r) ws = closedIn r ws.
Proof. reflexivity. Qed.
Lemma closedIn_set_exited b r ws : closedIn (set_exited b r) ws = closedIn r ws.
Proof. reflexivity. Qed.

Lemma closedIn_not_open r ws : closedIn r ws = true → openIn r ws = false.
Proof. unfold closedIn, openIn. by destruct (sockets r !! ws) as [[[] ?]|]. Qed.

Hint Rewrite closedIn_closeSocket closedIn_attachUser closedIn_acceptSocket
  closedIn_finishSocket closedIn_armTimeout closedIn_cancelTimeout closedIn_set_exited
  : rt_simpl.

Ltac st_simpl2 := unfold isClosed in *; st_simpl.

Lemma filter_absent (ws : nat) (q : list nat) : ws ∉ q → filter (λ c, c ≠ ws) q = q.
Proof.
  induction q as [|c q IH]; [done|]. rewrite not_elem_of_cons. intros [Hne Hq].
  rewrite filter_cons_True by done. by rewrite IH.
Qed.

(** A message changes neither the registry nor any socket's user; the
    speaker, the queue and the host change only in the ways listed. *)
Lemma handleMessage_shape now ws m st st' eff :
  handleMessage now ws m st = Some (tt, st', eff) →
  clients (svc st') = clients (svc st) ∧
  wssClients (rt st') = wssClients (rt st) ∧
  (∀ c, userOf st' c = userOf st c) ∧
  (∀ c, isClosed st' c = isClosed st c) ∧
  (∀ c, isOpen st' c = true → isOpen st c = true) ∧
  (speaker (svc st') = speaker (svc st) ∨ speaker (svc st') = None ∨
   speaker (svc st') = Some ws ∨
   ∃ t, findClientByUid st t = speaker (svc st')) ∧
  (requestQueue (svc st') = requestQueue (svc st) ∨
   (ws ∉ requestQueue (svc st) ∧ requestQueue (svc st') = requestQueue (svc st) ++ [ws]) ∨
   ∃ (P : nat → Prop) (dec : ∀ c, Decision (P c)),
     requestQueue (svc st') = filter P (requestQueue (svc st))) ∧
  (hostWs (svc st') = hostWs (svc st) ∨ hostWs (svc st') = Some ws).
Proof.
  intros H.
  destruct m; cbn [handleMessage] in H; unfold_handlers H; minv.
  all: st_simpl2.
  all: repeat split; intros; st_simpl2; auto.
  all: try (by repeat case_decide).
  all: try (by eauto 8).
  all: try (left; congruence).
  all: try (by right; right; eexists _, _).
  all: right; left; split; [|done].
  all: match goal with Hq : bool_decide _ = false |- _ => by apply bool_decide_eq_false in Hq end.
Qed.

(** The close handler takes the socket out of everything it was in. *)
Lemma handleDisconnect_shape now ws st st' eff :
  handleDisconnect now ws st = Some (tt, st', eff) →
  sockets (rt st') = sockets (rt st) ∧ wssClients (rt st') = wssClients (rt st) ∧
  bannedUids (svc st') = bannedUids (svc st) ∧
  match userOf st ws with
  | None => st' = st
  | Some _ =>
      clients (svc st') = mapDelete ws (clients (svc st)) ∧
      requestQueue (svc st') = filter (λ c, c ≠ ws) (requestQueue (svc st)) ∧
      speaker (svc st') =
        (if decide (speaker (svc st) = Some ws) then None else speaker (svc st)) ∧
      hostWs (svc st') =
        (if decide (hostWs (svc st) = Some ws) then None else hostWs (svc st)) ∧
      isSessionActive (svc st') =
        (if decide (hostWs (svc st) = Some ws) then false else isSessionActive (svc st))
  end.
Proof.
  intros H. unfold handleDisconnect, setTimeout in H. minv; st_simpl.
  all: repeat match goal with Hu : userIn _ _ = _ |- _ => rewrite Hu end.
  all: repeat split; try done.
  all: repeat case_decide; try done.
  all: try (symmetry; apply filter_absent;
            match goal with Hq : bool_decide _ = false |- _ =>
              by apply bool_decide_eq_false in Hq end).
Qed.

(** ** The further invariants hold in every reachable state *)

Lemma enabled_message_live now ws m st :
  enabled now (Message ws m) st = true → isClosed st ws = false.
Proof.
  unfold enabled, isClosed, closedIn. intros H. apply andb_true_iff in H as [_ H].
  by destruct (sockets (rt st) !! ws) as [[[] [?|]]|].
Qed.

Lemma length_filter_le {A} (P : A → Prop) `{∀ x, Decision (P x)} (l : list A) :
  (length (filter P l) ≤ length l)%nat.
Proof.
  induction l as [|x l IH]; [done|]. destruct (decide (P x)).
  - rewrite filter_cons_True by done. cbn. lia.
  - rewrite filter_cons_False by done. cbn. lia.
Qed.

Lemma handleMessage_Inv2 now ws m st st' eff :
  Inv2 st → isClosed st ws = false →
  handleMessage now ws m st = Some (tt, st', eff) → Inv2 st'.
Proof.
  intros (HQ & (HL1 & HL2) & HO & HC & HT) Hlive H.
  pose proof (handleMessage_timers _ _ _ _ _ _ H) as (_ & _ & Htm).
  apply handleMessage_shape in H as (Hcl & _ & Hus & Hcd & Hop & Hsp & Hq & Hh).
  unfold Inv2, queueOk, oneLecturer, openRegistered, closedGone, oneTimer in *.
  repeat split.
  - destruct Hq as [->|[[Hn ->]|(P & dec & ->)]]; [done| |by apply NoDup_filter].
    apply NoDup_app. split; [done|]. split; [|apply NoDup_singleton].
    intros x Hx Hx'. apply list_elem_of_singleton in Hx' as ->. done.
  - by rewrite Hcl.
  - rewrite Hcl. intros c1 c2 u1 u2 H1 H2. rewrite !Hus. eauto.
  - intros c u Ho Hu. rewrite Hcl. rewrite Hus in Hu. apply Hop in Ho. eauto.
  - rewrite Hcl. rewrite Hcd in H. by apply HC.
  - rewrite Hcd in H. destruct (HC _ H) as (_ & C2 & _).
    destruct Hsp as [Hs|[Hs|[Hs|[t Hs]]]]; [by rewrite Hs|by rewrite Hs|rewrite Hs; congruence|rewrite <- Hs].
    intros Hf. apply findClientByUid_Some in Hf as [_ Ho].
    apply closedIn_not_open in H. unfold isOpen in Ho. congruence.
  - rewrite Hcd in H. destruct (HC _ H) as (_ & _ & C3 & _).
    destruct Hq as [->|[[Hn ->]|(P & dec & ->)]]; [done| |].
    + rewrite elem_of_app, list_elem_of_singleton. intros [Hx| ->]; [done|congruence].
    + rewrite list_elem_of_filter. tauto.
  - rewrite Hcd in H. destruct (HC _ H) as (_ & _ & _ & C4).
    destruct Hh as [->| ->]; [done|congruence].
  - destruct m; try (destruct Htm as (-> & _); done).
    destruct Htm as (-> & _). destruct (shutdownTimer (svc st)); [|done].
    etrans; [apply length_filter_le|done].
Qed.

Lemma handleDisconnect_Inv2 now ws st st' eff :
  Inv st → queueOk st → oneLecturer st → openRegistered st → oneTimer st →
  (∀ c, c ≠ ws → isClosed st c = true →
        c ∉ (clients (svc st)).*1 ∧ speaker (svc st) ≠ Some c ∧
        c ∉ requestQueue (svc st) ∧ hostWs (svc st) ≠ Some c) →
  isClosed st ws = true →
  handleDisconnect now ws st = Some (tt, st', eff) → Inv2 st'.
Proof.
  intros HI HQ (HL1 & HL2) HO HT HC Hdead H.
  pose proof (handleDisconnect_timers _ _ _ _ _ H) as Htm.
  apply handleDisconnect_shape in H as (Hso & _ & _ & Hsh).
  assert (Hus : ∀ c, userOf st' c = userOf st c).
  { intros c. unfold userOf, userIn. by rewrite Hso. }
  assert (Hop : ∀ c, isOpen st' c = isOpen st c).
  { intros c. unfold isOpen, openIn. by rewrite Hso. }
  assert (Hcd : ∀ c, isClosed st' c = isClosed st c).
  { intros c. unfold isClosed, closedIn. by rewrite Hso. }
  assert (HT' : (length (timers (rt st')) ≤ 1)%nat).
  { destruct Htm as [(_ & -> & _)|(_ & -> & _)]; [|done].
    destruct HI as (_ & _ & _ & HT1 & _).
    destruct (shutdownTimer (svc st)) as [t|] eqn:Hs.
    - rewrite filter_none; [done|]. intros [t' d] Hin. cbn.
      apply HT1 in Hin. intros Hne. congruence.
    - destruct (timers (rt st)) as [|[t' d] l]; [done|].
      specialize (HT1 t' d (list_elem_of_here _ _)). congruence. }
  unfold Inv2, queueOk, oneLecturer, openRegistered, closedGone, oneTimer in *.
  destruct (userOf st ws) as [u|] eqn:Hu.
  2:{ subst st'. split; [done|]. split; [done|]. split; [done|]. split; [|done].
      intros c Hc. destruct (decide (c = ws)) as [->|Hne]; [|by apply HC].
      destruct HI as ((HU1 & HU2 & HU3 & HU4) & _). repeat split.
      - intros Hin. apply list_elem_of_fmap in Hin as ([c' u'] & -> & Hin).
        apply HU1 in Hin as (? & ? & _). cbn in *. congruence.
      - intros Hs. apply HU2 in Hs as [? ?]. congruence.
      - intros Hin. apply HU3 in Hin as [? ?]. congruence.
      - intros Hh. apply HU4 in Hh as [? ?]. congruence. }
  destruct Hsh as (Hcl & Hq & Hsp & Hh & _).
  assert (Hsub : ∀ c, c ∈ (clients (svc st')).*1 → c ∈ (clients (svc st)).*1 ∧ c ≠ ws).
  { intros c Hc. rewrite Hcl in Hc. apply list_elem_of_fmap in Hc as ([c' u'] & -> & Hin).
    apply elem_of_mapDelete in Hin as [Hin Hne]. split; [|done].
    apply list_elem_of_fmap. by exists (c', u'). }
  split; [|split; [split|split; [|split]]].
  - rewrite Hq. by apply NoDup_filter.
  - rewrite Hcl. unfold mapDelete. clear -HL1.
    induction (clients (svc st)) as [|[c u] l IH]; [constructor|].
    cbn in HL1. apply NoDup_cons in HL1 as [Hn Hl].
    destruct (decide (c ≠ ws)).
    + rewrite filter_cons_True by done. cbn. apply NoDup_cons. split; [|by apply IH].
      intros Hin. apply Hn. apply list_elem_of_fmap in Hin as (p & -> & Hin).
      apply list_elem_of_filter in Hin as [_ Hin]. apply list_elem_of_fmap. by exists p.
    + rewrite filter_cons_False by done. by apply IH.
  - intros c1 c2 u1 u2 H1 H2. rewrite !Hus. apply Hsub in H1 as [H1 _].
    apply Hsub in H2 as [H2 _]. eauto.
  - intros c u' Ho Hu'. rewrite Hop in Ho. rewrite Hus in Hu'. rewrite Hcl.
    apply elem_of_mapDelete. split; [by apply HO|]. cbn. intros ->.
    apply closedIn_not_open in Hdead. unfold isOpen in Ho. congruence.
  - intros c Hc. rewrite Hcd in Hc. repeat split.
    + intros Hin. apply Hsub in Hin as [Hin Hne]. destruct (HC _ Hne Hc) as (C1 & _). done.
    + rewrite Hsp. destruct (decide (speaker (svc st) = Some ws)) as [Hs|Hs]; [done|].
      intros Hs'. destruct (HC c) as (_ & C2 & _); [congruence|done|done].
    + rewrite Hq. rewrite list_elem_of_filter. intros [Hne Hin].
      destruct (HC _ Hne Hc) as (_ & _ & C3 & _). done.
    + rewrite Hh. destruct (decide (hostWs (svc st) = Some ws)) as [Hs|Hs]; [done|].
      intros Hs'. destruct (HC c) as (_ & _ & _ & C4); [congruence|done|done].
  - done.
Qed.

Lemma Inv2_acceptSocket ws st :
  Inv st → Inv2 st → sockets (rt st) !! ws = None →
  Inv2 (mkState (svc st) (acceptSocket ws (rt st))).
Proof.
  intros HI (HQ & (HL1 & HL2) & HO & HC & HT) Hnew.
  apply openIn_user_None in Hnew as [Hopen Huser].
  unfold Inv2, queueOk, oneLecturer, openRegistered, closedGone, oneTimer in *.
  st_simpl2. split; [done|]. split; [split; [done|]|split; [|split; [|done]]].
  - intros c1 c2 u1 u2 H1 H2. st_simpl2. repeat case_decide; try done. eauto.
  - intros c u. st_simpl2. case_decide; [done|]. eauto.
  - intros c. st_simpl2. case_decide; [done|]. eauto.
Qed.

Lemma Inv2_closeSocket c st : Inv2 st → Inv2 (mkState (svc st) (closeSocket c (rt st))).
Proof.
  intros (HQ & (HL1 & HL2) & HO & HC & HT).
  unfold Inv2, queueOk, oneLecturer, openRegistered, closedGone, oneTimer in *.
  st_simpl2. split; [done|]. split; [split; [done|]|split; [|split; [|done]]].
  - intros c1 c2 u1 u2 H1 H2. st_simpl2. eauto.
  - intros c' u. st_simpl2. case_decide; [done|]. eauto.
  - intros c'. st_simpl2. eauto.
Qed.

Lemma NoDup_mapDelete {V} (k : nat) (m : list (nat * V)) :
  NoDup m.*1 → NoDup (mapDelete k m).*1.
Proof.
  unfold mapDelete. induction m as [|[c u] l IH]; [constructor|].
  rewrite fmap_cons. cbn [fst]. intros HL1. apply NoDup_cons in HL1 as [Hn Hl].
  destruct (decide (c ≠ k)).
  - rewrite filter_cons_True by done. cbn. apply NoDup_cons. split; [|by apply IH].
    intros Hin. apply Hn. apply list_elem_of_fmap in Hin as (p & -> & Hin).
    apply list_elem_of_filter in Hin as [_ Hin]. apply list_elem_of_fmap. by exists p.
  - rewrite filter_cons_False by done. by apply IH.
Qed.

Lemma elem_of_keys_mapDelete {V} (k c : nat) (m : list (nat * V)) :
  c ∈ (mapDelete k m).*1 → c ∈ m.*1 ∧ c ≠ k.
Proof.
  intros Hc. apply list_elem_of_fmap in Hc as ([c' u'] & -> & Hin).
  apply elem_of_mapDelete in Hin as [Hin Hne]. split; [|done].
  apply list_elem_of_fmap. by exists (c', u').
Qed.

Lemma Inv2_dropDuplicate u st : Inv2 st → Inv2 (dropDuplicate u st).
Proof.
  intros HI2. unfold dropDuplicate.
  destruct (findClientByUid st u) as [ex|] eqn:Hf; [|done].
  destruct HI2 as (HQ & (HL1 & HL2) & HO & HC & HT).
  unfold Inv2, queueOk, oneLecturer, openRegistered, closedGone, oneTimer in *.
  st_simpl2. split; [done|]. split; [split|split; [|split; [|done]]].
  - by apply NoDup_mapDelete.
  - intros c1 c2 u1 u2 H1 H2. st_simpl2.
    apply elem_of_keys_mapDelete in H1 as [H1 _]. apply elem_of_keys_mapDelete in H2 as [H2 _].
    eauto.
  - intros c' u'. st_simpl2. case_decide; [done|]. intros Ho Hu.
    apply elem_of_mapDelete. split; [eauto|done].
  - intros c'. st_simpl2. intros Hc. destruct (HC _ Hc) as (C1 & C2 & C3 & C4).
    repeat split; try done. intros Hin. by apply elem_of_keys_mapDelete in Hin as [Hin _].
Qed.

Lemma anyLecturerClient_false st c x usr :
  anyLecturerClient st = false → (c, x) ∈ clients (svc st) →
  userOf st c = Some usr → isLecturerEmail (email usr) = false.
Proof.
  unfold anyLecturerClient. intros Hno Hin Hu.
  destruct (isLecturerEmail (email usr)) eqn:Hl; [|done].
  assert (existsb (λ '(client, _),
            match userOf st client with
            | Some clientUser => isLecturerEmail (email clientUser)
            | None => false
            end) (clients (svc st)) = true); [|congruence].
  apply existsb_exists. exists (c, x). split; [by apply list_elem_of_In|].
  by rewrite Hu.
Qed.

Lemma Inv2_admission ws u st :
  Inv st → Inv2 st → userOf st ws = None → isOpen st ws = true →
  isLecturerEmail (email u) && anyLecturerClient (dropDuplicate (uid u) st) = false →
  Inv2 (admission ws u st).
Proof.
  intros HI HI2 Hnone Hopen Hlec.
  destruct (Inv_dropDuplicate (uid u) st HI) as [HI1 Hdup].
  pose proof (Inv2_dropDuplicate (uid u) st HI2) as HI21.
  destruct (dropDuplicate_frame (uid u) st) as (Hcl & Hus & Hop & Hb & Hsp & Hq & Hh).
  assert (Hopen1 : isOpen (dropDuplicate (uid u) st) ws = true).
  { unfold dropDuplicate. destruct (findClientByUid st (uid u)) as [ex|] eqn:Hf; [|done].
    apply findClientByUid_Some in Hf as [Hin _]. st_simpl.
    case_decide; [|done]. subst. destruct HI as ((HU1 & _) & _).
    apply HU1 in Hin as (? & ? & _). st_simpl. congruence. }
  assert (Hnone1 : userOf (dropDuplicate (uid u) st) ws = None) by (by rewrite Hus).
  assert (Hfresh : ws ∉ (clients (svc (dropDuplicate (uid u) st))).*1).
  { intros Hin. apply list_elem_of_fmap in Hin as ([w u'] & -> & Hin). cbn in *.
    destruct HI1 as ((HU1 & _) & _). apply HU1 in Hin as (? & Hu' & _). congruence. }
  unfold admission. cbv zeta. rewrite mapSet_fresh by done.
  set (st1 := dropDuplicate (uid u) st) in *.
  destruct HI21 as (HQ & (HL1 & HL2) & HO & HC & HT).
  clear HI HI2 Hcl Hus Hop Hb Hsp Hq Hh Hnone Hopen.
  unfold Inv2, queueOk, oneLecturer, openRegistered, closedGone, oneTimer in *.
  st_simpl2. rewrite fmap_app. cbn [fmap list_fmap fst].
  split; [done|]. split; [split|split; [|split; [|done]]].
  - apply NoDup_app. split; [done|]. split; [|apply NoDup_singleton].
    intros x Hx Hx'. apply list_elem_of_singleton in Hx' as ->. done.
  - assert (Hold : ∀ c usr, c ∈ (clients (svc st1)).*1 → userIn (rt st1) c = Some usr →
                              isLecturerEmail (email u) = true →
                              isLecturerEmail (email usr) = false).
    { intros c usr Hc Hu Hl. rewrite Hl in Hlec. cbn in Hlec.
      apply list_elem_of_fmap in Hc as ([c' x'] & -> & Hin).
      by eapply anyLecturerClient_false. }
    intros c1 c2 u1 u2 H1 H2. st_simpl2.
    apply elem_of_app in H1 as [H1|H1]; apply elem_of_app in H2 as [H2|H2];
      try (apply list_elem_of_singleton in H1 as ->);
      try (apply list_elem_of_singleton in H2 as ->).
    + do 2 (case_decide; [exfalso; apply Hfresh; congruence|]). eauto.
    + rewrite (decide_True (P := ws = ws)) by done.
      case_decide; [exfalso; apply Hfresh; congruence|].
      rewrite openIn_if by done. intros Hu1 [= <-] Hl1 Hl2.
      rewrite (Hold c1 u1) in Hl1; done.
    + rewrite (decide_True (P := ws = ws)) by done.
      case_decide; [exfalso; apply Hfresh; congruence|].
      rewrite openIn_if by done. intros [= <-] Hu2 Hl1 Hl2.
      rewrite (Hold c2 u2) in Hl2; done.
    + done.
  - intros c usr. st_simpl2. case_decide.
    + subst c. rewrite openIn_if by done. intros _ [= <-].
      apply elem_of_app. right. by apply list_elem_of_singleton.
    + intros Ho Hu. apply elem_of_app. left. eauto.
  - intros c. st_simpl2. intros Hc. destruct (HC _ Hc) as (C1 & C2 & C3 & C4).
    repeat split; try done. rewrite elem_of_app, list_elem_of_singleton.
    intros [Hin| ->]; [done|]. apply closedIn_not_open in Hc. congruence.
Qed.

Lemma enabled_closed_live now ws st :
  enabled now (Closed ws) st = true → is_Some (sockets (rt st) !! ws).
Proof.
  unfold enabled. intros H. apply andb_true_iff in H as [_ H].
  destruct (sockets (rt st) !! ws); [eauto|done].
Qed.

Lemma step_Inv2 now ev st st' eff :
  Inv st → Inv2 st → step now ev st = Some (tt, st', eff) → Inv2 st'.
Proof.
  intros HI HI2 H. apply step_inv in H as [Hen H].
  destruct ev as [ws u|ws m|ws|t]; cbn [fire] in H.
  - apply enabled_connection in Hen as [_ Hnew].
    apply bind_inv in H as (a & st1 & e1 & e2 & H1 & H2 & ->). minv_prim H1.
    pose proof (Inv_acceptSocket ws st HI Hnew) as HI1.
    pose proof (Inv2_acceptSocket ws st HI HI2 Hnew) as HI21.
    set (st1 := mkState (svc st) (acceptSocket ws (rt st))) in *.
    assert (Hhost : hostWs (svc st1) ≠ Some ws).
    { intros Hh. destruct HI1 as ((_ & _ & _ & HU4) & _). destruct (HU4 _ Hh) as [x Hx].
      unfold st1 in Hx. st_simpl. by rewrite decide_True in Hx. }
    destruct (mapHas (uid u) (bannedUids (svc st1))) eqn:Hban.
    + rewrite handleConnection_banned in H2 by done. injection H2 as <- _.
      by apply (Inv2_closeSocket ws st1).
    + rewrite handleConnection_run in H2 by done.
      destruct (isLecturerEmail (email u) && anyLecturerClient _) eqn:Hl;
        injection H2 as <- _.
      * apply (Inv2_closeSocket ws (dropDuplicate (uid u) st1)). by apply Inv2_dropDuplicate.
      * apply Inv2_admission; [done|done| | |done]; unfold st1; st_simpl;
          by rewrite decide_True.
  - eapply handleMessage_Inv2; [done| |done]. by eapply enabled_message_live.
  - apply enabled_closed_live in Hen as [s Hs].
    apply bind_inv in H as (a & st1 & e1 & e2 & H1 & H2 & ->). minv_prim H1.
    destruct HI2 as (HQ & (HL1 & HL2) & HO & HC & HT).
    eapply handleDisconnect_Inv2; [by apply Inv_finishSocket| | | | | | |done].
    + done.
    + split; [done|]. intros c1 c2 u1 u2 H1 H3. st_simpl. eauto.
    + intros c u. st_simpl. case_decide; [done|]. eauto.
    + done.
    + intros c Hne. st_simpl2. rewrite decide_False by done. apply HC.
    + st_simpl2. rewrite decide_True by done. by rewrite Hs.
  - unfold processExit in H. minv.
    destruct HI2 as (HQ & (HL1 & HL2) & HO & HC & HT).
    unfold Inv2, queueOk, oneLecturer, openRegistered, closedGone, oneTimer in *.
    st_simpl2. split; [done|]. split; [done|]. split; [done|]. split; [done|].
    etrans; [apply length_filter_le|done].
Qed.

Lemma initial_Inv2 ip : Inv2 (initial ip).
Proof.
  unfold Inv2, queueOk, oneLecturer, openRegistered, closedGone, oneTimer, initial. cbn.
  split; [apply NoDup_nil_2|]. split; [split; [apply NoDup_nil_2|]|split; [|split; [|lia]]].
  - intros c1 c2 u1 u2 H1. by apply elem_of_nil in H1.
  - intros ws u. unfold isOpen, openIn. cbn. by rewrite lookup_empty.
  - intros ws. unfold isClosed, closedIn. cbn. by rewrite lookup_empty.
Qed.

Lemma reachable_Inv2 st : reachable st → Inv2 st.
Proof.
  induction 1 as [ip|st now ev st' eff Hr IH Hstep]; [apply initial_Inv2|].
  eapply step_Inv2; [by apply reachable_Inv|done|done].
Qed.

(** ** What handlers write, whatever the state *)

Lemma writes_bind {A B} P (m : M A) (f : A → M B) :
  writes P m → (∀ a, writes P (f a)) → writes P (m ≫= f).
Proof.
  intros Hm Hf st b st' eff H.
  apply bind_inv in H as (a & st1 & e1 & e2 & H1 & H2 & ->).
  apply Forall_app. split; [by eapply Hm|by eapply Hf].
Qed.

Lemma writes_silent {A} P (m : M A) :
  (∀ st a st' eff, m st = Some (a, st', eff) → eff = []) → writes P m.
Proof. intros Hm st a st' eff H. by rewrite (Hm _ _ _ _ H). Qed.

Lemma writes_emit P e : P e → writes P (emit e).
Proof. intros HP st a st' eff H. minv_prim H. by repeat constructor. Qed.

Lemma writes_send P ws d : P (Send ws d) → writes P (send ws d).
Proof.
  intros HP st a st' eff H. rewrite send_run in H. injection H as _ _ <-.
  by apply sendEffects_Forall.
Qed.

Lemma writes_broadcast P d : (∀ c, P (Send c d)) → writes P (broadcast d).
Proof.
  intros HP st a st' eff H. rewrite broadcast_run in H. injection H as _ _ <-.
  unfold broadcastEffects. apply Forall_fmap, Forall_forall. intros c _. apply HP.
Qed.

Lemma writes_broadcastSpeakerUpdate P :
  (∀ c s, P (Send c (SystemSpeakerUpdate s))) → writes P broadcastSpeakerUpdate.
Proof.
  intros HP. unfold broadcastSpeakerUpdate. apply writes_bind.
  - apply writes_silent. intros ???? H. by minv_prim H.
  - intros st. by apply writes_broadcast.
Qed.

Lemma writes_broadcastParticipantList P :
  (∀ c l, P (Send c (SystemParticipantList l))) → writes P broadcastParticipantList.
Proof.
  intros HP. unfold broadcastParticipantList. apply writes_bind.
  - apply writes_silent. intros ???? H. by minv_prim H.
  - intros st. destruct (hostWs (svc st)); [by apply writes_send|].
    apply writes_silent. intros ???? H. by minv_prim H.
Qed.

Lemma writes_broadcastRequestQueue P :
  (∀ c l, P (Send c (SystemRequestQueue l))) → writes P broadcastRequestQueue.
Proof.
  intros HP. unfold broadcastRequestQueue. apply writes_bind.
  - apply writes_silent. intros ???? H. by minv_prim H.
  - intros st. destruct (hostWs (svc st)).
    + destruct (mapM _ _); [by apply writes_send|]. by intros ?????.
    + apply writes_silent. intros ???? H. by minv_prim H.
Qed.

Lemma writes_broadcastBannedList P :
  (∀ c l, P (Send c (SystemBannedList l))) → writes P broadcastBannedList.
Proof.
  intros HP. unfold broadcastBannedList. apply writes_bind.
  - apply writes_silent. intros ???? H. by minv_prim H.
  - intros s. destruct (hostWs s); [by apply writes_send|].
    apply writes_silent. intros ???? H. by minv_prim H.
Qed.

Lemma writes_forEach {A} P (l : list A) (body : A → M unit) :
  (∀ x, writes P (body x)) → writes P (forEach l body).
Proof.
  intros Hb. induction l as [|x l IH]; cbn [forEach].
  - apply writes_silent. intros ???? H. by minv_prim H.
  - apply writes_bind; [apply Hb|]. intros _. apply IH.
Qed.

Lemma writes_theUser P ws : writes P (theUser ws).
Proof.
  apply writes_silent. intros st a st' eff H. unfold theUser in H.
  cbv [mbind M_bind get mret M_ret throw] in H.
  destruct (userOf st ws); [by injection H|done].
Qed.

Ltac writes_silent_prim :=
  apply writes_silent;
  let H := fresh in
  intros ? ? ? ? H;
  cbv [get this update updateRt skip mret M_ret setUser clearTimeout throw] in H;
  by simplify_eq.

Ltac writes_step :=
  match goal with
  | |- writes _ (mbind _ _) => apply writes_bind; [|intros ?]
  | |- writes _ (send _ _) => apply writes_send
  | |- writes _ (broadcast _) => apply writes_broadcast; intros ?
  | |- writes _ broadcastSpeakerUpdate => apply writes_broadcastSpeakerUpdate; intros ? ?
  | |- writes _ broadcastParticipantList => apply writes_broadcastParticipantList; intros ? ?
  | |- writes _ broadcastRequestQueue => apply writes_broadcastRequestQueue; intros ? ?
  | |- writes _ broadcastBannedList => apply writes_broadcastBannedList; intros ? ?
  | |- writes _ (theUser _) => apply writes_theUser
  | |- writes _ (forEach _ _) => apply writes_forEach; intros []
  | |- writes _ (emit _) => apply writes_emit
  | |- writes _ get => writes_silent_prim
  | |- writes _ this => writes_silent_prim
  | |- writes _ (update _) => writes_silent_prim
  | |- writes _ (updateRt _) => writes_silent_prim
  | |- writes _ (setUser _ _) => writes_silent_prim
  | |- writes _ (clearTimeout _) => writes_silent_prim
  | |- writes _ skip => writes_silent_prim
  | |- writes _ (mret _) => writes_silent_prim
  | |- writes _ throw => writes_silent_prim
  | |- writes _ (if ?b then _ else _) => destruct b
  | |- writes _ (match ?x with _ => _ end) => destruct x
  end.

Ltac writes_all :=
  unfold handleCancelRequest, handleFinishedSpeaking, handleReleaseFloor, handleAdminKick,
    handleAdminRemoveRequest, handleRequestToSpeak, grantMic, wsClose, setTimeout,
    processExit;
  repeat writes_step.

(** No message and no close event ends the process. *)
Lemma handleMessage_no_exit now ws m : writes (λ e, e ≠ Exit) (handleMessage now ws m).
Proof. destruct m; cbn [handleMessage]; writes_all; done. Qed.

Lemma handleConnection_no_exit ws u : writes (λ e, e ≠ Exit) (handleConnection ws u).
Proof. unfold handleConnection; writes_all; done. Qed.

Lemma handleDisconnect_no_exit now ws : writes (λ e, e ≠ Exit) (handleDisconnect now ws).
Proof. unfold handleDisconnect; writes_all; done. Qed.

(** Apart from [admin-kick-user], no message makes the server close a
    socket; nor does a close event. *)
Lemma handleMessage_no_close now ws m :
  (∀ t, m ≠ AdminKickUser t) → writes (λ e, ∀ c, e ≠ Close c) (handleMessage now ws m).
Proof.
  intros Hm. destruct m; cbn [handleMessage]; try (by destruct (Hm targetUid)).
  all: writes_all; done.
Qed.

Lemma handleDisconnect_no_close now ws :
  writes (λ e, ∀ c, e ≠ Close c) (handleDisconnect now ws).
Proof. unfold handleDisconnect; writes_all; done. Qed.

(** ** Forward runs of the floor handlers *)

Lemma emit_run e st : emit e st = Some (tt, st, [e]).
Proof. reflexivity. Qed.

Lemma broadcastRequestQueue_run st :
  (∀ c, c ∈ requestQueue (svc st) → is_Some (userOf st c)) →
  broadcastRequestQueue st = Some (tt, st, requestQueueEffects st).
Proof.
  intros Hq. unfold broadcastRequestQueue, requestQueueEffects.
  erewrite bind_run by reflexivity. cbv beta.
  destruct (hostWs (svc st)); [|done].
  destruct (mapM (userOf st) (requestQueue (svc st))) eqn:Hm; [by rewrite send_run|].
  exfalso. assert (is_Some (mapM (userOf st) (requestQueue (svc st)))) as [? ?]; [|congruence].
  apply mapM_is_Some, Forall_forall. intros c Hc. by apply Hq.
Qed.

Lemma broadcastBannedList_run st :
  broadcastBannedList st = Some (tt, st, bannedListEffects st).
Proof.
  unfold broadcastBannedList, bannedListEffects.
  erewrite bind_run by reflexivity. cbv beta.
  destruct (hostWs (svc st)); [by rewrite send_run|done].
Qed.

Lemma grantMic_run ws u st :
  userOf st ws = Some u →
  (∀ c, c ∈ requestQueue (svc st) → is_Some (userOf st c)) →
  ∃ st' eff,
    grantMic ws st = Some (tt, st', eff) ∧
    rt st' = rt st ∧
    speaker (svc st') = Some ws ∧
    requestQueue (svc st') = filter (λ c, c ≠ ws) (requestQueue (svc st)) ∧
    clients (svc st') = clients (svc st) ∧ hostWs (svc st') = hostWs (svc st) ∧
    bannedUids (svc st') = bannedUids (svc st) ∧
    isSessionActive (svc st') = isSessionActive (svc st) ∧
    lastSpeakTimeMap (svc st') = lastSpeakTimeMap (svc st) ∧
    eff = (if bool_decide (ws ∈ requestQueue (svc st)) then requestQueueEffects st' else []) ++
          sendEffects st ws SystemSpeakGranted ++
          [Stats (LogEvent SPEAK_GRANTED (uid u))] ++
          broadcastEffects st (SystemSpeakerUpdate (Some u)).
Proof.
  intros Hu Hq. unfold grantMic. fwd update_run. fwd this_run. cbn [svc rt requestQueue set_speaker].
  destruct (bool_decide (ws ∈ requestQueue (svc st))) eqn:Hin.
  - erewrite (bind_run (update _ ;; broadcastRequestQueue)).
    2:{ fwd update_run. rewrite broadcastRequestQueue_run; [reflexivity|].
        cbn. intros c Hc. apply list_elem_of_filter in Hc as [_ Hc]. by apply Hq. }
    cbv beta iota. fwd send_run. erewrite bind_run by (by apply theUser_run).
    cbv beta iota. fwd emit_run. rewrite broadcastSpeakerUpdate_run.
    eexists _, _. split; [reflexivity|]. cbn. unfold userOf in *. cbn. rewrite Hu.
    repeat split; done.
  - erewrite bind_run by reflexivity. cbv beta iota.
    fwd send_run. erewrite bind_run by (by apply theUser_run).
    cbv beta iota. fwd emit_run. rewrite broadcastSpeakerUpdate_run.
    eexists _, _. split; [reflexivity|]. cbn. unfold userOf in *. cbn. rewrite Hu.
    apply bool_decide_eq_false in Hin. rewrite filter_absent by done.
    repeat split; done.
Qed.

(** An open socket is in [wss.clients]: a broadcast reaches it. *)
Lemma reachable_openListed st :
  reachable st → ∀ ws, isOpen st ws = true → ws ∈ wssClients (rt st).
Proof.
  induction 1 as [ip|st now ev st' eff Hr IH Hstep].
  - intros ws. unfold isOpen, openIn, initial. cbn. by rewrite lookup_empty.
  - apply step_inv in Hstep as [Hen H].
    destruct ev as [ws u|ws m|ws|t]; cbn [fire] in H.
    + apply bind_inv in H as (a & st1 & e1 & e2 & H1 & H2 & ->). minv_prim H1.
      assert (Hacc : ∀ c, openIn (acceptSocket ws (rt st)) c = true →
                          c ∈ wssClients (rt st) ++ [ws]).
      { intros c. st_simpl. case_decide; [subst; intros _|intros Ho].
        - apply elem_of_app. right. by apply list_elem_of_singleton.
        - apply elem_of_app. left. by apply IH. }
      apply handleConnection_shape in H2 as [[_ ->]|[[_ ->]|[_ ->]]].
      * intros c. st_simpl. intros Ho. apply Hacc. st_simpl. by repeat case_decide.
      * intros c. unfold dropDuplicate. destruct (findClientByUid _ _); st_simpl.
        all: intros Ho; apply Hacc; st_simpl; by repeat case_decide.
      * intros c. unfold admission, dropDuplicate. destruct (findClientByUid _ _); st_simpl.
        all: intros Ho; apply Hacc; st_simpl; by repeat case_decide.
    + apply handleMessage_shape in H as (_ & -> & _ & _ & Hop & _). intros c Hc. eauto.
    + apply bind_inv in H as (a & st1 & e1 & e2 & H1 & H2 & ->). minv_prim H1.
      apply handleDisconnect_shape in H2 as (Hso & -> & _). intros c.
      assert (Hop : isOpen st' c = openIn (finishSocket ws (rt st)) c).
      { unfold isOpen, openIn. by rewrite Hso. }
      rewrite Hop. cbn [rt]. rewrite openIn_finishSocket. case_decide; [done|].
      intros Ho. apply list_elem_of_filter. split; [done|]. by apply IH.
    + unfold processExit in H. minv. intros c. st_simpl. apply IH.
Qed.

Lemma elem_of_broadcastEffects st d w :
  w ∈ wssClients (rt st) → isOpen st w = true → Send w d ∈ broadcastEffects st d.
Proof.
  intros Hin Ho. unfold broadcastEffects. apply list_elem_of_fmap. exists w.
  split; [done|]. by apply list_elem_of_filter.
Qed.

Lemma elem_of_sendEffects st w d : isOpen st w = true → Send w d ∈ sendEffects st w d.
Proof. intros Ho. unfold sendEffects. rewrite Ho. apply list_elem_of_here. Qed.

Lemma elem_of_sendEffects_inv st w d e : e ∈ sendEffects st w d → e = Send w d.
Proof.
  unfold sendEffects. destruct (isOpen st w); [|by intros ?%elem_of_nil].
  by intros ?%list_elem_of_singleton.
Qed.

Lemma enabled_step now ev st : enabled now ev st = true → step now ev st = fire now ev st.
Proof. intros Hen. unfold step. by rewrite Hen. Qed.

Lemma open_found st ws u :
  Inv st → Inv2 st → isOpen st ws = true → userOf st ws = Some u →
  findClientByUid st (uid u) = Some ws.
Proof.
  intros (_ & _ & (HR1 & _) & _) (_ & _ & HO & _) Ho Hu.
  pose proof (HO _ _ Ho Hu) as Hin.
  destruct (findClientByUid st (uid u)) as [c|] eqn:Hf.
  - apply findClientByUid_Some in Hf as [Hc Hco]. f_equal. by apply (HR1 c ws (uid u)).
  - pose proof (findClientByUid_None _ _ _ Hf Hin). congruence.
Qed.

(** ** Inversion of handler runs, effects included *)

Lemma send_inv ws d st r st' eff :
  send ws d st = Some (r, st', eff) → st' = st ∧ eff = sendEffects st ws d.
Proof. rewrite send_run. by intros [= <- <-]. Qed.

Lemma broadcast_inv d st r st' eff :
  broadcast d st = Some (r, st', eff) → st' = st ∧ eff = broadcastEffects st d.
Proof. rewrite broadcast_run. by intros [= <- <-]. Qed.

Lemma broadcastSpeakerUpdate_inv st r st' eff :
  broadcastSpeakerUpdate st = Some (r, st', eff) →
  st' = st ∧
  eff = broadcastEffects st (SystemSpeakerUpdate (speaker (svc st) ≫= userOf st)).
Proof. rewrite broadcastSpeakerUpdate_run. by intros [= <- <-]. Qed.

Lemma broadcastParticipantList_inv st r st' eff :
  broadcastParticipantList st = Some (r, st', eff) →
  st' = st ∧ eff = participantEffects st.
Proof. rewrite broadcastParticipantList_run. by intros [= <- <-]. Qed.

Lemma broadcastBannedList_inv st r st' eff :
  broadcastBannedList st = Some (r, st', eff) → st' = st ∧ eff = bannedListEffects st.
Proof. rewrite broadcastBannedList_run. by intros [= <- <-]. Qed.

Lemma broadcastRequestQueue_inv st r st' eff :
  broadcastRequestQueue st = Some (r, st', eff) →
  st' = st ∧ eff = requestQueueEffects st.
Proof.
  unfold broadcastRequestQueue, requestQueueEffects. intros H.
  apply bind_inv in H as (a & st1 & e1 & e2 & H1 & H2 & ->).
  injection H1 as <- <- <-. destruct (hostWs _); [|by injection H2 as <- <-].
  destruct (mapM _ _); [|done]. rewrite send_run in H2. by injection H2 as <- <-.
Qed.

Lemma theUser_inv_eff ws st u st' eff :
  theUser ws st = Some (u, st', eff) → st' = st ∧ eff = [] ∧ userOf st ws = Some u.
Proof.
  unfold theUser. cbv [mbind M_bind get mret M_ret throw].
  destruct (userOf st ws); [by intros [= <- <- <-]|done].
Qed.

Ltac xinv0 :=
  match goal with
  | H : mbind _ _ _ = Some _ |- _ =>
      let a := fresh "a" in let st := fresh "st" in
      let e1 := fresh "e" in let e2 := fresh "e" in
      apply bind_inv in H as (a & st & e1 & e2 & ? & ? & ->)
  | H : send _ _ _ = Some _ |- _ => apply send_inv in H as [-> ->]
  | H : broadcast _ _ = Some _ |- _ => apply broadcast_inv in H as [-> ->]
  | H : broadcastSpeakerUpdate _ = Some _ |- _ =>
      apply broadcastSpeakerUpdate_inv in H as [-> ->]
  | H : broadcastParticipantList _ = Some _ |- _ =>
      apply broadcastParticipantList_inv in H as [-> ->]
  | H : broadcastRequestQueue _ = Some _ |- _ =>
      apply broadcastRequestQueue_inv in H as [-> ->]
  | H : broadcastBannedList _ = Some _ |- _ =>
      apply broadcastBannedList_inv in H as [-> ->]
  | H : theUser _ _ = Some _ |- _ => apply theUser_inv_eff in H as (-> & -> & ?)
  | H : get _ = Some _ |- _ => minv_prim H
  | H : this _ = Some _ |- _ => minv_prim H
  | H : update _ _ = Some _ |- _ => minv_prim H
  | H : updateRt _ _ = Some _ |- _ => minv_prim H
  | H : setUser _ _ _ = Some _ |- _ => minv_prim H
  | H : clearTimeout _ _ = Some _ |- _ => minv_prim H
  | H : emit _ _ = Some _ |- _ => minv_prim H
  | H : skip _ = Some _ |- _ => minv_prim H
  | H : mret _ _ = Some _ |- _ => minv_prim H
  | H : throw _ = Some _ |- _ => discriminate H
  | H : (if ?b then _ else _) _ = Some _ |- _ => revert H; destruct b eqn:?; intros H
  | H : (match ?x with _ => _ end) _ = Some _ |- _ => revert H; destruct x eqn:?; intros H
  end.

(** [forEach] bodies that only write to the stats service keep the state;
    their effects stay abstract. *)
Ltac xinv1 :=
  first
    [ xinv0
    | match goal with
      | H : forEach _ _ _ = Some _ |- _ =>
          apply forEach_state in H;
          [subst | clear; intros; repeat minv0; reflexivity]
      end ].

Ltac xinv := repeat xinv1.

(** Find an effect in a concatenation. *)
Ltac find_in tac := first [ solve [tac] | left; find_in tac | right; find_in tac ].
Ltac in_effects tac := rewrite ?elem_of_app, ?elem_of_cons; find_in tac.

(** ** Properties of every reachable state *)

(** X1. Handlers throw on malformed messages only. In a reachable state,
    an event that can occur (a connection on a new socket, a message or the
    close of an admitted socket, a due timeout) makes its handler throw
    exactly when it is one of the malformed messages of [throwsOn]: the
    message [null], a message without payload of a host-only type that reads
    [payload.uid], [payload.active] or [payload.targetUid] when the host
    sends it, a webrtc-ice-candidate without payload while a host is
    registered, or a latency-update without payload from a sender with a
    uid. Nothing catches the TypeError, so the process crashes. Every other
    event is handled to the end, so every [ws.user.…], [c.user.uid] and
    [this.speaker.user.uid] it evaluates finds a user; and the state it leaves
    is reachable again. *)
Theorem handler_throws_on_malformed_message_only now ev st :
  reachable st → enabled now ev st = true →
  (faulty st ev = true → deliver now ev st = Crashed) ∧
  (faulty st ev = false →
   ∃ st' eff, step now ev st = Some (tt, st', eff) ∧
              deliver now ev st = Handled st' eff ∧ reachable st').
Proof.
  intros Hr Hen. split; intros Hf.
  - pose proof (step_throws now ev st Hen Hf) as H.
    unfold step in H. unfold deliver. rewrite Hen in *. by rewrite H.
  - destruct (step_progress now ev st (reachable_Inv _ Hr) Hen Hf) as [[[[] st'] eff] H].
    exists st', eff. split; [done|]. split; [|by eapply reachable_step].
    unfold step in H. unfold deliver. rewrite Hen in *. by rewrite H.
Qed.

Lemma handler_throws_on_malformed_message_only_witness :
  reachable classroom ∧
  enabled 6 (Message 2 (NoPayload LatencyUpdateCase)) classroom = true ∧
  faulty classroom (Message 2 (NoPayload LatencyUpdateCase)) = true ∧
  deliver 6 (Message 2 (NoPayload LatencyUpdateCase)) classroom = Crashed ∧
  faulty classroom (Message 0 (AdminRemoveRequest "b")) = false ∧
  ∃ st' eff, step 6 (Message 0 (AdminRemoveRequest "b")) classroom = Some (tt, st', eff) ∧
             deliver 6 (Message 0 (AdminRemoveRequest "b")) classroom = Handled st' eff ∧
             reachable st'.
Proof.
  split; [apply classroom_reachable|]. split; [vm_compute; reflexivity|].
  split; [vm_compute; reflexivity|]. split.
  - apply (handler_throws_on_malformed_message_only 6
             (Message 2 (NoPayload LatencyUpdateCase)) classroom);
      [apply classroom_reachable|vm_compute; reflexivity|vm_compute; reflexivity].
  - split; [vm_compute; reflexivity|].
    apply (handler_throws_on_malformed_message_only 6
             (Message 0 (AdminRemoveRequest "b")) classroom);
      [apply classroom_reachable|vm_compute; reflexivity|vm_compute; reflexivity].
Defined.

(** X2. Single session per uid: in a reachable state two open, admitted
    sockets never carry the same uid. *)
Theorem one_open_socket_per_uid st ws1 ws2 u1 u2 :
  reachable st →
  isOpen st ws1 = true → isOpen st ws2 = true →
  userOf st ws1 = Some u1 → userOf st ws2 = Some u2 →
  uid u1 = uid u2 → ws1 = ws2.
Proof.
  intros Hr Ho1 Ho2 Hu1 Hu2 He.
  destruct (reachable_Inv _ Hr) as (_ & _ & (HR1 & _) & _).
  destruct (reachable_Inv2 _ Hr) as (_ & _ & HO & _).
  apply (HR1 ws1 ws2 (uid u1)); [by apply HO|rewrite He; by apply HO|done|done].
Qed.

Lemma one_open_socket_per_uid_witness :
  reachable aliceRejoined ∧ isOpen aliceRejoined 3 = true ∧
  userOf aliceRejoined 3 = Some alice ∧ userOf aliceRejoined 1 = Some alice ∧
  isOpen aliceRejoined 1 = false ∧ (3 = 3)%nat.
Proof.
  assert (Hr : reachable aliceRejoined).
  { apply after_reachable; [apply classroom_reachable|vm_compute; eauto]. }
  split; [done|]. split; [vm_compute; reflexivity|]. split; [vm_compute; reflexivity|].
  split; [vm_compute; reflexivity|]. split; [vm_compute; reflexivity|].
  apply (one_open_socket_per_uid aliceRejoined 3 3 alice alice); try done;
    vm_compute; reflexivity.
Defined.

(** X3. An active session has a host: whenever [isSessionActive] is true,
    [hostWs] is an admitted socket whose close event has not been handled. *)
Theorem active_session_has_live_host st :
  reachable st → isSessionActive (svc st) = true →
  ∃ h u, hostWs (svc st) = Some h ∧ userOf st h = Some u ∧ isClosed st h = false.
Proof.
  intros Hr Hact.
  destruct (reachable_Inv _ Hr) as ((_ & _ & _ & HU4) & HA & _).
  destruct (reachable_Inv2 _ Hr) as (_ & _ & _ & HC & _).
  destruct (HA Hact) as [h Hh]. destruct (HU4 _ Hh) as [u Hu].
  exists h, u. split; [done|]. split; [done|].
  destruct (isClosed st h) eqn:Hc; [|done]. by destruct (HC _ Hc) as (_ & _ & _ & C4).
Qed.

Lemma active_session_has_live_host_witness :
  reachable classroom ∧ isSessionActive (svc classroom) = true ∧
  ∃ h u, hostWs (svc classroom) = Some h ∧ userOf classroom h = Some u ∧
         isClosed classroom h = false.
Proof.
  split; [apply classroom_reachable|]. split; [vm_compute; reflexivity|].
  apply (active_session_has_live_host classroom);
    [apply classroom_reachable|vm_compute; reflexivity].
Defined.

(** X4. At most one shutdown is pending: in a reachable state Node holds
    no timeout of the service, or exactly one, and then it is the one whose
    handle is in [shutdownTimer]. *)
Theorem at_most_one_pending_timeout st :
  reachable st →
  timers (rt st) = [] ∨
  ∃ t due, timers (rt st) = [(t, due)] ∧ shutdownTimer (svc st) = Some t.
Proof.
  intros Hr.
  destruct (reachable_Inv _ Hr) as (_ & _ & _ & HT1 & _).
  destruct (reachable_Inv2 _ Hr) as (_ & _ & _ & _ & HT).
  unfold oneTimer in HT.
  destruct (timers (rt st)) as [|[t d] [|p l]] eqn:Ht; [by left| |cbn in HT; lia].
  right. exists t, d. split; [done|]. apply (HT1 t d), list_elem_of_here.
Qed.

Lemma at_most_one_pending_timeout_witness :
  reachable hostGone ∧ length (timers (rt hostGone)) = 1%nat ∧
  (timers (rt hostGone) = [] ∨
   ∃ t due, timers (rt hostGone) = [(t, due)] ∧ shutdownTimer (svc hostGone) = Some t).
Proof.
  split; [apply hostGone_reachable|]. split; [vm_compute; reflexivity|].
  apply (at_most_one_pending_timeout hostGone), hostGone_reachable.
Defined.

(** X5. The request queue of a reachable state holds no socket twice. *)
Theorem request_queue_has_no_duplicates st :
  reachable st → NoDup (requestQueue (svc st)).
Proof. intros Hr. by destruct (reachable_Inv2 _ Hr) as (HQ & _). Qed.

Lemma request_queue_has_no_duplicates_witness :
  reachable classroom ∧ requestQueue (svc classroom) = [2%nat] ∧
  NoDup (requestQueue (svc classroom)).
Proof.
  split; [apply classroom_reachable|]. split; [vm_compute; reflexivity|].
  apply (request_queue_has_no_duplicates classroom), classroom_reachable.
Defined.

(** X6. Single lecturer: among the sockets registered in a reachable
    state at most one belongs to a user whose e-mail ends in '@um.edu.my' or
    '@gmail.com'. *)
Theorem at_most_one_lecturer_registered st c1 c2 x1 x2 u1 u2 :
  reachable st →
  (c1, x1) ∈ clients (svc st) → (c2, x2) ∈ clients (svc st) →
  userOf st c1 = Some u1 → userOf st c2 = Some u2 →
  isLecturerEmail (email u1) = true → isLecturerEmail (email u2) = true →
  c1 = c2.
Proof.
  intros Hr H1 H2 Hu1 Hu2 Hl1 Hl2.
  destruct (reachable_Inv2 _ Hr) as (_ & (_ & HL2) & _).
  apply (HL2 c1 c2 u1 u2); try done; apply list_elem_of_fmap; by eexists (_, _).
Qed.

Lemma at_most_one_lecturer_registered_witness :
  reachable classroom ∧ userOf classroom 0 = Some lecturer ∧
  isLecturerEmail (email lecturer) = true ∧ (0 = 0)%nat.
Proof.
  split; [apply classroom_reachable|]. split; [vm_compute; reflexivity|].
  split; [vm_compute; reflexivity|].
  apply (at_most_one_lecturer_registered classroom 0 0 "host" "host" lecturer lecturer);
    try apply classroom_reachable; try (vm_compute; reflexivity);
    vm_compute; repeat constructor.
Defined.

(** X7. [findClientByUid] finds every live connection: in a reachable state
    an open, admitted socket is the one the lookup of its user's uid
    returns. *)
Theorem open_socket_is_found_by_uid st ws u :
  reachable st → isOpen st ws = true → userOf st ws = Some u →
  findClientByUid st (uid u) = Some ws.
Proof.
  intros Hr Ho Hu. apply open_found; [by apply reachable_Inv|by apply reachable_Inv2|done|done].
Qed.

Lemma open_socket_is_found_by_uid_witness :
  reachable classroom ∧ isOpen classroom 2 = true ∧ userOf classroom 2 = Some bob ∧
  findClientByUid classroom (uid bob) = Some 2%nat.
Proof.
  split; [apply classroom_reachable|]. split; [vm_compute; reflexivity|].
  split; [vm_compute; reflexivity|].
  apply (open_socket_is_found_by_uid classroom 2 bob);
    [apply classroom_reachable|vm_compute; reflexivity|vm_compute; reflexivity].
Defined.

(** X8. No dangling reference: once the close event of a socket was
    handled, the socket is in no field of the service - not in the registry,
    not the speaker, not in the request queue, not the host - in any state
    reached afterwards. *)
Theorem closed_socket_is_unreferenced st ws :
  reachable st → isClosed st ws = true →
  ws ∉ (clients (svc st)).*1 ∧ speaker (svc st) ≠ Some ws ∧
  ws ∉ requestQueue (svc st) ∧ hostWs (svc st) ≠ Some ws.
Proof.
  intros Hr Hc. destruct (reachable_Inv2 _ Hr) as (_ & _ & _ & HC & _). by apply HC.
Qed.

Lemma closed_socket_is_unreferenced_witness :
  reachable hostGone ∧ isClosed hostGone 0 = true ∧
  0%nat ∉ (clients (svc hostGone)).*1 ∧ speaker (svc hostGone) ≠ Some 0%nat ∧
  0%nat ∉ requestQueue (svc hostGone) ∧ hostWs (svc hostGone) ≠ Some 0%nat.
Proof.
  split; [apply hostGone_reachable|]. split; [vm_compute; reflexivity|].
  apply (closed_socket_is_unreferenced hostGone 0);
    [apply hostGone_reachable|vm_compute; reflexivity].
Defined.

(** ** The floor, message by message *)

(** X9. A request on an idle floor is granted at once: in an active
    session with an empty speaker slot, request-to-speak from any admitted
    connection makes it the speaker and takes it out of the request queue
    (the others keep their order); the grant is logged, acknowledged to the
    sender if its socket is open, and the new speaker is broadcast to every
    open socket. *)
Theorem request_on_idle_floor_is_granted now st c :
  reachable st → enabled now (Message c RequestToSpeak) st = true →
  isSessionActive (svc st) = true → speaker (svc st) = None →
  ∃ u st' eff,
    userOf st c = Some u ∧
    step now (Message c RequestToSpeak) st = Some (tt, st', eff) ∧
    speaker (svc st') = Some c ∧
    requestQueue (svc st') = filter (λ w, w ≠ c) (requestQueue (svc st)) ∧
    clients (svc st') = clients (svc st) ∧ hostWs (svc st') = hostWs (svc st) ∧
    Stats (LogEvent SPEAK_GRANTED (uid u)) ∈ eff ∧
    (isOpen st c = true → Send c SystemSpeakGranted ∈ eff) ∧
    (∀ w, isOpen st w = true → Send w (SystemSpeakerUpdate (Some u)) ∈ eff).
Proof.
  intros Hr Hen Hact Hsp.
  pose proof (reachable_Inv _ Hr) as HI.
  destruct (enabled_message _ _ _ _ Hen) as [_ [u Hu]].
  destruct HI as ((_ & _ & HU3 & _) & HA & _). destruct (HA Hact) as [h Hh].
  destruct (grantMic_run c u st Hu HU3)
    as (st' & eff & Hg & Hrt & Hs' & Hq' & Hc' & Hh' & _ & _ & _ & Heff).
  exists u, st', (Stats (LogEvent REQUEST_TO_SPEAK (uid u)) :: eff).
  split; [done|]. split.
  { rewrite enabled_step by done. cbn [fire handleMessage].
    fwd this_run. rewrite Hact. erewrite bind_run by (by apply theUser_run).
    cbv beta iota. fwd emit_run. unfold handleRequestToSpeak.
    fwd this_run. rewrite Hh, Hsp, Hg. done. }
  repeat (split; [done|]). subst eff. split; [|split].
  - apply list_elem_of_further, elem_of_app. right. apply elem_of_app. right.
    apply list_elem_of_here.
  - intros Ho. apply list_elem_of_further, elem_of_app. right. apply elem_of_app. left.
    by apply elem_of_sendEffects.
  - intros w Ho. apply list_elem_of_further, elem_of_app. right. apply elem_of_app. right.
    apply list_elem_of_further. apply elem_of_broadcastEffects; [|done].
    by apply reachable_openListed.
Qed.

Lemma request_on_idle_floor_is_granted_witness :
  reachable (after [(6, Message 1 ReleaseFloor)] classroom) ∧
  requestQueue (svc (after [(6, Message 1 ReleaseFloor)] classroom)) = [2%nat] ∧
  ∃ u st' eff,
    userOf (after [(6, Message 1 ReleaseFloor)] classroom) 2 = Some u ∧
    step 7 (Message 2 RequestToSpeak) (after [(6, Message 1 ReleaseFloor)] classroom) =
      Some (tt, st', eff) ∧
    speaker (svc st') = Some 2%nat ∧ requestQueue (svc st') = [].
Proof.
  assert (Hr : reachable (after [(6, Message 1 ReleaseFloor)] classroom)).
  { apply after_reachable; [apply classroom_reachable|vm_compute; eauto]. }
  split; [done|]. split; [vm_compute; reflexivity|].
  destruct (request_on_idle_floor_is_granted 7
              (after [(6, Message 1 ReleaseFloor)] classroom) 2 Hr)
    as (u & st' & eff & Hu & Hs & Hsp & Hq & _); try (vm_compute; reflexivity).
  exists u, st', eff. repeat (split; [done|]). rewrite Hq. vm_compute. reflexivity.
Defined.

(** X10. A request on a busy floor queues the sender once, at the tail: in
    an active session whose speaker is another connection, request-to-speak
    leaves the speaker alone and appends the sender to the request queue
    unless it is already there, in which case the queue is unchanged and no
    acknowledgement is sent; either way the host is sent a
    system-student-request toast. *)
Theorem request_on_busy_floor_queues_once now st c sp :
  reachable st → enabled now (Message c RequestToSpeak) st = true →
  isSessionActive (svc st) = true → speaker (svc st) = Some sp → sp ≠ c →
  ∃ u st' eff,
    userOf st c = Some u ∧
    step now (Message c RequestToSpeak) st = Some (tt, st', eff) ∧
    rt st' = rt st ∧ speaker (svc st') = Some sp ∧
    requestQueue (svc st') =
      (if bool_decide (c ∈ requestQueue (svc st)) then requestQueue (svc st)
       else requestQueue (svc st) ++ [c]) ∧
    clients (svc st') = clients (svc st) ∧ hostWs (svc st') = hostWs (svc st) ∧
    (c ∉ requestQueue (svc st) → isOpen st c = true →
     Send c SystemRequestAcknowledged ∈ eff) ∧
    (c ∈ requestQueue (svc st) → ∀ w, Send w SystemRequestAcknowledged ∉ eff) ∧
    (∀ h, hostWs (svc st) = Some h → isOpen st h = true →
          Send h (SystemStudentRequest (uid u) (name u) (email u)) ∈ eff).
Proof.
  intros Hr Hen Hact Hsp Hne.
  pose proof (reachable_Inv _ Hr) as HI.
  destruct (enabled_message _ _ _ _ Hen) as [_ [u Hu]].
  destruct HI as ((_ & _ & HU3 & _) & HA & _). destruct (HA Hact) as [h Hh].
  exists u. rewrite enabled_step by done. cbn [fire handleMessage].
  fwd this_run. rewrite Hact. erewrite bind_run by (by apply theUser_run).
  cbv beta iota. fwd emit_run. unfold handleRequestToSpeak.
  fwd this_run. rewrite Hh, Hsp. rewrite decide_False by done.
  destruct (bool_decide (c ∈ requestQueue (svc st))) eqn:Hin.
  - apply bool_decide_eq_true in Hin.
    erewrite bind_run by reflexivity. cbv beta iota. fwd this_run. rewrite Hh.
    erewrite bind_run by (by apply theUser_run). cbv beta iota. rewrite send_run.
    eexists _, _. split; [done|]. split; [reflexivity|]. cbn [app].
    repeat (split; [done|]). split.
    + intros _ w Hw. apply elem_of_cons in Hw as [Hw|Hw]; [done|].
      by apply elem_of_sendEffects_inv in Hw.
    + intros h' [= <-] Ho. apply list_elem_of_further. by apply elem_of_sendEffects.
  - apply bool_decide_eq_false in Hin.
    erewrite (bind_run (update _ ;; broadcastRequestQueue ;; send _ _)).
    2:{ fwd update_run. erewrite bind_run.
        2:{ apply broadcastRequestQueue_run. cbn. intros w Hw.
            apply elem_of_app in Hw as [Hw|Hw]; [by apply HU3|].
            apply list_elem_of_singleton in Hw as ->. unfold userOf in *. cbn. by rewrite Hu. }
        cbv beta iota. rewrite send_run. reflexivity. }
    cbv beta iota. fwd this_run. cbn [svc hostWs set_requestQueue]. rewrite Hh.
    erewrite bind_run by (by apply theUser_run). cbv beta iota. rewrite send_run.
    eexists _, _. split; [done|]. split; [reflexivity|]. cbn [app].
    repeat (split; [done|]). split; [|split; [done|]].
    + intros _ Ho. apply list_elem_of_further.
      apply elem_of_app. left. apply elem_of_app. right. by apply elem_of_sendEffects.
    + intros h' [= <-] Ho. apply list_elem_of_further.
      apply elem_of_app. right. by apply elem_of_sendEffects.
Qed.

Lemma request_on_busy_floor_queues_once_witness :
  reachable classroom ∧ requestQueue (svc classroom) = [2%nat] ∧
  ∃ u st' eff,
    userOf classroom 2 = Some u ∧
    step 6 (Message 2 RequestToSpeak) classroom = Some (tt, st', eff) ∧
    speaker (svc st') = Some 1%nat ∧ requestQueue (svc st') = [2%nat].
Proof.
  split; [apply classroom_reachable|]. split; [vm_compute; reflexivity|].
  destruct (request_on_busy_floor_queues_once 6 classroom 2 1 classroom_reachable)
    as (u & st' & eff & Hu & Hs & _ & Hsp & Hq & _);
    try (vm_compute; reflexivity); [vm_compute; lia|].
  exists u, st', eff. repeat (split; [done|]). rewrite Hq. vm_compute. reflexivity.
Defined.

(** X11. cancel-request takes the sender out of the request queue and
    nothing else: the other entries keep their order, the speaker, the
    registry and the host are untouched; the sender, if its socket is open,
    is sent system-request-cancelled. From a sender that is not queued the
    message changes nothing and writes nothing. *)
Theorem cancel_request_removes_only_sender now st c :
  reachable st → enabled now (Message c CancelRequest) st = true →
  ∃ st' eff,
    step now (Message c CancelRequest) st = Some (tt, st', eff) ∧
    rt st' = rt st ∧
    requestQueue (svc st') = filter (λ w, w ≠ c) (requestQueue (svc st)) ∧
    speaker (svc st') = speaker (svc st) ∧ clients (svc st') = clients (svc st) ∧
    hostWs (svc st') = hostWs (svc st) ∧
    (c ∉ requestQueue (svc st) → st' = st ∧ eff = []) ∧
    (c ∈ requestQueue (svc st) → isOpen st c = true → Send c SystemRequestCancelled ∈ eff).
Proof.
  intros Hr Hen.
  destruct (reachable_Inv _ Hr) as ((_ & _ & HU3 & _) & _).
  rewrite enabled_step by done. cbn [fire handleMessage]. unfold handleCancelRequest.
  fwd this_run. destruct (bool_decide (c ∈ requestQueue (svc st))) eqn:Hin.
  - apply bool_decide_eq_true in Hin. fwd update_run. erewrite bind_run.
    2:{ apply broadcastRequestQueue_run. cbn. intros w Hw.
        apply list_elem_of_filter in Hw as [_ Hw]. by apply HU3. }
    cbv beta iota. rewrite send_run.
    eexists _, _. split; [reflexivity|]. cbn [app]. repeat (split; [done|]).
    intros _ Ho. apply elem_of_app. right. by apply elem_of_sendEffects.
  - apply bool_decide_eq_false in Hin.
    eexists _, _. split; [reflexivity|]. split; [done|].
    split; [by rewrite filter_absent|]. repeat (split; [done|]). done.
Qed.

Lemma cancel_request_removes_only_sender_witness :
  reachable classroom ∧ enabled 6 (Message 2 CancelRequest) classroom = true ∧
  requestQueue (svc classroom) = [2%nat] ∧
  ∃ st' eff,
    step 6 (Message 2 CancelRequest) classroom = Some (tt, st', eff) ∧
    requestQueue (svc st') = [].
Proof.
  split; [apply classroom_reachable|]. split; [vm_compute; reflexivity|].
  split; [vm_compute; reflexivity|].
  destruct (cancel_request_removes_only_sender 6 classroom 2 classroom_reachable)
    as (st' & eff & Hs & _ & Hq & _); [vm_compute; reflexivity|].
  exists st', eff. split; [done|]. rewrite Hq. vm_compute. reflexivity.
Defined.

(** ** Who may do what *)

(** X13. The host-only messages (admin-kick-user, admin-remove-request,
    admin-toggle-session, admin-release-floor, admin-unkick-user,
    admin-grant-floor, webrtc-answer) are ignored from any connection that is
    not the registered host, with or without a payload: no state change, no
    effect. *)
Theorem host_only_message_from_other_is_ignored now st c m :
  enabled now (Message c m) st = true → hostOnly m = true →
  hostWs (svc st) ≠ Some c →
  step now (Message c m) st = Some (tt, st, []).
Proof.
  intros Hen Hm Hh. rewrite enabled_step by done. cbn [fire].
  destruct m; try discriminate Hm; cbn [handleMessage];
    fwd this_run; try (by rewrite decide_False).
  destruct type; try discriminate Hm; by rewrite decide_False.
Qed.

Lemma host_only_message_from_other_is_ignored_witness :
  enabled 6 (Message 1 (AdminKickUser "b")) classroom = true ∧
  hostWs (svc classroom) = Some 0%nat ∧
  step 6 (Message 1 (AdminKickUser "b")) classroom = Some (tt, classroom, []).
Proof.
  split; [vm_compute; reflexivity|]. split; [vm_compute; reflexivity|].
  apply (host_only_message_from_other_is_ignored 6 classroom 1 (AdminKickUser "b"));
    [vm_compute; reflexivity|reflexivity|vm_compute; congruence].
Defined.

(** X14. register-as-host is open to every admitted connection: whoever
    sends it - a student as well as a lecturer, and while another host is
    registered - becomes the host; the session becomes active, a pending
    shutdown is cancelled, every open socket is told that the session is
    active, and the registry, the speaker, the request queue and the ban set
    are left alone. *)
Theorem any_connection_can_register_as_host now st c :
  reachable st → enabled now (Message c RegisterAsHost) st = true →
  ∃ st' eff,
    step now (Message c RegisterAsHost) st = Some (tt, st', eff) ∧
    hostWs (svc st') = Some c ∧ isSessionActive (svc st') = true ∧
    shutdownTimer (svc st') = None ∧ timers (rt st') = [] ∧
    clients (svc st') = clients (svc st) ∧ speaker (svc st') = speaker (svc st) ∧
    requestQueue (svc st') = requestQueue (svc st) ∧
    bannedUids (svc st') = bannedUids (svc st) ∧
    (∀ w, isOpen st w = true → Send w (SystemSessionStatus true) ∈ eff).
Proof.
  intros Hr Hen. pose proof (reachable_Inv _ Hr) as HI.
  destruct (step_progress now _ st HI Hen eq_refl) as [[[[] st'] eff] Hstep].
  exists st', eff. split; [done|].
  rewrite enabled_step in Hstep by done. cbn [fire] in Hstep.
  pose proof (handleMessage_timers _ _ _ _ _ _ Hstep) as (_ & _ & Ht & Hs & Hh).
  destruct HI as (_ & _ & _ & HT1 & _).
  assert (Htm : timers (rt st') = []).
  { rewrite Ht. destruct (shutdownTimer (svc st)) as [t|] eqn:Hsh.
    - apply filter_none. intros [t' d] Hin. cbn. apply HT1 in Hin. intros Hne. congruence.
    - destruct (timers (rt st)) as [|[t' d] l]; [done|].
      specialize (HT1 t' d (list_elem_of_here _ _)). congruence. }
  assert (Hb : ∀ w, isOpen st w = true → Send w (SystemSessionStatus true) ∈ eff).
  { intros w Ho. pose proof (reachable_openListed _ Hr _ Ho) as Hl.
    cbn [handleMessage] in Hstep. xinv.
    all: in_effects ltac:(apply elem_of_broadcastEffects; st_simpl; done). }
  repeat (split; [done|]). cbn [handleMessage] in Hstep. minv; st_simpl; done.
Qed.

Lemma any_connection_can_register_as_host_witness :
  reachable classroom ∧ userOf classroom 1 = Some alice ∧
  isLecturerEmail (email alice) = false ∧ hostWs (svc classroom) = Some 0%nat ∧
  ∃ st' eff,
    step 6 (Message 1 RegisterAsHost) classroom = Some (tt, st', eff) ∧
    hostWs (svc st') = Some 1%nat.
Proof.
  split; [apply classroom_reachable|]. split; [vm_compute; reflexivity|].
  split; [vm_compute; reflexivity|]. split; [vm_compute; reflexivity|].
  destruct (any_connection_can_register_as_host 6 classroom 1 classroom_reachable)
    as (st' & eff & Hs & Hh & _); [vm_compute; reflexivity|].
  exists st', eff. split; [exact Hs|exact Hh].
Defined.

(** X22. A uid that has no open connection cannot be banned:
    admin-kick-user from the host for such a uid records no ban and closes
    nothing; all it does is send the host the unchanged banned list. *)
Theorem kick_of_absent_uid_bans_nobody now st h t :
  enabled now (Message h (AdminKickUser t)) st = true →
  hostWs (svc st) = Some h → findClientByUid st t = None →
  step now (Message h (AdminKickUser t)) st =
    Some (tt, st, sendEffects st h (SystemBannedList (bannedUids (svc st)).*2)).
Proof.
  intros Hen Hh Hf. rewrite enabled_step by done. cbn [fire handleMessage].
  fwd this_run. rewrite decide_True by done. unfold handleAdminKick.
  fwd get_run. rewrite Hf. cbn [mbind option_bind].
  erewrite bind_run by reflexivity. cbv beta iota.
  fwd broadcastBannedList_run. unfold bannedListEffects. rewrite Hh.
  cbv [skip mret M_ret]. by rewrite app_nil_r.
Qed.

Lemma kick_of_absent_uid_bans_nobody_witness :
  enabled 6 (Message 0 (AdminKickUser "zed")) classroom = true ∧
  step 6 (Message 0 (AdminKickUser "zed")) classroom =
    Some (tt, classroom, [Send 0 (SystemBannedList [])]).
Proof.
  split; [vm_compute; reflexivity|].
  rewrite (kick_of_absent_uid_bans_nobody 6 classroom 0 "zed");
    vm_compute; reflexivity.
Defined.

(** X12. Single-lecturer admission: when a lecturer connects while the
    registry holds a lecturer's socket other than the open socket of the same
    uid (which is replaced), the newcomer is refused - it is told that a
    lecturer is already in the session, its socket is closed and never
    registered - and the registered lecturer, the host, the speaker, the
    request queue and the session flag stay as they were. *)
Theorem second_lecturer_is_refused now st ws u c x usr :
  reachable st → enabled now (Connection ws u) st = true →
  mapHas (uid u) (bannedUids (svc st)) = false →
  isLecturerEmail (email u) = true →
  (c, x) ∈ clients (svc st) → userOf st c = Some usr →
  isLecturerEmail (email usr) = true →
  findClientByUid st (uid u) ≠ Some c →
  ∃ st' eff,
    step now (Connection ws u) st = Some (tt, st', eff) ∧
    Send ws (SystemError
               "A lecturer is already in the session. Only one lecturer is allowed.") ∈ eff ∧
    Close ws ∈ eff ∧
    userOf st' ws = None ∧ isOpen st' ws = false ∧ ws ∉ (clients (svc st')).*1 ∧
    (c, x) ∈ clients (svc st') ∧ userOf st' c = Some usr ∧
    hostWs (svc st') = hostWs (svc st) ∧ speaker (svc st') = speaker (svc st) ∧
    requestQueue (svc st') = requestQueue (svc st) ∧
    isSessionActive (svc st') = isSessionActive (svc st).
Proof.
  intros Hr Hen Hban Hlec Hin Hu Hl Hf.
  pose proof (reachable_Inv _ Hr) as HI.
  pose proof (enabled_connection _ _ _ _ Hen) as [_ Hnew].
  pose proof (Inv_acceptSocket ws st HI Hnew) as HI1.
  pose proof (findClientByUid_accept ws st (uid u) HI Hnew) as Hfa.
  destruct (openIn_user_None _ _ Hnew) as [_ Hnone].
  assert (Hcw : c ≠ ws).
  { intros ->. unfold userOf in Hu. congruence. }
  set (st1 := mkState (svc st) (acceptSocket ws (rt st))) in *.
  assert (Hhost : hostWs (svc st1) ≠ Some ws).
  { intros Hh. destruct HI1 as ((_ & _ & _ & HU4) & _). destruct (HU4 _ Hh) as [y Hy].
    unfold st1 in Hy. st_simpl. by rewrite decide_True in Hy. }
  assert (Hwfresh : ws ∉ (clients (svc st)).*1).
  { intros Hw. apply list_elem_of_fmap in Hw as ([w y] & -> & Hw). cbn in *.
    destruct HI as ((HU1 & _) & _). apply HU1 in Hw as (? & ? & _).
    unfold userOf in *. congruence. }
  assert (Hkeep : (c, x) ∈ clients (svc (dropDuplicate (uid u) st1)) ∧
                  userOf (dropDuplicate (uid u) st1) c = Some usr ∧
                  ws ∉ (clients (svc (dropDuplicate (uid u) st1))).*1 ∧
                  isOpen (dropDuplicate (uid u) st1) ws = true).
  { unfold dropDuplicate. rewrite Hfa.
    destruct (findClientByUid st (uid u)) as [ex|] eqn:Hex.
    - apply findClientByUid_Some in Hex as [Hexin _].
      assert (ex ≠ ws).
      { intros ->. apply Hwfresh. apply list_elem_of_fmap. by exists (ws, uid u). }
      unfold st1. st_simpl. rewrite decide_False by done.
      split; [apply elem_of_mapDelete; split; [done|]; cbn; congruence|].
      split; [done|]. split.
      + intros Hw. apply elem_of_keys_mapDelete in Hw as [Hw _]. done.
      + rewrite decide_False by done. by rewrite decide_True.
    - unfold st1. st_simpl. rewrite decide_False by done.
      split; [done|]. split; [done|]. split; [done|]. by rewrite decide_True. }
  destruct Hkeep as (Hk1 & Hk2 & Hk3 & Hk4).
  assert (Hany : anyLecturerClient (dropDuplicate (uid u) st1) = true).
  { unfold anyLecturerClient. apply existsb_exists. exists (c, x).
    split; [by apply list_elem_of_In|]. by rewrite Hk2. }
  destruct (dropDuplicate_frame (uid u) st1) as (_ & Hus & _ & _ & Hsp & Hq & Hh).
  assert (Hact : isSessionActive (svc (dropDuplicate (uid u) st1)) = isSessionActive (svc st)).
  { unfold dropDuplicate. by destruct (findClientByUid st1 (uid u)). }
  rewrite enabled_step by done. cbn [fire]. erewrite bind_run by reflexivity.
  cbv beta iota. change (mkState (svc st) (acceptSocket ws (rt st))) with st1.
  rewrite handleConnection_run by done. rewrite Hlec, Hany. cbn [andb].
  eexists _, _. split; [reflexivity|]. cbn [app svc rt].
  split; [in_effects ltac:(by apply elem_of_sendEffects)|].
  split; [in_effects ltac:(done)|].
  unfold userOf, isOpen in *. cbn [rt]. rewrite userIn_closeSocket, openIn_closeSocket.
  rewrite decide_True by done. rewrite (Hus ws). unfold st1 at 1. cbn [rt].
  rewrite userIn_acceptSocket, decide_True by done.
  split; [done|]. split; [done|]. split; [done|]. split; [done|].
  split; [by rewrite userIn_closeSocket|]. by rewrite Hh, Hsp, Hq, Hact.
Qed.

Lemma second_lecturer_is_refused_witness :
  reachable classroom ∧
  enabled 6 (Connection 3 (mkUser "host2" "Second" "second@um.edu.my" None)) classroom = true ∧
  ∃ st' eff,
    step 6 (Connection 3 (mkUser "host2" "Second" "second@um.edu.my" None)) classroom =
      Some (tt, st', eff) ∧
    3%nat ∉ (clients (svc st')).*1 ∧ hostWs (svc st') = hostWs (svc classroom).
Proof.
  split; [apply classroom_reachable|]. split; [vm_compute; reflexivity|].
  destruct (second_lecturer_is_refused 6 classroom 3
              (mkUser "host2" "Second" "second@um.edu.my" None) 0 "host" lecturer
              classroom_reachable)
    as (st' & eff & Hs & _ & _ & _ & _ & Hc & _ & _ & Hh & _);
    try (vm_compute; reflexivity).
  - vm_compute. repeat constructor.
  - vm_compute. congruence.
  - exists st', eff. split; [exact Hs|]. split; [exact Hc|exact Hh].
Defined.

(** ** The ban set *)

Lemma enabled_after_close now now' h m m' s c st :
  enabled now (Message h m) st = true →
  enabled now' (Message h m') (mkState s (closeSocket c (rt st))) = true.
Proof.
  unfold enabled, closeSocket. cbn. intros H. apply andb_true_iff in H as [-> H]. cbn.
  destruct (decide (c = h)) as [->|Hne].
  - rewrite lookup_alter_eq. by destruct (sockets (rt st) !! h) as [[[] [?|]]|].
  - by rewrite lookup_alter_ne.
Qed.

Lemma kick_shape now st h t target st1 e1 :
  Inv st → hostWs (svc st) = Some h → findClientByUid st t = Some target →
  handleMessage now h (AdminKickUser t) st = Some (tt, st1, e1) →
  (∃ v, bannedUids (svc st1) = mapSet t v (bannedUids (svc st))) ∧
  rt st1 = closeSocket target (rt st) ∧ hostWs (svc st1) = Some h ∧
  clients (svc st1) = clients (svc st) ∧
  requestQueue (svc st1) = requestQueue (svc st) ∧
  Close target ∈ e1.
Proof.
  intros HI Hh Hf H. cbn [handleMessage] in H. unfold handleAdminKick, wsClose in H.
  pose proof (findClientByUid_Some _ _ _ Hf) as [Hin _].
  destruct HI as ((HU1 & _) & _). destruct (HU1 _ _ Hin) as (usr & Husr & _).
  xinv; st_simpl; simplify_eq.
  all: try (cbn in *; congruence).
  all: repeat split; try done; try (by eexists).
  all: in_effects ltac:(done).
Qed.

Lemma mapHas_delete_set {V} (t x : string) (v : V) (m : list (string * V)) :
  mapHas t m = false → mapHas x (mapDelete t (mapSet t v m)) = mapHas x m.
Proof.
  intros Hn. apply Bool.eq_iff_eq_true. rewrite mapHas_mapDelete, mapHas_mapSet.
  split; [intros [Hne [?|?]]; done|]. intros Hx. split; [|by right].
  intros ->. congruence.
Qed.

(** X15. Kick, then unkick: admin-kick-user from the host for a connected
    uid puts it in the ban set and closes its socket; admin-unkick-user for
    the same uid afterwards leaves the ban set with exactly the members it
    had before the kick. The socket stays closed and the registry is not
    touched: lifting the ban does not bring the connection back. *)
Theorem kick_then_unkick_restores_ban_set n1 n2 st h t target :
  reachable st → hostWs (svc st) = Some h →
  enabled n1 (Message h (AdminKickUser t)) st = true →
  findClientByUid st t = Some target →
  ∃ st1 e1 st2 e2,
    step n1 (Message h (AdminKickUser t)) st = Some (tt, st1, e1) ∧
    mapHas t (bannedUids (svc st1)) = true ∧ Close target ∈ e1 ∧
    step n2 (Message h (AdminUnkickUser t)) st1 = Some (tt, st2, e2) ∧
    (∀ x, mapHas x (bannedUids (svc st2)) = mapHas x (bannedUids (svc st))) ∧
    isOpen st2 target = false ∧ clients (svc st2) = clients (svc st).
Proof.
  intros Hr Hh Hen Hf. pose proof (reachable_Inv _ Hr) as HI.
  assert (Hnb : mapHas t (bannedUids (svc st)) = false).
  { destruct (mapHas t (bannedUids (svc st))) eqn:Hb; [|done].
    apply findClientByUid_Some in Hf as [Hin Ho].
    destruct HI as (_ & _ & (_ & HR2) & _). rewrite (HR2 _ _ Hin Hb) in Ho. done. }
  destruct (step_progress n1 _ st HI Hen eq_refl) as [[[[] st1] e1] Hstep1].
  exists st1, e1. pose proof Hstep1 as Hk. rewrite enabled_step in Hk by done.
  cbn [fire] in Hk.
  destruct (kick_shape _ _ _ _ _ _ _ HI Hh Hf Hk) as ([v Hb1] & Hrt1 & Hh1 & Hc1 & _ & Hcl).
  assert (Hen2 : enabled n2 (Message h (AdminUnkickUser t)) st1 = true).
  { destruct st1 as [s1 r1]. cbn in Hrt1. subst r1. by eapply enabled_after_close. }
  assert (Hb1' : mapHas t (bannedUids (svc st1)) = true).
  { rewrite Hb1. apply mapHas_mapSet. by left. }
  eexists _, _. split; [done|]. split; [done|]. split; [done|].
  rewrite enabled_step by done. cbn [fire handleMessage].
  fwd this_run. rewrite decide_True by done. rewrite Hb1'.
  fwd update_run. rewrite broadcastBannedList_run.
  split; [reflexivity|]. cbn [svc rt bannedUids set_bannedUids clients].
  split; [|split; [|done]].
  - intros x. rewrite Hb1. by apply mapHas_delete_set.
  - unfold isOpen. cbn [rt]. rewrite Hrt1, openIn_closeSocket. by rewrite decide_True.
Qed.

Lemma kick_then_unkick_restores_ban_set_witness :
  reachable classroom ∧ hostWs (svc classroom) = Some 0%nat ∧
  findClientByUid classroom "b" = Some 2%nat ∧
  ∃ st1 e1 st2 e2,
    step 6 (Message 0 (AdminKickUser "b")) classroom = Some (tt, st1, e1) ∧
    mapHas "b" (bannedUids (svc st1)) = true ∧
    step 7 (Message 0 (AdminUnkickUser "b")) st1 = Some (tt, st2, e2) ∧
    mapHas "b" (bannedUids (svc st2)) = false ∧ isOpen st2 2 = false.
Proof.
  split; [apply classroom_reachable|]. split; [vm_compute; reflexivity|].
  split; [vm_compute; reflexivity|].
  destruct (kick_then_unkick_restores_ban_set 6 7 classroom 0 "b" 2 classroom_reachable)
    as (st1 & e1 & st2 & e2 & H1 & Hb & _ & H2 & Hx & Ho & _);
    try (vm_compute; reflexivity).
  exists st1, e1, st2, e2. split; [exact H1|]. split; [exact Hb|]. split; [exact H2|].
  split; [|exact Ho]. rewrite Hx. vm_compute. reflexivity.
Defined.

Lemma handleMessage_ban_kept now ws m st st' eff t :
  handleMessage now ws m st = Some (tt, st', eff) →
  mapHas t (bannedUids (svc st)) = true →
  ¬ (hostWs (svc st) = Some ws ∧ m = AdminUnkickUser t) →
  mapHas t (bannedUids (svc st')) = true.
Proof.
  intros H Hb Hno.
  destruct m; cbn [handleMessage] in H; unfold_handlers H; minv; st_simpl; try done.
  - apply mapHas_mapSet. by right.
  - apply mapHas_mapSet. by right.
  - apply mapHas_mapDelete. split; [|done]. intros ->. apply Hno. split; [|done].
    by case_decide.
Qed.

(** X19. A ban lasts: once a uid is in the ban set it stays there through
    every run of events in which the host does not send admin-unkick-user
    for that uid - whatever else happens, including the host leaving and
    another host registering - and at the end of such a run a connection
    with that uid is still turned away with the kicked notice. *)
Theorem ban_lasts_until_unkicked t es : ∀ st st' eff,
  mapHas t (bannedUids (svc st)) = true →
  Forall (λ e, ∀ h, e.2 ≠ Message h (AdminUnkickUser t)) es →
  run es st = Some (tt, st', eff) →
  mapHas t (bannedUids (svc st')) = true ∧
  ∀ now ws u, uid u = t → enabled now (Connection ws u) st' = true →
    ∃ st'', step now (Connection ws u) st' =
              Some (tt, st'', [Send ws (SystemError "You have been kicked from this session.");
                               Close ws]) ∧
            svc st'' = svc st'.
Proof.
  induction es as [|[now ev] es IH]; intros st st' eff Hb Hall Hrun.
  - cbv [run skip mret M_ret] in Hrun. simplify_eq. split; [done|].
    intros now ws u <- Hen. eexists. split; [by apply admission_of_banned_run|done].
  - apply run_inv_cons in Hrun as (st1 & e1 & e2 & H1 & H2 & ->).
    apply Forall_cons in Hall as [Hev Hall]. cbn [snd] in Hev.
    apply (IH st1 st' e2); [|done|done].
    apply step_inv in H1 as [Hen H1]. destruct ev as [ws u|ws m|ws|t0]; cbn [fire] in H1.
    + apply bind_inv in H1 as (a & s & x1 & x2 & Ha & Hc & ->). minv_prim Ha.
      apply handleConnection_shape in Hc as [[_ ->]|[[_ ->]|[_ ->]]]; cbn [svc]; [done|..].
      * by destruct (dropDuplicate_frame (uid u) (mkState (svc st) (acceptSocket ws (rt st))))
          as (_ & _ & _ & -> & _).
      * unfold admission. cbn.
        by destruct (dropDuplicate_frame (uid u) (mkState (svc st) (acceptSocket ws (rt st))))
          as (_ & _ & _ & -> & _).
    + eapply handleMessage_ban_kept; [done|done|]. intros [_ ->]. by apply (Hev ws).
    + apply bind_inv in H1 as (a & s & x1 & x2 & Ha & Hc & ->). minv_prim Ha.
      apply handleDisconnect_shape in Hc as (_ & _ & -> & _). done.
    + unfold processExit in H1. minv. done.
Qed.

Lemma ban_lasts_until_unkicked_witness :
  mapHas "b" (bannedUids (svc bobKicked)) = true ∧
  ∃ st' eff,
    run [(7, Closed 2); (8, Closed 0); (9, Connection 3 alice);
         (10, Message 1 RegisterAsHost)] bobKicked = Some (tt, st', eff) ∧
    mapHas "b" (bannedUids (svc st')) = true.
Proof.
  split; [vm_compute; reflexivity|].
  destruct (run [(7, Closed 2); (8, Closed 0); (9, Connection 3 alice);
                 (10, Message 1 RegisterAsHost)] bobKicked) as [[[[] st'] eff]|] eqn:Hrun;
    [|vm_compute in Hrun; discriminate Hrun].
  exists st', eff. split; [reflexivity|].
  apply (ban_lasts_until_unkicked "b"
           [(7, Closed 2); (8, Closed 0); (9, Connection 3 alice);
            (10, Message 1 RegisterAsHost)] bobKicked st' eff);
    [vm_compute; reflexivity| |exact Hrun].
  repeat constructor; cbn; intros h; discriminate.
Defined.

(** ** Queue moderation *)

(** X16. admin-remove-request from the host for a uid only takes entries
    out of the request queue, keeping the order of the rest; afterwards no
    open connection of that uid waits in the queue, every entry of another
    uid is still there, and the connection that was removed is sent
    system-request-removed. The speaker and the registry are not touched. *)
Theorem admin_remove_request_clears_uid now st h t :
  reachable st → hostWs (svc st) = Some h →
  enabled now (Message h (AdminRemoveRequest t)) st = true →
  ∃ st' eff,
    step now (Message h (AdminRemoveRequest t)) st = Some (tt, st', eff) ∧
    rt st' = rt st ∧
    requestQueue (svc st') `sublist_of` requestQueue (svc st) ∧
    (∀ c u, c ∈ requestQueue (svc st') → userOf st c = Some u → uid u = t →
            isOpen st c = false) ∧
    (∀ c u, c ∈ requestQueue (svc st) → userOf st c = Some u → uid u ≠ t →
            c ∈ requestQueue (svc st')) ∧
    speaker (svc st') = speaker (svc st) ∧ clients (svc st') = clients (svc st) ∧
    (∀ c, findClientByUid st t = Some c → Send c SystemRequestRemoved ∈ eff).
Proof.
  intros Hr Hh Hen. pose proof (reachable_Inv _ Hr) as HI.
  pose proof (reachable_Inv2 _ Hr) as HI2.
  destruct (step_progress now _ st HI Hen eq_refl) as [[[[] st'] eff] Hstep].
  exists st', eff. split; [done|].
  rewrite enabled_step in Hstep by done. cbn [fire handleMessage] in Hstep.
  unfold handleAdminRemoveRequest in Hstep. xinv; try done; st_simpl.
  - (* the uid has an open connection *)
    match goal with Hf : findClientByUid _ _ = Some ?n |- _ =>
      rename n into target; rename Hf into Hfind end.
    split; [done|]. split; [apply sublist_filter|]. split; [|split; [|split; [done|split; [done|]]]].
    + intros c u Hc Hu Ht. apply list_elem_of_filter in Hc as [Hne _].
      destruct (openIn (rt st) c) eqn:Ho; [|done]. exfalso. apply Hne.
      pose proof (open_found st c u HI HI2 Ho Hu) as Hf. rewrite Ht in Hf. congruence.
    + intros c u Hc Hu Ht. apply list_elem_of_filter. split; [|done]. intros ->.
      apply findClientByUid_Some in Hfind as [Hin _].
      destruct HI as ((HU1 & _) & _). apply HU1 in Hin as (usr & Husr & Huid).
      unfold userOf in *. congruence.
    + intros c [= <-]. apply findClientByUid_Some in Hfind as [_ Ho].
      in_effects ltac:(by apply elem_of_sendEffects).
  - (* it has none *)
    split; [done|]. split; [apply sublist_filter|]. split; [|split; [|split; [done|split; [done|]]]].
    + intros c u Hc Hu Ht. apply list_elem_of_filter in Hc as [Hne _].
      exfalso. apply Hne. rewrite Hu. cbn. by rewrite Ht.
    + intros c u Hc Hu Ht. apply list_elem_of_filter. split; [|done].
      rewrite Hu. cbn. congruence.
    + done.
Qed.

Lemma admin_remove_request_clears_uid_witness :
  reachable classroom ∧ hostWs (svc classroom) = Some 0%nat ∧
  requestQueue (svc classroom) = [2%nat] ∧ userOf classroom 2 = Some bob ∧
  ∃ st' eff,
    step 6 (Message 0 (AdminRemoveRequest "b")) classroom = Some (tt, st', eff) ∧
    Send 2 SystemRequestRemoved ∈ eff.
Proof.
  split; [apply classroom_reachable|]. split; [vm_compute; reflexivity|].
  split; [vm_compute; reflexivity|]. split; [vm_compute; reflexivity|].
  destruct (admin_remove_request_clears_uid 6 classroom 0 "b" classroom_reachable)
    as (st' & eff & Hs & _ & _ & _ & _ & _ & _ & Hsend); try (vm_compute; reflexivity).
  exists st', eff. split; [exact Hs|]. apply Hsend. vm_compute. reflexivity.
Defined.

(** ** What the server never does *)

(** [process.exit] is called by the firing of a timeout and by nothing
    else. *)
Lemma exit_called_by_timeout_only now ev st st' eff :
  step now ev st = Some (tt, st', eff) →
  (Exit ∈ eff ↔ ∃ t, ev = Timeout t) ∧
  (exited (rt st') = true ↔ ∃ t, ev = Timeout t).
Proof.
  intros H. apply step_inv in H as [Hen H].
  assert (Hx : exited (rt st) = false).
  { unfold enabled in Hen. apply andb_true_iff in Hen as [Hx _]. by apply negb_true_iff. }
  destruct ev as [ws u|ws m|ws|t]; cbn [fire] in H.
  - apply bind_inv in H as (a & st1 & e1 & e2 & H1 & H2 & ->). minv_prim H1.
    pose proof (handleConnection_no_exit _ _ _ _ _ _ H2) as Hno.
    apply handleConnection_timers in H2 as (_ & _ & He & _). cbn in He.
    split; split; try (by intros [? ?]).
    + intros Hin. cbn in Hin. rewrite Forall_forall in Hno. by destruct (Hno _ Hin).
    + congruence.
  - pose proof (handleMessage_no_exit _ _ _ _ _ _ _ H) as Hno.
    apply handleMessage_timers in H as (_ & He & _).
    split; split; try (by intros [? ?]).
    + intros Hin. rewrite Forall_forall in Hno. by destruct (Hno _ Hin).
    + congruence.
  - apply bind_inv in H as (a & st1 & e1 & e2 & H1 & H2 & ->). minv_prim H1.
    pose proof (handleDisconnect_no_exit _ _ _ _ _ _ H2) as Hno.
    assert (He : exited (rt st') = exited (rt st)).
    { apply handleDisconnect_timers in H2 as [(_ & _ & _ & _ & _ & _ & He)|(_ & _ & _ & _ & _ & He)];
        exact He. }
    split; split; try (by intros [? ?]).
    + intros Hin. cbn in Hin. rewrite Forall_forall in Hno. by destruct (Hno _ Hin).
    + congruence.
  - unfold processExit in H. minv. split; split; eauto.
    intros _. apply list_elem_of_here.
Qed.

(** X17. How the process ends. In a reachable state an event that can
    occur ends the process in exactly two cases: it is the firing of the
    shutdown timeout, whose callback calls [process.exit], or it is one of the
    malformed messages of [throwsOn] ([null], or a message without payload
    whose case comes to read a payload field), on which the handler throws
    and the uncaught TypeError kills the process. No connection, no close
    event and no other message ends it, and none of them calls
    [process.exit]. *)
Theorem process_ends_by_timeout_or_crash_only now ev st :
  reachable st → enabled now ev st = true →
  (endsProcess now ev st = true ↔ (∃ t, ev = Timeout t) ∨ faulty st ev = true) ∧
  (∀ st' eff, step now ev st = Some (tt, st', eff) → (Exit ∈ eff ↔ ∃ t, ev = Timeout t)).
Proof.
  intros Hr Hen. split; [|intros st' eff H; by apply (exit_called_by_timeout_only _ _ _ _ _ H)].
  unfold endsProcess, deliver. rewrite Hen.
  destruct (faulty st ev) eqn:Hf.
  - pose proof (step_throws now ev st Hen Hf) as H. unfold step in H. rewrite Hen in H.
    rewrite H. split; [by right|done].
  - destruct (step_progress now ev st (reachable_Inv _ Hr) Hen Hf) as [[[[] st'] eff] H].
    pose proof (exit_called_by_timeout_only _ _ _ _ _ H) as [_ Hx].
    unfold step in H. rewrite Hen in H. rewrite H. rewrite Hx.
    split; [by left|]. by intros [?|?].
Qed.

Lemma process_ends_by_timeout_or_crash_only_witness :
  reachable hostGone ∧ enabled 10006 (Timeout 0) hostGone = true ∧
  endsProcess 10006 (Timeout 0) hostGone = true ∧
  reachable classroom ∧
  endsProcess 6 (Message 2 (NoPayload LatencyUpdateCase)) classroom = true ∧
  endsProcess 6 (Message 2 (LatencyUpdate 40)) classroom = false.
Proof.
  split; [apply hostGone_reachable|]. split; [vm_compute; reflexivity|].
  split.
  { apply (process_ends_by_timeout_or_crash_only 10006 (Timeout 0) hostGone);
      [apply hostGone_reachable|vm_compute; reflexivity|]. left. by exists 0%nat. }
  split; [apply classroom_reachable|]. split.
  { apply (process_ends_by_timeout_or_crash_only 6
             (Message 2 (NoPayload LatencyUpdateCase)) classroom);
      [apply classroom_reachable|vm_compute; reflexivity|]. right. vm_compute; reflexivity. }
  vm_compute; reflexivity.
Defined.

Lemma not_in_sendEffects_close st w d c : Close c ∉ sendEffects st w d.
Proof. intros H. by apply elem_of_sendEffects_inv in H. Qed.

Lemma not_in_broadcastEffects_close st d c : Close c ∉ broadcastEffects st d.
Proof.
  unfold broadcastEffects. intros H. by apply list_elem_of_fmap in H as (? & ? & _).
Qed.

Lemma not_in_bannedListEffects_close st c : Close c ∉ bannedListEffects st.
Proof.
  unfold bannedListEffects. destruct (hostWs _); [apply not_in_sendEffects_close|].
  by intros ?%elem_of_nil.
Qed.

Lemma not_in_participantEffects_close st c : Close c ∉ participantEffects st.
Proof.
  unfold participantEffects. destruct (hostWs _); [apply not_in_sendEffects_close|].
  by intros ?%elem_of_nil.
Qed.

(** X18. The server closes a socket in three situations only: the new
    socket of a refused connection, the older open socket of the uid that
    connects again, and the open socket of the uid the host kicks. No other
    message, no close event and no timeout makes it call [close]. *)
Theorem server_closes_only_at_admission_or_kick now ev st st' eff c :
  reachable st → step now ev st = Some (tt, st', eff) → Close c ∈ eff →
  (∃ u, ev = Connection c u) ∨
  (∃ ws u, ev = Connection ws u ∧ findClientByUid st (uid u) = Some c) ∨
  (∃ h t, ev = Message h (AdminKickUser t) ∧ hostWs (svc st) = Some h ∧
          findClientByUid st t = Some c).
Proof.
  intros Hr H Hin. pose proof (reachable_Inv _ Hr) as HI.
  apply step_inv in H as [Hen H].
  destruct ev as [ws u|ws m|ws|t]; cbn [fire] in H.
  - apply enabled_connection in Hen as [_ Hnew].
    apply bind_inv in H as (a & st1 & e1 & e2 & H1 & H2 & ->). minv_prim H1.
    pose proof (Inv_acceptSocket ws st HI Hnew) as HI1.
    pose proof (findClientByUid_accept ws st (uid u) HI Hnew) as Hfa.
    set (st1 := mkState (svc st) (acceptSocket ws (rt st))) in *.
    assert (Hhost : hostWs (svc st1) ≠ Some ws).
    { intros Hh. destruct HI1 as ((_ & _ & _ & HU4) & _). destruct (HU4 _ Hh) as [y Hy].
      unfold st1 in Hy. st_simpl. by rewrite decide_True in Hy. }
    cbn [app] in Hin.
    destruct (mapHas (uid u) (bannedUids (svc st1))) eqn:Hban.
    + rewrite handleConnection_banned in H2 by done. injection H2 as _ <-.
      apply elem_of_app in Hin as [Hin|Hin]; [by apply not_in_sendEffects_close in Hin|].
      apply list_elem_of_singleton in Hin as [= ->]. left. by exists u.
    + rewrite handleConnection_run in H2 by done. rewrite Hfa in H2.
      assert (Hdup : Close c ∈ match findClientByUid st (uid u) with
                               | Some ex => [Close ex] | None => [] end →
                     findClientByUid st (uid u) = Some c).
      { destruct (findClientByUid st (uid u)); [|by intros ?%elem_of_nil].
        by intros [= ->]%list_elem_of_singleton. }
      destruct (isLecturerEmail (email u) && anyLecturerClient _); injection H2 as _ <-.
      * apply elem_of_app in Hin as [Hin|Hin]; [right; left; eauto|].
        apply elem_of_app in Hin as [Hin|Hin]; [by apply not_in_sendEffects_close in Hin|].
        apply list_elem_of_singleton in Hin as [= ->]. left. by exists u.
      * unfold admissionEffects in Hin. cbv zeta in Hin. rewrite Hfa in Hin.
        apply elem_of_app in Hin as [Hin|Hin]; [right; left; eauto|].
        repeat (apply elem_of_app in Hin as [Hin|Hin];
                [by first [apply not_in_sendEffects_close in Hin
                          |apply not_in_participantEffects_close in Hin]|]).
        destruct (isLecturerEmail (email u)); [by apply elem_of_nil in Hin|].
        by apply list_elem_of_singleton in Hin.
  - destruct (match m with AdminKickUser _ => true | _ => false end) eqn:Hk.
    + destruct m as [| | | | | |t| | | | | | | | | | | | | | |]; try discriminate Hk.
      right. right. exists ws, t. split; [done|].
      cbn [handleMessage] in H. unfold handleAdminKick, wsClose in H. xinv.
      all: try (by apply elem_of_nil in Hin).
      all: rewrite ?elem_of_app, ?elem_of_cons in Hin.
      all: repeat match goal with
           | Hx : _ ∨ _ |- _ => destruct Hx as [Hx|Hx]
           | Hx : Close _ ∈ [] |- _ => by apply elem_of_nil in Hx
           | Hx : Close _ ∈ sendEffects _ _ _ |- _ => by apply not_in_sendEffects_close in Hx
           | Hx : Close _ ∈ broadcastEffects _ _ |- _ =>
               by apply not_in_broadcastEffects_close in Hx
           | Hx : Close _ ∈ bannedListEffects _ |- _ =>
               by apply not_in_bannedListEffects_close in Hx
           | Hx : Close _ = Close _ |- _ => injection Hx as ->
           end.
      all: by case_decide.
    + exfalso. assert (Hm : ∀ t, m ≠ AdminKickUser t) by (intros t ->; discriminate Hk).
      pose proof (handleMessage_no_close _ _ _ Hm _ _ _ _ H) as Hno.
      rewrite Forall_forall in Hno. by destruct (Hno _ Hin c).
  - exfalso. apply bind_inv in H as (a & st1 & e1 & e2 & H1 & H2 & ->). minv_prim H1.
    pose proof (handleDisconnect_no_close _ _ _ _ _ _ H2) as Hno.
    rewrite Forall_forall in Hno. by destruct (Hno _ Hin c).
  - exfalso. unfold processExit in H. minv.
    cbn [app] in Hin. by apply list_elem_of_singleton in Hin.
Qed.

Lemma server_closes_only_at_admission_or_kick_witness :
  reachable classroom ∧
  ∃ st' eff,
    step 6 (Message 0 (AdminKickUser "b")) classroom = Some (tt, st', eff) ∧
    Close 2 ∈ eff ∧
    ((∃ u, Message 0 (AdminKickUser "b") = Connection 2 u) ∨
     (∃ ws u, Message 0 (AdminKickUser "b") = Connection ws u ∧
              findClientByUid classroom (uid u) = Some 2%nat) ∨
     (∃ h t, Message 0 (AdminKickUser "b") = Message h (AdminKickUser t) ∧
             hostWs (svc classroom) = Some h ∧ findClientByUid classroom t = Some 2%nat)).
Proof.
  split; [apply classroom_reachable|].
  destruct (step 6 (Message 0 (AdminKickUser "b")) classroom) as [[[[] st'] eff]|] eqn:Hs;
    [|vm_compute in Hs; discriminate Hs].
  assert (Hin : Close 2 ∈ eff).
  { vm_compute in Hs. injection Hs as _ <-. repeat constructor. }
  exists st', eff. split; [reflexivity|]. split; [exact Hin|].
  exact (server_closes_only_at_admission_or_kick 6 _ classroom st' eff 2
           classroom_reachable Hs Hin).
Defined.

Lemma handleRequestToSpeak_hosted P ws h st r st' eff :
  (∀ c d, (∀ m, d ≠ SystemError m) → P (Send c d)) → (∀ c, P (Stats c)) →
  hostWs (svc st) = Some h →
  handleRequestToSpeak ws st = Some (r, st', eff) → Forall P eff.
Proof.
  intros HP1 HP2 Hh H. unfold handleRequestToSpeak in H.
  apply bind_inv in H as (s & st1 & e1 & e2 & H1 & H2 & ->). minv_prim H1.
  rewrite Hh in H2. cbn [app]. revert H2.
  generalize (speaker (svc st1)). intros sp H2.
  assert (Hw : writes P
    (match sp with
     | None => grantMic ws
     | Some sp0 =>
         if decide (sp0 = ws)
         then send ws SystemSpeakGranted ;;
              u ← theUser ws; emit (Stats (LogEvent SPEAK_PULSE (uid u)))
         else (if bool_decide (ws ∈ requestQueue (svc st1)) then skip
               else update (λ s, set_requestQueue (requestQueue s ++ [ws]) s) ;;
                    broadcastRequestQueue ;; send ws SystemRequestAcknowledged) ;;
              s ← this;
              match hostWs s with
              | Some h0 =>
                  u ← theUser ws; send h0 (SystemStudentRequest (uid u) (name u) (email u))
              | None => skip
              end
     end)).
  { unfold grantMic. repeat writes_step; auto; apply HP1; done. }
  by eapply Hw.
Qed.

(** X20. The reply 'Lecturer disconnected.' of [handleRequestToSpeak] is
    never sent: in every reachable state a request that gets past the
    session check finds a host, so no event makes the server write that
    error to any socket. *)
Theorem lecturer_disconnected_is_never_sent now ev st st' eff c :
  reachable st → step now ev st = Some (tt, st', eff) →
  Send c (SystemError "Lecturer disconnected.") ∉ eff.
Proof.
  intros Hr H Hin. pose proof (reachable_Inv _ Hr) as HI.
  set (P := λ e : Effect, ∀ w, e ≠ Send w (SystemError "Lecturer disconnected.")).
  assert (Hall : Forall P eff); [|rewrite Forall_forall in Hall; by destruct (Hall _ Hin c)].
  clear Hin. apply step_inv in H as [Hen H].
  destruct ev as [ws u|ws m|ws|t]; cbn [fire] in H.
  - apply bind_inv in H as (a & st1 & e1 & e2 & H1 & H2 & ->). minv_prim H1. cbn [app].
    assert (Hw : writes P (handleConnection ws u)); [|by eapply Hw].
    unfold handleConnection. writes_all; done.
  - destruct (match m with RequestToSpeak => true | _ => false end) eqn:Hk.
    + destruct m; try discriminate Hk. cbn [handleMessage] in H.
      apply bind_inv in H as (s & st1 & e1 & e2 & H1 & H2 & ->). minv_prim H1. cbn [app].
      destruct (isSessionActive (svc st1)) eqn:Hact; [|minv_prim H2; constructor].
      destruct HI as (_ & HA & _). destruct (HA Hact) as [h Hh].
      apply bind_inv in H2 as (usr & st2 & e3 & e4 & H3 & H4 & ->).
      apply theUser_inv_eff in H3 as (-> & -> & _). cbn [app].
      apply bind_inv in H4 as (? & st3 & e5 & e6 & H5 & H6 & ->). minv_prim H5.
      constructor; [done|].
      eapply (handleRequestToSpeak_hosted P); [| |exact Hh|exact H6].
      * intros w d Hd w' [= _ ->]. by destruct (Hd "Lecturer disconnected."%string).
      * done.
    + assert (Hw : writes P (handleMessage now ws m)); [|by eapply Hw].
      destruct m; try discriminate Hk; cbn [handleMessage]; writes_all; done.
  - apply bind_inv in H as (a & st1 & e1 & e2 & H1 & H2 & ->). minv_prim H1. cbn [app].
    assert (Hw : writes P (handleDisconnect now ws)); [|by eapply Hw].
    unfold handleDisconnect. writes_all; done.
  - unfold processExit in H. minv. by repeat constructor.
Qed.

Lemma lecturer_disconnected_is_never_sent_witness :
  reachable hostGone ∧ hostWs (svc hostGone) = None ∧
  ∃ st' eff, step 7 (Message 2 RequestToSpeak) hostGone = Some (tt, st', eff) ∧
             Send 2 (SystemError "Lecturer disconnected.") ∉ eff.
Proof.
  split; [apply hostGone_reachable|]. split; [vm_compute; reflexivity|].
  destruct (step 7 (Message 2 RequestToSpeak) hostGone) as [[[[] st'] eff]|] eqn:Hs;
    [|vm_compute in Hs; discriminate Hs].
  exists st', eff. split; [reflexivity|].
  exact (lecturer_disconnected_is_never_sent 7 _ hostGone st' eff 2 hostGone_reachable Hs).
Defined.

(** ** The host leaves; the relay *)

(** X23. When the host's socket closes the session ends for everybody: the
    host slot is emptied, the session flag is cleared, the stats session is
    ended and every other open socket is sent system-session-status
    inactive. The floor is not cleared: the speaker and the request queue
    only lose the host's own socket, and the ban set is kept. *)
Theorem host_close_ends_the_session now st h :
  reachable st → hostWs (svc st) = Some h → enabled now (Closed h) st = true →
  ∃ st' eff,
    step now (Closed h) st = Some (tt, st', eff) ∧
    hostWs (svc st') = None ∧ isSessionActive (svc st') = false ∧
    Stats EndSession ∈ eff ∧
    (∀ w, w ≠ h → isOpen st w = true → Send w (SystemSessionStatus false) ∈ eff) ∧
    speaker (svc st') =
      (if decide (speaker (svc st) = Some h) then None else speaker (svc st)) ∧
    requestQueue (svc st') = filter (λ c, c ≠ h) (requestQueue (svc st)) ∧
    bannedUids (svc st') = bannedUids (svc st).
Proof.
  intros Hr Hh Hen. pose proof (reachable_Inv _ Hr) as HI.
  destruct (step_progress now _ st HI Hen eq_refl) as [[[[] st'] eff] Hstep].
  exists st', eff. split; [done|].
  rewrite enabled_step in Hstep by done. cbn [fire] in Hstep.
  apply bind_inv in Hstep as (a & st1 & e1 & e2 & H1 & H2 & ->). minv_prim H1.
  destruct HI as ((_ & _ & _ & HU4) & _). destruct (HU4 _ Hh) as [u Hu].
  pose proof (handleDisconnect_shape _ _ _ _ _ H2) as (_ & _ & Hb & Hsh).
  cbn [svc rt] in Hsh, Hb. unfold userOf in Hsh, Hu. cbn [rt] in Hsh.
  rewrite userIn_finishSocket, Hu in Hsh. destruct Hsh as (_ & Hq & Hsp & Hh' & Hact).
  rewrite decide_True in Hh' by done. rewrite decide_True in Hact by done.
  split; [done|]. split; [done|].
  assert (Heff : Stats EndSession ∈ [] ++ e2 ∧
                 ∀ w, w ≠ h → isOpen st w = true →
                      Send w (SystemSessionStatus false) ∈ [] ++ e2).
  { cbn [app]. unfold handleDisconnect, setTimeout in H2. xinv; st_simpl; try congruence.
    all: split; [in_effects ltac:(done)|].
    all: intros w Hne Ho; pose proof (reachable_openListed _ Hr _ Ho) as Hl.
    all: in_effects ltac:(apply elem_of_broadcastEffects; st_simpl;
                          [by apply list_elem_of_filter|by rewrite decide_False]). }
  destruct Heff as [He1 He2]. repeat (split; [done|]). done.
Qed.

Lemma host_close_ends_the_session_witness :
  reachable classroom ∧ hostWs (svc classroom) = Some 0%nat ∧
  speaker (svc classroom) = Some 1%nat ∧
  ∃ st' eff,
    step 6 (Closed 0) classroom = Some (tt, st', eff) ∧
    isSessionActive (svc st') = false ∧ speaker (svc st') = Some 1%nat ∧
    Send 2 (SystemSessionStatus false) ∈ eff.
Proof.
  split; [apply classroom_reachable|]. split; [vm_compute; reflexivity|].
  split; [vm_compute; reflexivity|].
  destruct (host_close_ends_the_session 6 classroom 0 classroom_reachable)
    as (st' & eff & Hs & _ & Ha & _ & Hb & Hsp & _); try (vm_compute; reflexivity).
  exists st', eff. split; [exact Hs|]. split; [exact Ha|]. split.
  - rewrite Hsp. vm_compute. reflexivity.
  - apply Hb; [lia|vm_compute; reflexivity].
Defined.

(** X24. An answer reaches its addressee and nobody else: webrtc-answer
    from the host, addressed to the uid of a user with an open admitted
    socket, is written to exactly that socket - once, without the target
    field - and changes no state; the same holds for a host's
    webrtc-ice-candidate. *)
Theorem host_signalling_reaches_the_addressee now st h w u sdp :
  reachable st → hostWs (svc st) = Some h →
  isOpen st w = true → userOf st w = Some u → truthy (uid u) = true →
  (enabled now (Message h (WebrtcAnswer sdp (Some (uid u)))) st = true →
   step now (Message h (WebrtcAnswer sdp (Some (uid u)))) st =
     Some (tt, st, [Send w (OutWebrtcAnswer sdp)])) ∧
  (enabled now (Message h (WebrtcIceCandidate sdp (Some (uid u)))) st = true →
   step now (Message h (WebrtcIceCandidate sdp (Some (uid u)))) st =
     Some (tt, st, [Send w (OutWebrtcIceCandidate sdp None)])).
Proof.
  intros Hr Hh Ho Hu Ht.
  pose proof (open_found st w u (reachable_Inv _ Hr) (reachable_Inv2 _ Hr) Ho Hu) as Hf.
  split; intros Hen; rewrite enabled_step by done; cbn [fire handleMessage].
  - fwd this_run. rewrite decide_True by done. unfold truthyTarget. rewrite Ht.
    fwd get_run. rewrite Hf. rewrite send_run. unfold sendEffects. by rewrite Ho.
  - fwd this_run. rewrite decide_True by done. unfold truthyTarget. rewrite Ht.
    fwd get_run. rewrite Hf. rewrite send_run. unfold sendEffects. by rewrite Ho.
Qed.

Lemma host_signalling_reaches_the_addressee_witness :
  reachable classroom ∧ hostWs (svc classroom) = Some 0%nat ∧
  userOf classroom 2 = Some bob ∧
  step 6 (Message 0 (WebrtcAnswer "sdp" (Some "b"%string))) classroom =
    Some (tt, classroom, [Send 2 (OutWebrtcAnswer "sdp")]).
Proof.
  split; [apply classroom_reachable|]. split; [vm_compute; reflexivity|].
  split; [vm_compute; reflexivity|].
  apply (host_signalling_reaches_the_addressee 6 classroom 0 2 bob "sdp");
    try apply classroom_reachable; vm_compute; reflexivity.
Defined.

(** ** Authentication and roles *)

Lemma substring_substring (s : string) (a b c d : nat) :
  (a + b ≤ d)%nat →
  String.substring a b (String.substring c d s) = String.substring (c + a) b s.
Proof.
  intros Hle. apply String.get_correct. intros p. destruct (lt_dec p b) as [Hp|Hp].
  - rewrite !String.substring_correct1 by lia. f_equal. lia.
  - rewrite !String.substring_correct2 by lia. done.
Qed.

(** A string that ends with [A] ends with a shorter [B] exactly when [A]
    does. *)
Lemma endsWith_suffix (e A B : string) :
  endsWith e A = true → (String.length B ≤ String.length A)%nat →
  endsWith e B = endsWith A B.
Proof.
  unfold endsWith. intros H Hle. apply andb_true_iff in H as [H1 H2].
  apply bool_decide_eq_true in H1. apply String.eqb_eq in H2.
  rewrite !bool_decide_true by lia. cbn [andb].
  set (la := String.length A) in *. set (lb := String.length B) in *.
  set (le := String.length e) in *.
  rewrite <- H2. rewrite substring_substring by lia.
  do 2 f_equal. lia.
Qed.

Lemma isLecturerEmail_suffix (e D : string) :
  endsWith e D = true → (10 ≤ String.length D)%nat →
  isLecturerEmail e = isLecturerEmail D ∧
  endsWith e "@um.edu.my" = endsWith D "@um.edu.my" ∧
  endsWith e "@gmail.com" = endsWith D "@gmail.com".
Proof.
  intros H Hl. unfold isLecturerEmail.
  rewrite (endsWith_suffix e D "@um.edu.my"), (endsWith_suffix e D "@gmail.com"); done.
Qed.

(** X21. Roles follow the domain check of the upgrade: a user whose
    upgrade [verifyClient] accepts has an e-mail that ends in one of the
    three allowed domains and a non-empty name; [handleConnection] then takes
    that user for a lecturer exactly when the e-mail ends in '@um.edu.my'.
    An accepted '@siswa.um.edu.my' or '@siswa-old.um.edu.my' address is never
    a lecturer, and the '@gmail.com' alternative of the lecturer test is
    never met by an accepted user. *)
Theorem accepted_user_role_follows_domain verifyIdToken token u :
  verifyClient verifyIdToken token = Accepted u →
  (endsWith (email u) "@siswa.um.edu.my" = true ∨
   endsWith (email u) "@siswa-old.um.edu.my" = true ∨
   endsWith (email u) "@um.edu.my" = true) ∧
  isLecturerEmail (email u) = endsWith (email u) "@um.edu.my" ∧
  (endsWith (email u) "@siswa.um.edu.my" = true ∨
   endsWith (email u) "@siswa-old.um.edu.my" = true → isLecturerEmail (email u) = false) ∧
  endsWith (email u) "@gmail.com" = false ∧
  name u ≠ ""%string.
Proof.
  unfold verifyClient, verifyClientToken. intros H.
  destruct (truthyTarget token) as [tok|]; [|done].
  destruct (verifyIdToken tok) as [msg|d]; [done|].
  destruct (tokenEmail d) as [e|]; [|done]. cbv zeta in H. cbn [email] in H.
  destruct (negb (truthy e) || negb (existsb (λ domain, endsWith e domain) allowedDomains))
    eqn:Hc; [done|].
  injection H as <-. cbn [email name].
  apply orb_false_iff in Hc as [_ Hc]. apply negb_false_iff in Hc.
  cbn [existsb allowedDomains] in Hc. rewrite orb_false_r in Hc.
  assert (Hname : orDefault (tokenName d) "Unnamed User" ≠ ""%string).
  { unfold orDefault, truthyTarget. destruct (tokenName d) as [[|a s]|]; done. }
  apply orb_true_iff in Hc as [Hc|Hc]; [|apply orb_true_iff in Hc as [Hc|Hc]].
  - destruct (isLecturerEmail_suffix e _ Hc) as (H1 & H2 & H3); [cbn; lia|].
    rewrite H1, H2, H3. split; [auto|]. repeat split; done.
  - destruct (isLecturerEmail_suffix e _ Hc) as (H1 & H2 & H3); [cbn; lia|].
    rewrite H1, H2, H3. split; [auto|]. repeat split; done.
  - destruct (isLecturerEmail_suffix e _ Hc) as (H1 & H2 & H3); [cbn; lia|].
    rewrite H1, H3. split; [auto|]. split; [by rewrite Hc|]. split; [|done].
    intros [Hs|Hs].
    + rewrite (endsWith_suffix e _ "@um.edu.my" Hs) in Hc by (cbn; lia). done.
    + rewrite (endsWith_suffix e _ "@um.edu.my" Hs) in Hc by (cbn; lia). done.
Qed.

Lemma accepted_user_role_follows_domain_witness :
  verifyClient tokenIsEmail (Some "alice@siswa.um.edu.my"%string) =
    Accepted (mkUser "alice@siswa.um.edu.my" "Unnamed User" "alice@siswa.um.edu.my" None) ∧
  isLecturerEmail "alice@siswa.um.edu.my" = false.
Proof.
  split; [vm_compute; reflexivity|].
  destruct (accepted_user_role_follows_domain tokenIsEmail
              (Some "alice@siswa.um.edu.my"%string)
              (mkUser "alice@siswa.um.edu.my" "Unnamed User" "alice@siswa.um.edu.my" None))
    as (_ & _ & Hst & _); [vm_compute; reflexivity|].
  apply Hst. left. vm_compute. reflexivity.
Defined.

(** ** Stats backfill at host registration *)

Lemma forEach_effects_inv {A} (f : A → list Effect) (body : A → M unit) (l : list A) :
  (∀ x s, body x s = Some (tt, s, f x)) →
  ∀ st r st' eff, forEach l body st = Some (r, st', eff) →
                  st' = st ∧ eff = flat_map f l.
Proof.
  intros Hb. induction l as [|x l IH]; intros st r st' eff H; cbn [forEach] in H.
  - by minv_prim H.
  - apply bind_inv in H as (a & st1 & e1 & e2 & H1 & H2 & ->).
    rewrite Hb in H1. injection H1 as _ <- <-.
    apply IH in H2 as [-> ->]. done.
Qed.

(** X25. Backfill: when a connection with a non-empty uid registers as
    host, the stats session is started or resumed under that uid and every
    student registered at that moment - each registered socket other than the
    sender's whose user is not a lecturer - is added to it; no lecturer is. *)
Theorem host_registration_backfills_students now st c u :
  reachable st → enabled now (Message c RegisterAsHost) st = true →
  userOf st c = Some u → truthy (uid u) = true →
  ∃ st' eff,
    step now (Message c RegisterAsHost) st = Some (tt, st', eff) ∧
    Stats (StartOrResumeSession (uid u)) ∈ eff ∧
    (∀ w x usr, (w, x) ∈ clients (svc st) → w ≠ c → userOf st w = Some usr →
                isLecturerEmail (email usr) = false → Stats (AddUser usr) ∈ eff) ∧
    (∀ usr, Stats (AddUser usr) ∈ eff →
            isLecturerEmail (email usr) = false ∧
            ∃ w x, (w, x) ∈ clients (svc st) ∧ w ≠ c ∧ userOf st w = Some usr).
Proof.
  intros Hr Hen Hu Ht. pose proof (reachable_Inv _ Hr) as HI.
  destruct (step_progress now _ st HI Hen eq_refl) as [[[[] st'] eff] Hstep].
  exists st', eff. split; [done|].
  rewrite enabled_step in Hstep by done. cbn [fire handleMessage] in Hstep.
  set (f := λ p : nat * string,
         if decide (p.1 = c) then []
         else match userOf st p.1 with
              | Some cu => if isLecturerEmail (email cu) then [] else [Stats (AddUser cu)]
              | None => []
              end).
  assert (Hf1 : ∀ w x usr, (w, x) ∈ clients (svc st) → w ≠ c → userOf st w = Some usr →
                  isLecturerEmail (email usr) = false →
                  Stats (AddUser usr) ∈ flat_map f (clients (svc st))).
  { intros w x usr Hin Hne Hw Hl. apply list_elem_of_In, in_flat_map. exists (w, x).
    split; [by apply list_elem_of_In|]. unfold f. cbn. rewrite decide_False by done.
    rewrite Hw, Hl. by left. }
  assert (Hf2 : ∀ usr, Stats (AddUser usr) ∈ flat_map f (clients (svc st)) →
                  isLecturerEmail (email usr) = false ∧
                  ∃ w x, (w, x) ∈ clients (svc st) ∧ w ≠ c ∧ userOf st w = Some usr).
  { intros usr Hin. apply list_elem_of_In, in_flat_map in Hin as ([w x] & Hin & Hfx).
    unfold f in Hfx. cbn in Hfx. destruct (decide (w = c)); [done|].
    destruct (userOf st w) as [cu|] eqn:Hw; [|done].
    destruct (isLecturerEmail (email cu)) eqn:Hl; [done|].
    destruct Hfx as [[= <-]|[]]. split; [done|]. exists w, x.
    split; [by apply list_elem_of_In|done]. }
  repeat xinv0.
  all: repeat match goal with
       | H : userWithUid _ _ = _ |- _ =>
           unfold userWithUid, userOf in H; cbn [rt] in H; st_simpl;
           unfold userOf in Hu; rewrite Hu, Ht in H; simplify_eq
       end.
  all: match goal with
       | H : forEach _ _ _ = Some _ |- _ =>
           apply (forEach_effects_inv f) in H as [-> ->];
             [|intros [w x] s; unfold f; cbn [fst]; st_simpl;
               destruct (decide (w = c)); [done|];
               destruct (userIn _ w) as [cu|]; [|done];
               by destruct (isLecturerEmail (email cu))]
       end.
  all: split; [in_effects ltac:(done)|]; split.
  all: try (intros w x usr Hin Hne Hw Hl;
            in_effects ltac:(by apply (Hf1 w x usr))).
  all: intros usr Hin; apply Hf2.
  all: rewrite ?elem_of_app, ?elem_of_cons in Hin.
  all: repeat match goal with
       | Hx : _ ∨ _ |- _ => destruct Hx as [Hx|Hx]
       | Hx : _ ∈ [] |- _ => by apply elem_of_nil in Hx
       | Hx : _ ∈ sendEffects _ _ _ |- _ => by apply elem_of_sendEffects_inv in Hx
       | Hx : _ ∈ broadcastEffects _ _ |- _ =>
           unfold broadcastEffects in Hx; by apply list_elem_of_fmap in Hx as (? & ? & _)
       | Hx : _ ∈ participantEffects _ |- _ =>
           unfold participantEffects in Hx; destruct (hostWs _) in Hx
       | Hx : _ ∈ requestQueueEffects _ |- _ =>
           unfold requestQueueEffects in Hx; destruct (hostWs _) in Hx;
           [destruct (mapM _ _) in Hx|]
       | Hx : Stats _ = Stats _ |- _ => discriminate Hx
       end; try done.
Qed.

Lemma host_registration_backfills_students_witness :
  ∃ st' eff,
    step 3 (Message 2 RegisterAsHost)
      (after [(0, Connection 0 alice); (1, Connection 1 bob); (2, Connection 2 lecturer)]
             (initial "10.0.0.1")) = Some (tt, st', eff) ∧
    Stats (StartOrResumeSession "host") ∈ eff ∧ Stats (AddUser alice) ∈ eff ∧
    Stats (AddUser bob) ∈ eff.
Proof.
  set (st := after [(0, Connection 0 alice); (1, Connection 1 bob); (2, Connection 2 lecturer)]
                   (initial "10.0.0.1")).
  assert (Hr : reachable st).
  { apply after_reachable; [constructor|vm_compute; eauto]. }
  destruct (host_registration_backfills_students 3 st 2 lecturer Hr)
    as (st' & eff & Hs & H1 & H2 & _); try (vm_compute; reflexivity).
  exists st', eff. split; [exact Hs|]. split; [exact H1|]. split.
  - apply (H2 0%nat "a"%string alice); try (vm_compute; reflexivity); [|lia].
    vm_compute. repeat constructor.
  - apply (H2 1%nat "b"%string bob); try (vm_compute; reflexivity); [|lia].
    vm_compute. repeat constructor.
Defined.

Ltac writes_step_eq :=
  match goal with
  | |- writes _ (if ?b then _ else _) => destruct b eqn:?
  | |- writes _ (match ?x with _ => _ end) => destruct x eqn:?
  | _ => writes_step
  end.

(** X30. Lecturers are never counted as users: no event makes the
    coordinator call [statsService.addUser] for a user whose e-mail ends in
    '@um.edu.my' or '@gmail.com' - neither at admission nor in the backfill
    of a host registration. *)
Theorem lecturers_are_never_added_to_stats now ev st st' eff usr :
  step now ev st = Some (tt, st', eff) → Stats (AddUser usr) ∈ eff →
  isLecturerEmail (email usr) = false.
Proof.
  intros H Hin.
  set (P := λ e : Effect, ∀ u, e = Stats (AddUser u) → isLecturerEmail (email u) = false).
  assert (Hall : Forall P eff); [|rewrite Forall_forall in Hall; by apply (Hall _ Hin)].
  clear Hin. apply step_inv in H as [Hen H].
  destruct ev as [ws u|ws m|ws|t]; cbn [fire] in H.
  - apply bind_inv in H as (a & st1 & e1 & e2 & H1 & H2 & ->). minv_prim H1. cbn [app].
    assert (Hw : writes P (handleConnection ws u)); [|by eapply Hw].
    unfold handleConnection, wsClose. repeat writes_step_eq; try done.
    intros u' [= <-]. done.
  - assert (Hw : writes P (handleMessage now ws m)); [|by eapply Hw].
    destruct m; cbn [handleMessage];
      unfold handleCancelRequest, handleFinishedSpeaking, handleReleaseFloor,
        handleAdminKick, handleAdminRemoveRequest, handleRequestToSpeak, grantMic, wsClose;
      repeat writes_step_eq; try done.
    intros u' [= <-]. done.
  - apply bind_inv in H as (a & st1 & e1 & e2 & H1 & H2 & ->). minv_prim H1. cbn [app].
    assert (Hw : writes P (handleDisconnect now ws)); [|by eapply Hw].
    unfold handleDisconnect, setTimeout. repeat writes_step_eq; done.
  - unfold processExit in H. minv. by repeat constructor.
Qed.

Lemma lecturers_are_never_added_to_stats_witness :
  ∃ st' eff,
    step 2 (Connection 1 alice) (after [(0, Connection 0 lecturer); (1, Message 0 RegisterAsHost)]
                                       (initial "10.0.0.1")) = Some (tt, st', eff) ∧
    Stats (AddUser alice) ∈ eff ∧ isLecturerEmail (email alice) = false.
Proof.
  destruct (step 2 (Connection 1 alice)
              (after [(0, Connection 0 lecturer); (1, Message 0 RegisterAsHost)]
                     (initial "10.0.0.1"))) as [[[[] st'] eff]|] eqn:Hs;
    [|vm_compute in Hs; discriminate Hs].
  assert (Hin : Stats (AddUser alice) ∈ eff).
  { vm_compute in Hs. injection Hs as _ <-. repeat constructor. }
  exists st', eff. split; [reflexivity|]. split; [exact Hin|].
  exact (lecturers_are_never_added_to_stats 2 _ _ st' eff alice Hs Hin).
Defined.

(** ** The stats service *)

Import StatsService.

Lemma found_app_miss id l s :
  found id l = None → found id (l ++ [s]) = found id [s].
Proof.
  unfold found. induction l as [|x l IH]; [done|]. cbn.
  destruct (String.eqb (sessionId x) id); [done|]. apply IH.
Qed.

Lemma updateFound_app_miss id f l s :
  found id l = None → sessionId s = id →
  updateFound id f (l ++ [s]) = l ++ [f s].
Proof.
  unfold found. intros Hl Hs. induction l as [|x l IH]; cbn.
  - by rewrite Hs, String.eqb_refl.
  - cbn in Hl. destruct (String.eqb (sessionId x) id); [done|]. by rewrite IH.
Qed.

Lemma last_snoc_session (l : list Session) s : last (l ++ [s]) = Some s.
Proof. apply last_snoc. Qed.

Lemma truthyTarget_Some v id : truthyTarget v = Some id → v = Some id.
Proof. unfold truthyTarget. destruct v as [s|]; [|done]. by destruct (truthy s); intros [= ->]. Qed.

(** X26. Ending and resuming is a round trip: when the running session -
    the last one of the file, open, found under its id - is ended and the
    same lecturer starts or resumes a session less than ten seconds later,
    the service is back where it was: the same session id is current, all
    sessions with their users, events and samples are as before the end, the
    session is open again, and the file holds exactly that; the id that was
    drawn for a new session is not used. *)
Theorem stats_end_then_resume_is_round_trip t1 t2 generatedId t id l sess :
  truthyTarget (currentSessionId t) = Some id →
  db t = l ++ [sess] → sessionId sess = id → endTime sess = None →
  found id l = None →
  t2 - t1 < 10000 →
  startOrResumeSession t2 generatedId (lecturerId sess) (endSession t1 t) =
    (mkStatsService (Some id) (db t) (saveTimer t) (db t), id).
Proof.
  intros Hc Hdb Hid Hend Hl Ht.
  assert (Hfs : found id (l ++ [sess]) = Some sess).
  { rewrite (found_app_miss _ _ _ Hl). unfold found. cbn [find].
    by rewrite Hid, String.eqb_refl. }
  assert (Hs : set_endTime None (set_endTime (Some t1) sess) = sess).
  { clear -Hend. destruct sess as [a b c d e f g h i]. cbn in Hend. subst d. reflexivity. }
  unfold endSession. rewrite Hc, Hdb, Hfs. cbv zeta.
  cbn [_performSave db saveTimer file currentSessionId].
  rewrite (updateFound_app_miss _ _ _ _ Hl Hid).
  unfold startOrResumeSession. cbn [db]. rewrite last_snoc_session.
  replace (lecturerId (set_endTime (Some t1) sess)) with (lecturerId sess) by done.
  rewrite String.eqb_refl.
  replace (endTime (set_endTime (Some t1) sess)) with (Some t1) by done.
  rewrite bool_decide_true by lia. cbv zeta.
  cbn [_performSave db saveTimer file currentSessionId].
  rewrite removelast_last, Hs.
  replace (sessionId (set_endTime (Some t1) sess)) with (sessionId sess) by done.
  by rewrite Hid.
Qed.

Lemma stats_end_then_resume_is_round_trip_witness :
  let sess := mkSession "s1" "host" 0 None ∅ [mkEventRec "JOIN" "a" 5] [] [] 0 in
  let t := mkStatsService (Some "s1"%string) [sess] true [] in
  db (endSession 100 t) = [mkSession "s1" "host" 0 (Some 100) ∅ [mkEventRec "JOIN" "a" 5] [] [] 0] ∧
  startOrResumeSession 9000 "s2" "host" (endSession 100 t) =
    (mkStatsService (Some "s1"%string) [sess] true [sess], "s1"%string).
Proof.
  intros sess t. split; [reflexivity|].
  apply (stats_end_then_resume_is_round_trip 100 9000 "s2" t "s1" [] sess);
    reflexivity.
Defined.

(** X27. Anything else starts afresh and drops what was stored: when the
    file has no session, or its last session belongs to another lecturer, or
    it was ended ten seconds ago or more, [startOrResumeSession] makes the
    drawn id the current session and replaces all stored sessions by one new,
    empty session of that lecturer, which is written to the file at once. *)
Theorem stats_fresh_start_drops_stored_sessions now generatedId lecturer t :
  (∀ s, last (db t) = Some s → lecturerId s = lecturer →
        ∃ closed, endTime s = Some closed ∧ 10000 ≤ now - closed) →
  startOrResumeSession now generatedId lecturer t =
    (mkStatsService (Some generatedId)
       [mkSession generatedId lecturer now None ∅ [] [] [] now] (saveTimer t)
       [mkSession generatedId lecturer now None ∅ [] [] [] now],
     generatedId).
Proof.
  intros H. unfold startOrResumeSession.
  destruct (last (db t)) as [s|]; [|done].
  destruct (String.eqb (lecturerId s) lecturer) eqn:He; [|done].
  apply String.eqb_eq in He. destruct (H s eq_refl He) as (closed & -> & Hc).
  by rewrite bool_decide_false by lia.
Qed.

Lemma stats_fresh_start_drops_stored_sessions_witness :
  let old := mkSession "s1" "host" 0 (Some 100) ∅ [mkEventRec "JOIN" "a" 5] [] [] 0 in
  let t := mkStatsService None [old] false [old] in
  db (startOrResumeSession 10100 "s2" "host" t).1 =
    [mkSession "s2" "host" 10100 None ∅ [] [] [] 10100].
Proof.
  intros old t.
  rewrite (stats_fresh_start_drops_stored_sessions 10100 "s2" "host" t); [reflexivity|].
  intros s [= <-] _. exists 100. split; [reflexivity|lia].
Defined.

(** X28. Without a current session nothing is recorded: [addUser],
    [logEvent], [addLatencySample], [addWebRTCSample] and [endSession] leave
    the service exactly as it is when [currentSessionId] is null (or empty) -
    that is, before the first host registers and between the end of a
    session and the next registration - and the four recording calls also
    when the current id matches no stored session. *)
Theorem stats_calls_without_session_do_nothing now c t :
  (∀ g l, c ≠ CallStartOrResume g l) → c ≠ SaveTimerFires →
  (truthyTarget (currentSessionId t) = None → call now c t = t) ∧
  (∀ id, truthyTarget (currentSessionId t) = Some id → found id (db t) = None →
         c ≠ CallEndSession → call now c t = t).
Proof.
  intros Hs Hf. split.
  - intros Hn. destruct c as [g l| |[? ? ? ?]| | | |]; cbn [call];
      [by destruct (Hs g l)|..|done];
      unfold endSession, addUser, logEvent, addLatencySample, addWebRTCSample;
      by rewrite Hn.
  - intros id Hid Hno He. destruct c as [g l| |[? ? ? ?]| | | |]; cbn [call];
      [by destruct (Hs g l)|done|..|done];
      unfold addUser, logEvent, addLatencySample, addWebRTCSample;
      by rewrite Hid, Hno.
Qed.

Lemma stats_calls_without_session_do_nothing_witness :
  call 7 (CallAddUser alice) (load []) = load [] ∧
  call 7 (CallLogEvent "SPEAK_PULSE" "a") (load []) = load [].
Proof.
  split.
  - apply (stats_calls_without_session_do_nothing 7 (CallAddUser alice) (load []));
      try done.
  - apply (stats_calls_without_session_do_nothing 7 (CallLogEvent "SPEAK_PULSE" "a") (load []));
      try done.
Defined.

Lemma call_keeps_synced now c t :
  (saveTimer t = false → file t = db t) →
  saveTimer (call now c t) = false → file (call now c t) = db (call now c t).
Proof.
  intros Hinv. destruct c as [g l| |[? ? ? ?]| | | |]; cbn [call].
  - unfold startOrResumeSession. destruct (last (db t)) as [s|]; [|done].
    destruct (String.eqb _ _); [|done].
    by destruct (match endTime s with Some _ => _ | None => _ end).
  - unfold endSession. destruct (truthyTarget _); [|done].
    by destruct (found _ _).
  - unfold addUser. destruct (truthyTarget _); [|done]. by destruct (found _ _).
  - unfold logEvent. destruct (truthyTarget _); [|done]. by destruct (found _ _).
  - unfold addLatencySample. destruct (truthyTarget _); [|done]. by destruct (found _ _).
  - unfold addWebRTCSample. destruct (truthyTarget _); [|done]. by destruct (found _ _).
  - destruct (saveTimer t) eqn:Hs; [done|]. intros _. by apply Hinv.
Qed.

(** X29. No update is left unsaved without a save being scheduled: after
    any sequence of calls to the service and firings of its save timer,
    starting from the loaded file, either a save is pending or the file
    holds exactly the sessions in memory. *)
Theorem stats_unsaved_data_has_pending_save cs sessions :
  saveTimer (calls cs (load sessions)) = false →
  file (calls cs (load sessions)) = db (calls cs (load sessions)).
Proof.
  unfold calls.
  assert (H : ∀ t, (saveTimer t = false → file t = db t) →
                   saveTimer (foldl (λ t c, call c.1 c.2 t) t cs) = false →
                   file (foldl (λ t c, call c.1 c.2 t) t cs) =
                   db (foldl (λ t c, call c.1 c.2 t) t cs)).
  { induction cs as [|[now c] cs IH]; intros t Ht; [done|]. cbn [foldl fst snd].
    apply IH. by apply call_keeps_synced. }
  by apply H.
Qed.

Lemma stats_unsaved_data_has_pending_save_witness :
  let cs := [(1, CallStartOrResume "s1" "host"); (2, CallAddUser alice);
             (5002, SaveTimerFires)] in
  saveTimer (calls cs (load [])) = false ∧
  file (calls cs (load [])) = db (calls cs (load [])) ∧
  length (events <$> db (calls cs (load []))) = 1%nat.
Proof.
  intros cs. split; [reflexivity|]. split; [|reflexivity].
  apply (stats_unsaved_data_has_pending_save cs []). reflexivity.
Defined.
